(* ===== verification/_CoqProject ===== *)
-Q . S2P
Prelude.v
Values.v
Schema.v
Relation.v
Populate.v
Delete.v
Files.v
Imaging.v
Segment.v
Components.v
Makes.v
Computed.v
Explore.v
Notebooks.v
NotebookComputed.v
Docker.v
