(* ===== verification/Prelude.v ===== *)
(** * A verification development of the DataJoint tutorial notebooks

    ** The program

    The repository is a set of Jupyter notebooks that build a scientific
    data pipeline on the DataJoint library:
    - [src/notebooks/02-Calcium-Imaging-Imported-Tables.ipynb] declares the
      manual table [Scan] and the imported table [AverageFrame], whose
      [make] reads a TIFF stack and stores its mean over frames;
    - [src/notebooks/04-Electrophysiology-Imported-Tables.ipynb] declares
      the imported table [Neuron], whose [make] loads the
      [data_{mouse_id}_{session_date}.npy] file of a session and inserts one
      row per neuron;
    - [src/unnamed/part_001] (the calcium-imaging "Computed tables"
      notebook) declares the lookup table [SegmentationParam], the computed
      master table [Segmentation] with its part table [Segmentation.Roi],
      and the imported table [Fluorescence] with its part [Trace];
    - [src/unnamed/part_000] is the Dockerfile of the dev container, in
      which the notebooks run against a DataJoint database server.

    The notebooks interact through the database: a [make] reads rows of
    upstream tables ([fetch1]) and files named by them, and inserts rows
    into its own table; DataJoint's [populate] enumerates the keys of the
    upstream tables that have no row downstream yet and runs [make] on each,
    one transaction per key. [Mouse] and [Session] come from
    [tutorial_pipeline.mouse_session], which is not in the sources; they are
    modelled from the spec.

    ** Files, in dependency order
    - [Prelude] (this file): the [dj_scope] notations, the result type
      [result] and the state-and-error monad [stm] (state passing with an
      exception) in which every operation is written, its laws, the [dj]
      hint database, the tactic [decide_by_eval] and shared list lemmas.
    - [Values]: numpy [float64] as exact rationals with [nan]/[inf]
      ([pyfloat], [fdiv]), key values, blobs, attribute values, rows as
      [gmap string value] (the Python dicts), and the exceptions [exn].
    - [Schema]: [Module Heading] is DataJoint's [@schema] step ([declare]:
      key inheritance through [->], duplicate columns refused, an existing
      table kept when a class is redefined) and its invariant [wf_schema];
      [Module Pipeline] holds every table class of the notebooks
      ([Scan], [AverageFrame], [Neuron], [SegmentationParam],
      [Segmentation], [Segmentation_Roi], [Fluorescence],
      [Fluorescence_Trace]) as the notebooks write them.
    - [Relation]: [Module Table], the database (table name to a map from
      primary-key tuple to row) and [insert1], [insert], [fetch1],
      [fetch('KEY')], restriction, join and antijoin, with the checks of
      DataJoint and MySQL, and the invariant [db_wf].
    - [Populate]: [Module AutoPopulate], DataJoint's [populate] (jobs are
      [key_source - T], one rolled-back transaction per key, the first
      exception stops the loop) and the typeclass [MakeContract], the
      interface between [populate] and a [make]: the theorems about
      [populate] are proved against it in [Section Contract].
    - [Delete]: [Module Delete], DataJoint's cascading [delete] (the
      restricted rows, then every table from upstream to downstream loses
      the rows whose parent is gone), and the notebook's delete of the
      parameter set [0].
    - [Files]: [Module PyStr] (Python's [str] of ints, prefix, suffix and
      partition on strings), [Module DataFiles] (the file system as a map,
      [io.imread], [np.load], [os.path.join], and the
      [data_{mouse_id}_{session_date}.npy] name built with [str.format]).
    - [Imaging]: [Module Mean], [np.mean(im, axis=0)] on a TIFF stack.
    - [Segment]: the image part of [Segmentation.make]: [Module Label] is
      [ndimage.label] (4-connected components numbered in raster order),
      [Module Segment] is [np.unique], the [sizes] array, the size filter
      with numpy's fancy indexing, and the ROI labels [np.unique(...)[1:]].
    - [Components]: the specification of [ndimage.label] as the inductive
      relation [connected] (a path of neighbouring mask pixels) and the
      refinement theorem: the labelling of [Segment] gives two mask pixels
      the same label exactly when they are connected.
    - [Makes]: [Module Makes], the [make] methods of notebooks 02 and 04
      ([print_make], [AverageFrame_make], [Neuron_make] with its loop
      [neuron_loop], which updates and re-inserts one shared dict), the
      instance of [MakeContract] for [AverageFrame_make], and the theorems
      about populating [AverageFrame] and [Neuron].
    - [Computed]: [Module Computed], [Segmentation.make] and
      [Fluorescence.make] of the computed-tables notebook (fetches,
      segmentation, ROI dicts built with [dict( **key, ...)], the time axis
      [range(n)/fps], the mean trace of every ROI mask, inserts into the
      master then the part table).
    - [Explore]: [Module Explore], the exploratory cells of the
      computed-tables notebook (lines 171-397) run statement by statement
      against the notebook's namespace (variables to Python objects), with
      the in-place [label_im[pixel_to_remove] = 0].
    - [Notebooks]: [Module Notebook], the database cells of notebooks 02
      and 04 as scripts run cell by cell against one state (schema,
      database, the [make] bound to each class; a cell that raises shows
      its exception and the next runs), and the witnesses that run the
      claims on the notebooks' own data.
    - [NotebookComputed]: [Module ComputedNotebook], the database cells of
      the computed-tables notebook (parameter sets, the [populate]
      exercises empty as written or filled, the two deletes, the fetch of
      the ROI masks), and the witnesses of the claims on them.
    - [Docker]: [Module Docker], the Dockerfile as steps on an image
      (accounts, directories, files, packages, apt lists, environment,
      [USER], [CMD]): [RUN] joins its commands with [&&], the [CMD] with
      [;]; the base image and what the packages install are taken from
      their documentation.

    ** Theorems
    - Populating: after [AverageFrame.populate()] succeeds no scan lacks
      its average frame; with empty data files [Neuron.populate()]
      succeeds, inserts nothing and leaves the sessions pending; after
      [Segmentation.populate()] succeeds every pair of an average frame and
      a parameter set has its segmentation, after
      [Fluorescence.populate()] every segmentation has its traces, and
      [Segmentation.populate()] before any parameter set does nothing.
    - The [make]s: what [AverageFrame.make], [Neuron.make] and
      [Segmentation.make] insert (the errors are the [Err] cases of the
      monad).
    - The electrophysiology notebook as a script: with its exercises
      filled, its first [Neuron.populate()] raises [NotImplementedError]
      and its second, with the printing [make], succeeds and inserts
      nothing, as its text says.
    - Labelling: the model of [ndimage.label] refines connected-component
      labelling (same label iff joined by a path in the mask).
    - Segmentation: with a background pixel the segmentation succeeds and
      its ROIs are exactly the labels left other than [0], each of at
      least [size_cutoff] pixels; with no background pixel
      [Segmentation.make] raises [IndexError] (a bug of the size filter);
      the trace of an ROI stays within the range of the pixels, and an
      [fps] of [0] gives [nan] and [inf] times without an exception; the
      masks [Segmentation.make] cuts from a stack's average frame fit
      [Fluorescence.make]'s reshape of that stack (the [make]s composed).
    - Deleting: the single upstream-to-downstream pass of [delete]
      refines the declarative cascade (a row is left exactly when it
      neither matches the restriction nor references, through a chain of
      foreign keys, a row that does); the notebook's delete of a parameter
      set removes exactly the rows computed from that parameter set.
    - The computed-tables notebook: its exploration cells compute the label
      image and the ROI masks that [Segmentation.make] stores for the same
      frame and parameters; as written (exercises empty) its [masks[4]]
      raises [IndexError]; filled or not, it ends with no row of the
      parameter set [0] in [SegmentationParam], [Segmentation] or
      [Segmentation.Roi] (proved through the invariant that its cells keep
      the state well formed, [Segmentation.make], written against the
      full schema, running under the notebook's partial schema).
    - The dev container: in any image whose [USER] may use [sudo] without
      a password, with [sudo] and Docker installed, the [CMD] starts the
      Docker daemon with or without a stale pid file, because its commands
      are joined by [;]; the image the Dockerfile builds is one.
    - Files and arrays: the data file name of a session parses back to its
      key and two sessions never share a file; the average frame stays
      within the bounds of its pixels.

    ** Choices and bounds
    Every loop of the program is a structural recursion over a list (the
    jobs, the rows of a data file, the frames of a stack), so no fuel is
    needed and every operation is total. The labelling of [ndimage.label]
    runs on fuel: the outer loop gets the number of mask pixels (each round
    labels at least one), the growth of a component the number of pixels
    left (each round takes at least one); [label_loop_dom] shows this fuel
    labels every pixel of the mask, and [label_loop_fuel_more] and
    [grow_fuel_enough] that more fuel changes nothing: both loops end
    within their fuel. Floats are exact rationals:
    rounding is not modelled, [nan] and [inf] are. The witnesses evaluate
    the model by [vm_compute] inside [bool_decide] on small stand-in files
    (stacks of one or two 1x2 or 1x1 frames, arrays of at most two rows,
    one of them empty) for the notebooks' data.

    ** Not modelled
    [print] calls and plots (not observable state), [dj.Diagram], the
    last cell of the computed-tables notebook (a syntax error as written:
    [time = ] is left for the reader), DataJoint's [reserve_jobs] and
    populate options (unused by the notebooks), and, in the Dockerfile,
    what [apt-get] and [pip] download (the network is taken to be up). *)

From Stdlib Require Import ZArith.
From stdpp Require Export base list gmap strings.

Declare Scope dj_scope.
Delimit Scope dj_scope with dj.
Open Scope dj_scope.

Create HintDb dj discriminated.
Create Rewrite HintDb dj_rw.

(** ** Results: a value or the exception that was raised *)

Inductive result (E A : Type) : Type :=
| Ok (a : A)
| Err (e : E).
Arguments Ok {E A} a.
Arguments Err {E A} e.

#[export] Instance result_eq_dec {E A} `{!EqDecision E, !EqDecision A} :
  EqDecision (result E A).
Proof. solve_decision. Defined.

Definition rbind {E A B} (c : result E A) (k : A -> result E B) : result E B :=
  match c with Ok a => k a | Err e => Err e end.

Notation "x <-? c ;; k" := (rbind c (fun x => k))
  (at level 100, c at next level, right associativity) : dj_scope.

Lemma rbind_Ok_inv {E A B} (c : result E A) (k : A -> result E B) b :
  rbind c k = Ok b -> exists a, c = Ok a /\ k a = Ok b.
Proof. destruct c; simpl; [eauto|discriminate]. Qed.

(** [[f(x) for x in l]] where [f] may raise. *)
Fixpoint mapR {E A B} (f : A -> result E B) (l : list A) : result E (list B) :=
  match l with
  | [] => Ok []
  | x :: l' => y <-? f x ;; ys <-? mapR f l' ;; Ok (y :: ys)
  end.

Lemma mapR_Ok_inv {E A B} (f : A -> result E B) l ys :
  mapR f l = Ok ys -> Forall2 (fun x y => f x = Ok y) l ys.
Proof.
  revert ys. induction l as [|x l IH]; simpl; intros ys H.
  - simplify_eq. constructor.
  - apply rbind_Ok_inv in H as (y & Hy & H).
    apply rbind_Ok_inv in H as (ys' & Hys & H). simplify_eq. auto.
Qed.

(** [mapR] raises the exception of the first element that raises. *)
Lemma mapR_Err_inv {E A B} (f : A -> result E B) l e :
  mapR f l = Err e -> exists x, x ∈ l /\ f x = Err e.
Proof.
  induction l as [|x l IH]; simpl; [done|].
  destruct (f x) eqn:Hx; simpl; [|intros [= ->]; exists x; split; [left|]; done].
  destruct (mapR f l); simpl; [done|]. intros [= ->].
  destruct IH as (y & Hy & Hfy); [done|]. exists y. split; [by right|done].
Qed.

(** [mapR f l] succeeds with [map g l] when [f] agrees with [g] on [l]. *)
Lemma mapR_Ok_map {E A B} (f : A -> result E B) (g : A -> B) l :
  (forall x, x ∈ l -> f x = Ok (g x)) -> mapR f l = Ok (map g l).
Proof.
  induction l as [|x l IH]; simpl; intros H; [done|].
  rewrite H by (by left). simpl. rewrite IH; [done|]. intros y Hy. apply H. by right.
Qed.

(** When [f] raises only [e], [mapR f l] raises [e] as soon as one
    element of [l] makes [f] raise. *)
Lemma mapR_Err {E A B} (f : A -> result E B) l x e :
  (forall y e', f y = Err e' -> e' = e) -> x ∈ l -> f x = Err e -> mapR f l = Err e.
Proof.
  intros Honly Hx Hfx. induction l as [|y l IH]; simpl; [by apply elem_of_nil in Hx|].
  destruct (f y) as [b|e'] eqn:Hy; simpl; [|by rewrite (Honly _ _ Hy)].
  apply elem_of_cons in Hx as [->|Hx]; [congruence|]. by rewrite IH.
Qed.

Definition is_ok {E A} (r : result E A) : bool :=
  match r with Ok _ => true | Err _ => false end.

(** ** The state-and-error monad

    [stm S E A] threads a state [S] (the database) and stops at the first
    exception, discarding the state reached so far: the caller keeps the
    state it passed in. This is how a failing statement or a rolled-back
    transaction behaves. *)

Definition stm (S E A : Type) : Type := S -> result E (A * S).

Definition sret {S E A} (a : A) : stm S E A := fun s => Ok (a, s).

Definition sbind {S E A B} (c : stm S E A) (k : A -> stm S E B) : stm S E B :=
  fun s => match c s with Ok (a, s') => k a s' | Err e => Err e end.

Definition sthrow {S E A} (e : E) : stm S E A := fun _ => Err e.

Definition sget {S E} : stm S E S := fun s => Ok (s, s).

Definition sput {S E} (s : S) : stm S E unit := fun _ => Ok (tt, s).

(** Lift a pure computation that can fail. *)
Definition slift {S E A} (r : result E A) : stm S E A :=
  fun s => match r with Ok a => Ok (a, s) | Err e => Err e end.

Notation "x <- c ;; k" := (sbind c (fun x => k))
  (at level 100, c at next level, right associativity) : dj_scope.
Notation "c ;;; k" := (sbind c (fun _ => k))
  (at level 100, right associativity) : dj_scope.

(** [for x in l: f(x)] *)
Fixpoint sfor {S E A} (l : list A) (f : A -> stm S E unit) : stm S E unit :=
  match l with
  | [] => sret tt
  | x :: l' => f x ;;; sfor l' f
  end.

(** ** Monad laws and the shape of results *)

Lemma sbind_ret {S E A B} (a : A) (k : A -> stm S E B) s :
  sbind (sret a) k s = k a s.
Proof. reflexivity. Qed.

Lemma sbind_assoc {S E A B C} (c : stm S E A) (k : A -> stm S E B)
      (h : B -> stm S E C) s :
  sbind (sbind c k) h s = sbind c (fun a => sbind (k a) h) s.
Proof. unfold sbind. destruct (c s) as [[a s']|e]; reflexivity. Qed.

Lemma sbind_Ok_inv {S E A B} (c : stm S E A) (k : A -> stm S E B) s b s' :
  sbind c k s = Ok (b, s') ->
  exists a s1, c s = Ok (a, s1) /\ k a s1 = Ok (b, s').
Proof. unfold sbind. destruct (c s) as [[a s1]|e]; [eauto|discriminate]. Qed.

Lemma sbind_Err_inv {S E A B} (c : stm S E A) (k : A -> stm S E B) s e :
  sbind c k s = Err e ->
  c s = Err e \/ exists a s1, c s = Ok (a, s1) /\ k a s1 = Err e.
Proof. unfold sbind. destruct (c s) as [[a s1]|e']; [eauto|intros [= ->]; auto]. Qed.

Lemma sbind_Ok {S E A B} (c : stm S E A) (k : A -> stm S E B) s a s1 :
  c s = Ok (a, s1) -> sbind c k s = k a s1.
Proof. unfold sbind. intros ->. reflexivity. Qed.

Lemma sbind_Err {S E A B} (c : stm S E A) (k : A -> stm S E B) s e :
  c s = Err e -> sbind c k s = Err e.
Proof. unfold sbind. intros ->. reflexivity. Qed.

Lemma slift_Ok_inv {S E A} (r : result E A) (s : S) a s' :
  slift r s = Ok (a, s') -> r = Ok a /\ s' = s.
Proof. unfold slift. destruct r; intros; simplify_eq; auto. Qed.

(** A state predicate preserved by every step of a loop is preserved by the
    loop. *)
Lemma sfor_preserves {S E A} (P : S -> Prop) (l : list A)
      (f : A -> stm S E unit) :
  (forall x s s', x ∈ l -> P s -> f x s = Ok (tt, s') -> P s') ->
  forall s s', P s -> sfor l f s = Ok (tt, s') -> P s'.
Proof.
  induction l as [|x l IH]; simpl; intros Hf s s' Hs Hrun.
  - unfold sret in Hrun. simplify_eq. done.
  - apply sbind_Ok_inv in Hrun as ([] & s1 & H1 & H2).
    eapply IH; [|eapply Hf; [|exact Hs|exact H1]|exact H2]; set_solver.
Qed.

(** A loop fails exactly when one of its iterations fails. *)
Lemma sfor_app {S E A} (l1 l2 : list A) (f : A -> stm S E unit) s :
  sfor (l1 ++ l2) f s = sbind (sfor l1 f) (fun _ => sfor l2 f) s.
Proof.
  revert s. induction l1 as [|x l1 IH]; intros s; [reflexivity|].
  simpl. unfold sbind. destruct (f x s) as [[[] s1]|e]; [|reflexivity].
  apply IH.
Qed.

#[export] Hint Resolve sbind_Ok sbind_Err : dj.
#[export] Hint Rewrite @sbind_ret @sbind_assoc : dj_rw.

(** Break a successful run [H] of [x <- c ;; k] into the run [H1] of [c],
    with result [a] and state [s], and the run of [k], still named [H]. *)
Tactic Notation "inv_sbind" hyp(H) "as" simple_intropattern(a)
    simple_intropattern(s) ident(H1) :=
  apply sbind_Ok_inv in H as (a & s & H1 & H).

(** ** Shared list lemmas *)

Lemma filter_nil_iff {A} (P : A -> Prop) `{!forall x, Decision (P x)} (l : list A) :
  filter P l = [] <-> Forall (fun x => ~ P x) l.
Proof.
  induction l as [|x l IH]; simpl; [split; auto|].
  rewrite filter_cons. case_decide.
  - split; [discriminate|]. intros Hf. inversion Hf. contradiction.
  - rewrite IH. split; [by constructor|]. by inversion 1.
Qed.

Lemma Forall_filter_sub {A} (P Q : A -> Prop) `{!forall x, Decision (Q x)} (l : list A) :
  Forall P l -> Forall P (filter Q l).
Proof.
  rewrite !Forall_forall. intros HP x Hx. apply list_elem_of_filter in Hx. naive_solver.
Qed.

(** Close a decidable goal about concrete data by evaluation. *)
(** Filters that agree on the elements of a list agree on the list. *)
Lemma filter_ext_in {A} (P1 P2 : A -> Prop) `{!forall x, Decision (P1 x), !forall x, Decision (P2 x)}
    (l : list A) :
  (forall x, x ∈ l -> P1 x <-> P2 x) -> filter P1 l = filter P2 l.
Proof.
  induction l as [|a l IH]; intros Hl; [done|]. rewrite !filter_cons.
  rewrite IH by (intros x Hx; apply Hl; by right).
  destruct (decide (P1 a)) as [H1|H1], (decide (P2 a)) as [H2|H2]; try done;
    exfalso; [apply H2|apply H1]; apply Hl; [by left|done|by left|done].
Qed.

Ltac decide_by_eval :=
  match goal with |- ?P => apply (bool_decide_unpack P); vm_compute; exact I end.
