(* ===== verification/Values.v ===== *)
(** * Values: what a DataJoint attribute, a numpy array element and a
    Python [dict] hold in the notebooks.

    - [pyfloat]: a numpy [float64] as an exact rational, with [nan] and
      signed infinity for the results of division by zero (rounding is not
      modelled).
    - [keyval]: the values primary-key attributes take ([int] and
      [date]/[varchar]; DataJoint refuses blobs in a primary key).
    - [blob]: the numpy arrays the notebooks store in [longblob] attributes.
    - [value], and [row := gmap string value] for the Python dicts ([key] and the dicts built from it) passed to [insert1] and returned by [fetch].
    - [exn]: the exceptions that the notebooks' code can raise. *)

From Stdlib Require Import ZArith QArith.
From S2P Require Import Prelude.

(** ** numpy float64 *)

Inductive pyfloat : Type :=
| Fnum (q : Q)
| Fnan
| Finf (neg : bool).

#[export] Instance Q_eq_dec : EqDecision Q.
Proof. solve_decision. Defined.
#[export] Instance pyfloat_eq_dec : EqDecision pyfloat.
Proof. solve_decision. Defined.

(** [a < b] on rationals. *)
Definition Qltb (a b : Q) : bool := negb (Qle_bool b a).

Lemma Qltb_spec a b : Qltb a b = true <-> (a < b)%Q.
Proof.
  unfold Qltb. rewrite negb_true_iff, <- not_true_iff_false, Qle_bool_iff.
  split; [apply Qnot_le_lt|apply Qlt_not_le].
Qed.

(** Arithmetic results are kept in lowest terms, so that two equal numbers
    are the same [pyfloat]. *)
Definition fnum (q : Q) : pyfloat := Fnum (Qred q).

Definition fof_Z (z : Z) : pyfloat := fnum (inject_Z z).

(** [x + y] (only finite operands arise in the notebooks' sums). *)
Definition fadd (x y : pyfloat) : pyfloat :=
  match x, y with
  | Fnum a, Fnum b => fnum (a + b)
  | Fnan, _ | _, Fnan => Fnan
  | Finf n1, Finf n2 => if bool_decide (n1 = n2) then Finf n1 else Fnan
  | Finf n, _ | _, Finf n => Finf n
  end.

(** [x / y] in IEEE semantics: a finite number divided by zero is an
    infinity of the numerator's sign, [0/0] is [nan]. *)
Definition fdiv (x y : pyfloat) : pyfloat :=
  match x, y with
  | Fnum a, Fnum b =>
      if Qeq_bool b 0 then
        if Qeq_bool a 0 then Fnan else Finf (Qltb a 0)
      else fnum (a / b)
  | Fnan, _ | _, Fnan => Fnan
  | Finf _, Finf _ => Fnan
  | Finf n, Fnum b => Finf (xorb n (Qltb b 0))
  | Fnum _, Finf _ => fnum 0
  end.

(** [x > y]: every comparison with [nan] is false. *)
Definition fgt (x y : pyfloat) : bool :=
  match x, y with
  | Fnum a, Fnum b => Qltb b a
  | Fnan, _ | _, Fnan => false
  | Finf n1, Finf n2 => n2 && negb n1
  | Finf n, Fnum _ => negb n
  | Fnum _, Finf n => n
  end.

(** [x < y] *)
Definition flt (x y : pyfloat) : bool := fgt y x.

(** ** Primary-key values *)

Inductive keyval : Type :=
| KInt (z : Z)
| KStr (s : string).

#[export] Instance keyval_eq_dec : EqDecision keyval.
Proof. solve_decision. Defined.

#[export] Program Instance keyval_countable : Countable keyval :=
  inj_countable'
    (fun k => match k with KInt z => inl z | KStr s => inr s end)
    (fun x => match x with inl z => KInt z | inr s => KStr s end) _.
Next Obligation. by intros []. Qed.

(** ** Blobs: the numpy arrays of [longblob] attributes *)

Inductive blob : Type :=
| BVec (v : list pyfloat)                (** 1-D float array *)
| BFrame (m : list (list pyfloat))       (** 2-D float array (an image) *)
| BLabels (m : list (list Z))            (** 2-D int array (a label image) *)
| BMask (m : list (list bool)).          (** 2-D bool array (an ROI mask) *)

#[export] Instance blob_eq_dec : EqDecision blob.
Proof. solve_decision. Defined.

(** ** Attribute values *)

Inductive value : Type :=
| VInt (z : Z)          (** [int] *)
| VFloat (f : pyfloat)  (** [float] *)
| VStr (s : string)     (** [varchar(n)] and [date] (ISO form) *)
| VBlob (b : blob).     (** [longblob] *)

#[export] Instance value_eq_dec : EqDecision value.
Proof. solve_decision. Defined.

Definition value_key (v : value) : option keyval :=
  match v with
  | VInt z => Some (KInt z)
  | VStr s => Some (KStr s)
  | _ => None
  end.

Definition key_value (k : keyval) : value :=
  match k with KInt z => VInt z | KStr s => VStr s end.

Lemma value_key_value k : value_key (key_value k) = Some k.
Proof. by destruct k. Qed.

Lemma key_value_inv v k : value_key v = Some k -> v = key_value k.
Proof. destruct v; simpl; intros; simplify_eq; done. Qed.

(** A Python [dict] from attribute names to values. *)
Abbreviation row := (gmap string value).

(** ** Python exceptions *)

Inductive exn : Type :=
| UnknownTable (t : string)
    (** the table is not declared in the schema *)
| UnknownAttribute (t a : string)
    (** DataJointError: Field [a] not in the table heading *)
| MissingAttribute (t a : string)
    (** MySQL: Field [a] doesn't have a default value *)
| DuplicateEntry (t : string)
    (** MySQL IntegrityError 1062: the primary key is already present *)
| ForeignKeyViolation (t parent : string)
    (** MySQL IntegrityError 1452: no referenced row in [parent] *)
| DirectInsert (t : string)
    (** DataJointError: an auto-populated table is inserted into outside
        its [make] *)
| FetchOneError (t : string) (n : nat)
    (** DataJointError: [fetch1] found [n] rows instead of one *)
| MakeNotImplemented (t : string)
    (** NotImplementedError: [make] is not defined *)
| FileNotFound (path : string)
    (** FileNotFoundError / OSError from [np.load] or [io.imread] *)
| BadFile (path : string)
    (** the file is not of the format the reader expects *)
| PyKeyError (a : string)
    (** KeyError: a [dict] has no entry [a] *)
| PyIndexError
    (** IndexError: a numpy index is out of bounds *)
| PyTypeError
    (** TypeError: an operand of the wrong type *)
| PyValueError
    (** ValueError: [np.reshape] to a shape of another size *)
| PyNameError (x : string)
    (** NameError: the variable [x] of a notebook is not bound *)
| DuplicateColumn (t a : string)
    (** MySQL: a table declares the attribute [a] twice *)
| DataTooLong (t a : string).
    (** MySQL (strict mode): a string longer than its [varchar(n)] *)

#[export] Instance exn_eq_dec : EqDecision exn.
Proof. solve_decision. Defined.
