(* ===== verification/Schema.v ===== *)
(** * Schema: table declarations and primary-key inheritance.

    A DataJoint table class carries a [definition] string: the lines above
    [---] are the primary key, made of foreign-key references [-> Parent]
    (whose primary-key attributes the table inherits) and its own key
    attributes; the lines below are the secondary attributes. The [@schema]
    decorator declares the table in the database, unless a table of that
    name is declared already, in which case the class is bound to the
    existing table (this is what happens when a notebook redefines
    [AverageFrame] to add a [make]).

    [Module Heading] holds the data of a declaration ([table_decl], with
    the source's tiers and attribute types), the resolved heading of a
    declared table and [declare], the [@schema] step. Its invariant
    [wf_schema] says that every declared table inherits the primary key of
    each parent it references above [---], that a parent is declared before
    its child (a rank), and that no attribute is declared twice; [declare]
    preserves it. [Module Pipeline] holds the declarations of the
    notebooks. *)

From Stdlib Require Import ZArith.
From S2P Require Import Prelude Values.

Module Heading.

(** Table tiers: [dj.Manual], [dj.Lookup], [dj.Imported], [dj.Computed],
    [dj.Part]. *)
Inductive tier : Type := Manual | Lookup | Imported | Computed | Part.

#[export] Instance tier_eq_dec : EqDecision tier.
Proof. solve_decision. Defined.

(** Imported and Computed tables are filled by [populate]. *)
Definition auto_populated (t : tier) : bool :=
  match t with Imported | Computed => true | _ => false end.

(** Attribute types of the definitions: [int], [float], [date],
    [varchar(n)], [longblob]. *)
Inductive attr_type : Type :=
| TInt | TFloat | TDate | TVarchar (n : nat) | TLongblob.

#[export] Instance attr_type_eq_dec : EqDecision attr_type.
Proof. solve_decision. Defined.

(** [name = default : type  # comment] *)
Record attr : Type := mk_attr {
  aname : string;
  atype : attr_type;
  adefault : option value
}.

#[export] Instance attr_eq_dec : EqDecision attr.
Proof. solve_decision. Defined.

(** [-> master] in a part table, or [-> Table]. *)
Inductive fk_ref : Type :=
| RefMaster
| RefTable (t : string).

(** A table class: its name, tier, master (for a part table), the
    references and attributes above [---], those below. *)
Record table_decl : Type := mk_decl {
  d_name : string;
  d_tier : tier;
  d_master : option string;
  d_key_refs : list fk_ref;
  d_key : list attr;
  d_refs : list fk_ref;
  d_attrs : list attr
}.

(** A declared table: its tier, master, declaration rank, resolved parents
    and the full primary key and secondary attributes. *)
Record heading : Type := mk_heading {
  h_tier : tier;
  h_master : option string;
  h_rank : nat;
  h_key_parents : list string;
  h_parents : list string;
  h_key : list attr;
  h_attrs : list attr
}.

#[export] Instance heading_eq_dec : EqDecision heading.
Proof. solve_decision. Defined.

Abbreviation schema := (gmap string heading).

Definition names (l : list attr) : list string := map aname l.

Definition all_attrs (h : heading) : list attr := h_key h ++ h_attrs h.

(** Inherited attributes: those of a later reference that an earlier one
    already brought are merged. *)
Definition merge_attrs (acc new : list attr) : list attr :=
  acc ++ filter (fun a => aname a ∉ names acc) new.

Definition resolve (d : table_decl) (r : fk_ref) : result exn string :=
  match r with
  | RefTable t => Ok t
  | RefMaster =>
      match d_master d with Some m => Ok m | None => Err (UnknownTable "master") end
  end.

Definition parent_heading (s : schema) (t : string) : result exn heading :=
  match s !! t with Some h => Ok h | None => Err (UnknownTable t) end.

(** The primary-key attributes inherited from the parents [ps]. *)
Fixpoint inherit (s : schema) (ps : list string) (acc : list attr)
    : result exn (list attr) :=
  match ps with
  | [] => Ok acc
  | p :: ps' => hp <-? parent_heading s p ;; inherit s ps' (merge_attrs acc (h_key hp))
  end.

(** The first name that occurs twice. *)
Fixpoint find_dup (l : list string) : option string :=
  match l with
  | [] => None
  | x :: l' => if bool_decide (x ∈ l') then Some x else find_dup l'
  end.

(** [@schema class T(...)]: declare [d] unless a table of that name exists. *)
Definition declare (s : schema) (d : table_decl) : result exn schema :=
  match s !! d_name d with
  | Some _ => Ok s
  | None =>
      kps <-? mapR (resolve d) (d_key_refs d) ;;
      ps <-? mapR (resolve d) (d_refs d) ;;
      inh <-? inherit s kps [] ;;
      sec <-? inherit s ps [] ;;
      let k := inh ++ d_key d in
      let a := filter (fun x => aname x ∉ names k) sec ++ d_attrs d in
      match find_dup (names (k ++ a)) with
      | Some x => Err (DuplicateColumn (d_name d) x)
      | None =>
          Ok (<[d_name d := mk_heading (d_tier d) (d_master d) (size s) kps ps k a]> s)
      end
  end.

(** The classes of a notebook declared in order. *)
Fixpoint declare_all (s : schema) (ds : list table_decl) : result exn schema :=
  match ds with
  | [] => Ok s
  | d :: ds' => s' <-? declare s d ;; declare_all s' ds'
  end.

(** ** Well-formed schemas *)

Definition parent_ok (s : schema) (h : heading) (scope : list attr) (p : string) : Prop :=
  exists hp, s !! p = Some hp /\ h_rank hp < h_rank h /\ names (h_key hp) ⊆ names scope.

Definition heading_ok (s : schema) (h : heading) : Prop :=
  Forall (parent_ok s h (h_key h)) (h_key_parents h) /\
  Forall (parent_ok s h (all_attrs h)) (h_parents h) /\
  NoDup (names (all_attrs h)) /\
  h_rank h < size s.

Definition wf_schema (s : schema) : Prop :=
  map_Forall (fun _ h => heading_ok s h) s.

(** ** Lemmas *)

Lemma merge_attrs_incl acc new : names acc ⊆ names (merge_attrs acc new).
Proof. unfold merge_attrs, names. rewrite fmap_app. set_solver. Qed.

Lemma merge_attrs_covers acc new : names new ⊆ names (merge_attrs acc new).
Proof.
  unfold merge_attrs, names. rewrite fmap_app. intros x Hx.
  apply elem_of_app. destruct (decide (x ∈ map aname acc)); [by left|right].
  apply list_elem_of_fmap in Hx as (a & -> & Ha).
  apply list_elem_of_fmap. exists a. split; [done|]. apply list_elem_of_filter. done.
Qed.

Lemma inherit_spec s ps acc k :
  inherit s ps acc = Ok k ->
  names acc ⊆ names k /\
  Forall (fun p => exists hp, s !! p = Some hp /\ names (h_key hp) ⊆ names k) ps.
Proof.
  revert acc. induction ps as [|p ps IH]; simpl; intros acc H.
  - simplify_eq. done.
  - apply rbind_Ok_inv in H as (hp & Hp & H).
    unfold parent_heading in Hp. destruct (s !! p) as [hp'|] eqn:E; simplify_eq.
    destruct (IH _ H) as [Hsub Hall].
    pose proof (merge_attrs_incl acc (h_key hp)).
    pose proof (merge_attrs_covers acc (h_key hp)).
    split; [set_solver|]. constructor; [|done]. exists hp. set_solver.
Qed.

Lemma find_dup_None l : find_dup l = None -> NoDup l.
Proof.
  induction l as [|x l IH]; simpl; [constructor|].
  case_bool_decide; [discriminate|]. constructor; auto.
Qed.

(** Everything a new declaration needs of its parents holds in the larger
    schema too. *)
Lemma parent_ok_insert s t h0 h scope p :
  s !! t = None -> parent_ok s h scope p -> parent_ok (<[t:=h0]> s) h scope p.
Proof.
  intros Hnone (hp & Hp & Hr & Hk). exists hp.
  rewrite lookup_insert_ne; [done|]. intros ->. congruence.
Qed.

Lemma fresh_covers (k sec rest : list attr) :
  names sec ⊆ names (k ++ filter (fun x => aname x ∉ names k) sec ++ rest).
Proof.
  unfold names. rewrite !fmap_app. intros x Hx.
  apply list_elem_of_fmap in Hx as (a & -> & Ha).
  destruct (decide (aname a ∈ map aname k)); [set_solver|].
  apply elem_of_app; right. apply elem_of_app; left.
  apply list_elem_of_fmap. exists a. split; [done|]. by apply list_elem_of_filter.
Qed.

Lemma heading_ok_insert s t h0 h :
  s !! t = None -> heading_ok s h -> heading_ok (<[t:=h0]> s) h.
Proof.
  intros Hn (Hk & Hp & Hnd & Hr). unfold heading_ok.
  rewrite map_size_insert_None by done.
  split_and!; [| |done|lia]; eapply Forall_impl; eauto using parent_ok_insert.
Qed.

(** Parents found by [inherit] in a well-formed schema are [parent_ok] for
    a heading declared next. *)
Lemma inherit_parents_ok s ps acc inh t h scope :
  wf_schema s -> s !! t = None -> h_rank h = size s ->
  inherit s ps acc = Ok inh -> names inh ⊆ names scope ->
  Forall (parent_ok (<[t:=h]> s) h scope) ps.
Proof.
  intros Hwf Hn Hr Hinh Hsc. apply inherit_spec in Hinh as [_ Hall].
  eapply Forall_impl; [exact Hall|]. intros p (hp & Hp & Hsub).
  exists hp. rewrite lookup_insert_ne by (intros ->; congruence).
  split_and!; [done| |set_solver]. rewrite Hr. apply (Hwf p hp Hp).
Qed.

(** Declaring a table keeps the schema well formed. *)
Theorem declare_wf s d s' : wf_schema s -> declare s d = Ok s' -> wf_schema s'.
Proof.
  intros Hwf. unfold declare. destruct (s !! d_name d) eqn:Hn; [by intros [= <-]|].
  intros H. apply rbind_Ok_inv in H as (kps & _ & H).
  apply rbind_Ok_inv in H as (ps & _ & H).
  apply rbind_Ok_inv in H as (inh & Hinh & H).
  apply rbind_Ok_inv in H as (sec & Hsec & H).
  destruct (find_dup _) eqn:Hd; simplify_eq.
  apply map_Forall_insert_2.
  - split_and!; simpl.
    + eapply inherit_parents_ok; eauto. unfold names. rewrite fmap_app. set_solver.
    + eapply inherit_parents_ok; eauto. apply fresh_covers.
    + by apply find_dup_None.
    + rewrite map_size_insert_None by done. lia.
  - intros t h Ht. apply heading_ok_insert; [done|]. exact (Hwf t h Ht).
Qed.

(** Declaring only adds a table. *)
Lemma declare_sub s d s' : declare s d = Ok s' -> s ⊆ s'.
Proof.
  unfold declare. destruct (s !! d_name d) eqn:E; [by intros [= <-]|]. intros H.
  repeat (apply rbind_Ok_inv in H as (? & _ & H)).
  destruct (find_dup _); [discriminate|]. injection H as <-. by apply insert_subseteq.
Qed.

Lemma declare_all_wf s ds s' : wf_schema s -> declare_all s ds = Ok s' -> wf_schema s'.
Proof.
  revert s. induction ds as [|d ds IH]; simpl; intros s Hwf H; [by simplify_eq|].
  apply rbind_Ok_inv in H as (s1 & H1 & H). eauto using declare_wf.
Qed.

Lemma wf_schema_empty : wf_schema ∅.
Proof. apply map_Forall_empty. Qed.

End Heading.

(** ** The tables of the notebooks *)

Module Pipeline.
Import Heading.
Local Open Scope string_scope.

Definition a (n : string) (t : attr_type) : attr := mk_attr n t None.

(** [pipeline.mouse.Mouse] (not in the sources; only the key the notebooks
    use is modelled). *)
Definition Mouse : table_decl :=
  mk_decl "Mouse" Manual None [] [a "mouse_id" TInt] [] [].

(** [pipeline.mouse.Session] (not in the sources): the notebooks insert
    [experiment_setup] and [experimenter] and read [data_path]; since the
    electrophysiology notebook inserts a session without [data_path], it is
    taken to default to the empty string. *)
Definition Session : table_decl :=
  mk_decl "Session" Manual None [RefTable "Mouse"] [a "session_date" TDate] []
    [a "experiment_setup" TInt; a "experimenter" (TVarchar 128);
     mk_attr "data_path" (TVarchar 255) (Some (VStr EmptyString))].

(** [class Scan(dj.Manual)] *)
Definition Scan : table_decl :=
  mk_decl "Scan" Manual None [RefTable "Session"] [a "scan_idx" TInt] []
    [a "depth" TFloat; a "wavelength" TFloat; a "laser_power" TFloat;
     a "fps" TFloat; a "file_name" (TVarchar 128)].

(** [class AverageFrame(dj.Imported)] *)
Definition AverageFrame : table_decl :=
  mk_decl "AverageFrame" Imported None [RefTable "Scan"] [] []
    [a "average_frame" TLongblob].

(** [class Neuron(dj.Imported)] *)
Definition Neuron : table_decl :=
  mk_decl "Neuron" Imported None [RefTable "Session"] [a "neuron_id" TInt] []
    [a "activity" TLongblob].

(** [class SegmentationParam(dj.Lookup)] *)
Definition SegmentationParam : table_decl :=
  mk_decl "SegmentationParam" Lookup None [] [a "seg_param_id" TInt] []
    [a "threshold" TFloat; a "size_cutoff" TFloat].

(** [class Segmentation(dj.Computed)] *)
Definition Segmentation : table_decl :=
  mk_decl "Segmentation" Computed None
    [RefTable "AverageFrame"; RefTable "SegmentationParam"] [] []
    [a "segmented_masks" TLongblob].

(** [class Roi(dj.Part)] nested in [Segmentation] *)
Definition Segmentation_Roi : table_decl :=
  mk_decl "Segmentation.Roi" Part (Some "Segmentation") [RefMaster]
    [a "roi_idx" TInt] [] [a "mask" TLongblob].

(** [class Fluorescence(dj.Imported)] *)
Definition Fluorescence : table_decl :=
  mk_decl "Fluorescence" Imported None [RefTable "Segmentation"] [] []
    [a "time" TLongblob].

(** [class Trace(dj.Part)] nested in [Fluorescence] *)
Definition Fluorescence_Trace : table_decl :=
  mk_decl "Fluorescence.Trace" Part (Some "Fluorescence")
    [RefMaster; RefTable "Segmentation.Roi"] [] [] [a "trace" TLongblob].

(** The schemas of the calcium-imaging notebooks (imported tables, then
    computed tables) and of the electrophysiology notebook. *)
Definition imaging_decls : list table_decl :=
  [Mouse; Session; Scan; AverageFrame].
Definition computed_decls : list table_decl :=
  imaging_decls ++ [SegmentationParam; Segmentation; Segmentation_Roi;
                    Fluorescence; Fluorescence_Trace].
Definition ephys_decls : list table_decl := [Mouse; Session; Neuron].

(** The schema after the [@schema] declarations of a notebook. *)
Definition schema_of (ds : list table_decl) : schema :=
  match declare_all ∅ ds with Ok s => s | Err _ => ∅ end.

Definition imaging_schema : schema := schema_of imaging_decls.
Definition computed_schema : schema := schema_of computed_decls.
Definition ephys_schema : schema := schema_of ephys_decls.

Lemma imaging_schema_wf : wf_schema imaging_schema.
Proof.
  apply (declare_all_wf ∅ imaging_decls); [apply wf_schema_empty|].
  vm_compute. reflexivity.
Qed.

Lemma ephys_schema_wf : wf_schema ephys_schema.
Proof.
  apply (declare_all_wf ∅ ephys_decls); [apply wf_schema_empty|].
  vm_compute. reflexivity.
Qed.

Lemma computed_schema_wf : wf_schema computed_schema.
Proof.
  apply (declare_all_wf ∅ computed_decls); [apply wf_schema_empty|].
  vm_compute. reflexivity.
Qed.

End Pipeline.
