(* ===== verification/Relation.v ===== *)
(** * Relation: the database and DataJoint's table operations.

    The state of the database is a map from table names to contents; the
    contents of a table map each primary-key tuple to its row, so that a key
    is present at most once, as MySQL's primary-key index ensures.
    [Module Table] models the operations the notebooks call:
    - [insert1] (and [insert], a single multi-row statement): the checks
      DataJoint makes in Python (auto-populated tables only inside their
      [make], no field outside the heading) and those MySQL makes (no
      missing attribute without default, types, [varchar] lengths, no
      duplicate primary key, every referenced parent row present);
    - restriction by a dict [T & key], [fetch1], [fetch('KEY')], the
      natural join of key sources and the antijoin [A - B].
    Its invariant [db_wf] (every row has exactly the heading's attributes,
    is stored under its own key, and references existing parent rows) is
    preserved by [insert1] and [insert]. These operations are library
    behaviour, modelled from DataJoint's documented semantics. *)

From Stdlib Require Import ZArith.
From S2P Require Import Prelude Values Schema.

Module Table.
Import Heading.

Abbreviation tbl := (gmap (list keyval) row).
Abbreviation db := (gmap string tbl).

(** An operation on the database that may raise. *)
Abbreviation dbm := (stm db exn).

Definition contents (d : db) (t : string) : tbl := default ∅ (d !! t).

Definition table_heading (s : schema) (t : string) : result exn heading :=
  match s !! t with Some h => Ok h | None => Err (UnknownTable t) end.

(** ** Rows *)

(** The primary-key tuple of a row. *)
Definition attr_key (t : string) (r : row) (a : attr) : result exn keyval :=
  match r !! aname a with
  | Some v => match value_key v with Some k => Ok k | None => Err PyTypeError end
  | None => Err (MissingAttribute t (aname a))
  end.

Definition row_key (t : string) (h : heading) (r : row) : result exn (list keyval) :=
  mapR (attr_key t r) (h_key h).

(** The value stored for an attribute of a given type: Python [int]s are
    stored in [float] columns as floats. *)
Definition coerce (t : string) (a : attr) (v : value) : result exn value :=
  match atype a, v with
  | TInt, VInt _ => Ok v
  | TFloat, VInt z => Ok (VFloat (fof_Z z))
  | TFloat, VFloat _ => Ok v
  | TDate, VStr _ => Ok v
  | TVarchar n, VStr x =>
      if bool_decide (String.length x <= n) then Ok v else Err (DataTooLong t (aname a))
  | TLongblob, VBlob _ => Ok v
  | _, _ => Err PyTypeError
  end.

(** The value of one attribute: from the dict, or its default. *)
Definition attr_value (t : string) (r : row) (a : attr) : result exn value :=
  match r !! aname a with
  | Some v => coerce t a v
  | None =>
      match adefault a with Some v => Ok v | None => Err (MissingAttribute t (aname a)) end
  end.

Fixpoint fill (t : string) (r : row) (attrs : list attr) : result exn row :=
  match attrs with
  | [] => Ok ∅
  | a :: rest => v <-? attr_value t r a ;; r' <-? fill t r rest ;; Ok (<[aname a := v]> r')
  end.

(** The fields of a dict that are not attributes of the table. *)
Definition extra_fields (h : heading) (r : row) : list string :=
  filter (fun x => x ∉ names (all_attrs h)) (map fst (map_to_list r)).

(** The row stored for a dict. *)
Definition complete_row (t : string) (h : heading) (r : row) : result exn row :=
  match extra_fields h r with
  | x :: _ => Err (UnknownAttribute t x)
  | [] => fill t r (all_attrs h)
  end.

(** The row of [p] that a row references exists. *)
Definition parent_present (s : schema) (d : db) (t : string) (r : row) (p : string)
    : result exn unit :=
  hp <-? table_heading s p ;;
  kp <-? row_key t hp r ;;
  match contents d p !! kp with
  | Some _ => Ok tt
  | None => Err (ForeignKeyViolation t p)
  end.

Definition all_parents (h : heading) : list string := h_key_parents h ++ h_parents h.

(** ** insert1 and insert *)

(** [T.insert1(r)]; [allow] is the table whose [make] is running, if any. *)
Definition insert1 (s : schema) (allow : option string) (t : string) (r : row) : dbm unit :=
  h <- slift (table_heading s t) ;;
  (if auto_populated (h_tier h) && bool_decide (allow <> Some t)
   then sthrow (DirectInsert t) else sret tt) ;;;
  r' <- slift (complete_row t h r) ;;
  k <- slift (row_key t h r') ;;
  d <- sget ;;
  match contents d t !! k with
  | Some _ => sthrow (DuplicateEntry t)
  | None =>
      slift (mapR (parent_present s d t r') (all_parents h)) ;;;
      sput (<[t := <[k := r']> (contents d t)]> d)
  end.

(** [T.insert(rows)]: one statement, so all rows or none. *)
Definition insert (s : schema) (allow : option string) (t : string) (rs : list row)
    : dbm unit :=
  sfor rs (insert1 s allow t).

(** [T.insert1(tuple)]: a tuple lists the attributes in heading order. *)
Definition insert1_tuple (s : schema) (allow : option string) (t : string)
    (vs : list value) : dbm unit :=
  h <- slift (table_heading s t) ;;
  if bool_decide (length vs = length (all_attrs h))
  then insert1 s allow t (list_to_map (zip (names (all_attrs h)) vs))
  else sthrow PyTypeError.

(** ** Queries *)

(** A row matches a restriction dict on the attributes they share. *)
Definition matches (key r : row) : bool :=
  bool_decide (map_Forall (fun a v => r !! a = None \/ r !! a = Some v) key).

(** The rows of [T & key]. *)
Definition restrict (rs : list row) (key : row) : list row :=
  filter (fun r => matches key r = true) rs.

Definition rows (d : db) (t : string) : list row := map snd (map_to_list (contents d t)).

(** [(T & key).fetch1(attr)]: exactly one row, else an error. *)
Definition fetch1 (d : db) (t : string) (key : row) (a : string) : result exn value :=
  match restrict (rows d t) key with
  | [r] => match r !! a with Some v => Ok v | None => Err (UnknownAttribute t a) end
  | rs => Err (FetchOneError t (length rs))
  end.

(** [T.proj()]: the primary-key attributes of a row. *)
Definition proj_key (h : heading) (r : row) : row :=
  filter (fun av => av.1 ∈ names (h_key h)) r.

(** [T.fetch('KEY')] *)
Definition fetch_keys (h : heading) (d : db) (t : string) : list row :=
  map (proj_key h) (rows d t).

(** [T.fetch(a)]: the attribute [a] of every row of [T]. *)
Definition fetch_attr (d : db) (t a : string) : result exn (list value) :=
  mapR (fun r => match r !! a with Some v => Ok v | None => Err (UnknownAttribute t a) end)
       (rows d t).

(** Two rows agree on the attributes they share. *)
Definition compatible (r1 r2 : row) : bool := matches r1 r2.

(** [A * B], the natural join. *)
Definition join (l1 l2 : list row) : list row :=
  l1 ≫= fun r1 => map (fun r2 => r1 ∪ r2) (filter (fun r2 => compatible r1 r2 = true) l2).

(** [A - B], the antijoin: the rows of [A] that match no row of [B]. *)
Definition antijoin (l1 l2 : list row) : list row :=
  filter (fun r1 => forallb (fun r2 => negb (compatible r1 r2)) l2 = true) l1.

(** ** The invariant: rows are well formed and referentially intact *)

Definition row_ok (s : schema) (d : db) (t : string) (h : heading) (k : list keyval)
    (r : row) : Prop :=
  row_key t h r = Ok k /\
  dom r = list_to_set (names (all_attrs h)) /\
  Forall (fun p => parent_present s d t r p = Ok tt) (all_parents h).

Definition db_wf (s : schema) (d : db) : Prop :=
  forall t tb, d !! t = Some tb ->
    exists h, s !! t = Some h /\ map_Forall (row_ok s d t h) tb.

(** The invariant, checked table by table. *)
Definition db_wf_alt (s : schema) (d : db) : Prop :=
  map_Forall (fun t tb => match s !! t with
                          | Some h => map_Forall (row_ok s d t h) tb
                          | None => False
                          end) d.

#[export] Instance db_wf_alt_dec s d : Decision (db_wf_alt s d).
Proof.
  unfold db_wf_alt, row_ok. apply map_Forall_dec. intros t tb.
  destruct (s !! t); apply _.
Defined.

Lemma db_wf_alt_iff s d : db_wf_alt s d <-> db_wf s d.
Proof.
  unfold db_wf_alt, db_wf. split.
  - intros H t tb Ht. specialize (H t tb Ht). simpl in H. destruct (s !! t) as [h|]; [eauto|done].
  - intros H t tb Ht. destruct (H t tb Ht) as (h & Hh & Hrows). simpl. by rewrite Hh.
Qed.

(** The invariant is decidable: a database can be checked by evaluation. *)
#[export] Instance db_wf_dec s d : Decision (db_wf s d).
Proof.
  destruct (decide (db_wf_alt s d)) as [H|H]; [left|right]; rewrite <- db_wf_alt_iff; exact H.
Defined.

Lemma db_wf_empty s : db_wf s ∅.
Proof. intros t tb Ht. by rewrite lookup_empty in Ht. Qed.

(** [p] is a parent of [c] whose primary key has the attribute [x]. *)
Definition parent_key_b (s : schema) (c p x : string) : bool :=
  match s !! c, s !! p with
  | Some h, Some hp => bool_decide (p ∈ all_parents h) && bool_decide (x ∈ names (h_key hp))
  | _, _ => false
  end.

(** [d'] has every row of [d]. *)
Definition db_sub (d d' : db) : Prop := forall t, contents d t ⊆ contents d' t.

(** ** Lemmas *)

Lemma fill_dom t r attrs r' :
  fill t r attrs = Ok r' -> dom r' = list_to_set (names attrs).
Proof.
  revert r'. induction attrs as [|a attrs IH]; simpl; intros r' H.
  - simplify_eq. apply dom_empty_L.
  - apply rbind_Ok_inv in H as (v & _ & H). apply rbind_Ok_inv in H as (r1 & H1 & H).
    simplify_eq. rewrite dom_insert_L, (IH _ H1). done.
Qed.

Lemma complete_row_dom t h r r' :
  complete_row t h r = Ok r' -> dom r' = list_to_set (names (all_attrs h)).
Proof. unfold complete_row. destruct (extra_fields h r); [apply fill_dom|discriminate]. Qed.

Lemma db_sub_refl d : db_sub d d.
Proof. intros t. done. Qed.

Lemma db_sub_trans d1 d2 d3 : db_sub d1 d2 -> db_sub d2 d3 -> db_sub d1 d3.
Proof. intros H12 H23 t. by trans (contents d2 t). Qed.

Lemma contents_insert_eq d t tb : contents (<[t:=tb]> d) t = tb.
Proof. unfold contents. by rewrite lookup_insert_eq. Qed.

Lemma contents_insert_ne d t t' tb : t <> t' -> contents (<[t:=tb]> d) t' = contents d t'.
Proof. intros Hne. unfold contents. by rewrite lookup_insert_ne. Qed.

#[export] Hint Rewrite contents_insert_eq : dj_rw.

(** Adding a row under a fresh key only adds. *)
Lemma db_sub_add d t k r :
  contents d t !! k = None -> db_sub d (<[t := <[k:=r]> (contents d t)]> d).
Proof.
  intros Hk t'. destruct (decide (t = t')) as [<-|Hne].
  - rewrite contents_insert_eq. by apply insert_subseteq.
  - by rewrite contents_insert_ne.
Qed.

Lemma parent_present_mono s d d' t r p :
  db_sub d d' -> parent_present s d t r p = Ok tt -> parent_present s d' t r p = Ok tt.
Proof.
  intros Hsub. unfold parent_present. destruct (table_heading s p) as [hp|]; [simpl|done].
  destruct (row_key t hp r) as [kp|]; [simpl|done].
  destruct (contents d p !! kp) eqn:E; [|done].
  by rewrite (lookup_weaken _ _ _ _ E (Hsub p)).
Qed.

Lemma row_ok_mono s d d' t h k r :
  db_sub d d' -> row_ok s d t h k r -> row_ok s d' t h k r.
Proof.
  intros Hsub (Hk & Hdom & Hp). split_and!; [done|done|].
  eapply Forall_impl; [exact Hp|]. eauto using parent_present_mono.
Qed.

(** What a successful [insert1] did: it completed the dict to a row of the
    heading, found its key free and its parents present, and added it. *)
Lemma insert1_Ok_inv s allow t r d u d' :
  insert1 s allow t r d = Ok (u, d') ->
  exists h r' k,
    s !! t = Some h /\
    (auto_populated (h_tier h) = true -> allow = Some t) /\
    complete_row t h r = Ok r' /\ row_key t h r' = Ok k /\
    contents d t !! k = None /\
    Forall (fun p => parent_present s d t r' p = Ok tt) (all_parents h) /\
    d' = <[t := <[k := r']> (contents d t)]> d.
Proof.
  unfold insert1, sbind, slift, sthrow, sret, sget, sput.
  destruct (table_heading s t) as [h|] eqn:Hh; [|discriminate].
  destruct (auto_populated (h_tier h) && _) eqn:Ea; [discriminate|].
  destruct (complete_row t h r) as [r'|] eqn:Hr; [|discriminate].
  destruct (row_key t h r') as [k|] eqn:Hk; [|discriminate].
  destruct (contents d t !! k) eqn:Hfree; [discriminate|].
  destruct (mapR _ _) as [ps|] eqn:Hp; [|discriminate].
  intros [= <- <-]. unfold table_heading in Hh.
  destruct (s !! t) eqn:Ht; simplify_eq.
  exists h, r', k. split_and!; try done.
  - intros Ha. rewrite Ha in Ea. simpl in Ea.
    apply bool_decide_eq_false in Ea. destruct (decide (allow = Some t)); tauto.
  - apply mapR_Ok_inv in Hp. eapply Forall2_Forall_l; [exact Hp|].
    apply Forall_forall. intros [] _ p Hp1. done.
Qed.

Lemma db_wf_contents s d t h :
  db_wf s d -> s !! t = Some h -> map_Forall (row_ok s d t h) (contents d t).
Proof.
  intros Hwf Ht. unfold contents. destruct (d !! t) as [tb|] eqn:Hd; simpl.
  - destruct (Hwf t tb Hd) as (h' & Ht' & Hall). by simplify_eq.
  - apply map_Forall_empty.
Qed.

Lemma insert1_db_sub s allow t r d u d' :
  insert1 s allow t r d = Ok (u, d') -> db_sub d d'.
Proof.
  intros H. apply insert1_Ok_inv in H as (h & r' & k & _ & _ & _ & _ & Hfree & _ & ->).
  by apply db_sub_add.
Qed.

(** Inserting keeps every row well formed and every reference intact. *)
Theorem insert1_preserves_wf s allow t r d u d' :
  db_wf s d -> insert1 s allow t r d = Ok (u, d') -> db_wf s d'.
Proof.
  intros Hwf H. pose proof (insert1_db_sub _ _ _ _ _ _ _ H) as Hsub.
  apply insert1_Ok_inv in H as (h & r' & k & Ht & _ & Hr & Hk & Hfree & Hp & ->).
  intros t' tb Ht'. destruct (decide (t = t')) as [<-|Hne].
  - rewrite lookup_insert_eq in Ht'. simplify_eq. exists h. split; [done|].
    apply map_Forall_insert_2.
    + split_and!; [done|by eapply complete_row_dom|].
      eapply Forall_impl; [exact Hp|]. eauto using parent_present_mono.
    + eapply map_Forall_impl; [by eapply db_wf_contents|].
      eauto using row_ok_mono.
  - rewrite lookup_insert_ne in Ht' by done.
    destruct (Hwf t' tb Ht') as (h' & Ht'' & Hall). exists h'. split; [done|].
    eapply map_Forall_impl; [exact Hall|]. eauto using row_ok_mono.
Qed.

Corollary insert_preserves_wf s allow t rs d d' :
  db_wf s d -> insert s allow t rs d = Ok (tt, d') -> db_wf s d'.
Proof.
  apply sfor_preserves. intros r d1 d2 _. apply insert1_preserves_wf.
Qed.

(** [T.insert] changes no other table. *)
Lemma insert1_contents_other s allow t r d u d' p :
  insert1 s allow t r d = Ok (u, d') -> p <> t -> contents d' p = contents d p.
Proof.
  intros H Hp. apply insert1_Ok_inv in H as (h & r' & k & _ & _ & _ & _ & _ & _ & ->).
  by apply contents_insert_ne.
Qed.

Lemma insert_contents_other s allow t rs d d' p :
  insert s allow t rs d = Ok (tt, d') -> p <> t -> contents d' p = contents d p.
Proof.
  intros H Hp. eapply (sfor_preserves (fun d1 => contents d1 p = contents d p) rs (insert1 s allow t));
    [|done|exact H].
  intros r d1 d2 _ E H1. rewrite <- E. by eapply insert1_contents_other.
Qed.

Lemma insert_db_sub s allow t rs d d' :
  insert s allow t rs d = Ok (tt, d') -> db_sub d d'.
Proof.
  intros H. eapply (sfor_preserves (db_sub d) rs (insert1 s allow t));
    [|apply db_sub_refl|exact H].
  intros r d1 d2 _ H1 H2. eapply db_sub_trans; [exact H1|]. eauto using insert1_db_sub.
Qed.

(** The stored row holds, for each attribute, the coerced value of the
    dict's entry. *)
Lemma fill_lookup t r attrs r' a v :
  NoDup (names attrs) -> fill t r attrs = Ok r' -> a ∈ attrs -> r !! aname a = Some v ->
  exists v', coerce t a v = Ok v' /\ r' !! aname a = Some v'.
Proof.
  revert r'. induction attrs as [|b attrs IH]; simpl; intros r' Hnd H Ha Hv;
    [by apply elem_of_nil in Ha|].
  apply NoDup_cons in Hnd as [Hb Hnd].
  apply rbind_Ok_inv in H as (vb & Hvb & H). apply rbind_Ok_inv in H as (r1 & H1 & H).
  simplify_eq. apply elem_of_cons in Ha as [->|Ha].
  - unfold attr_value in Hvb. rewrite Hv in Hvb. exists vb. by rewrite lookup_insert_eq.
  - destruct (IH _ Hnd H1 Ha Hv) as (v' & Hc & Hl). exists v'. split; [done|].
    rewrite lookup_insert_ne; [done|]. intros Heq. apply Hb. rewrite Heq.
    by apply list_elem_of_fmap_2.
Qed.

(** Values of non-float attributes are stored as given. *)
Lemma coerce_exact t a v v' : atype a <> TFloat -> coerce t a v = Ok v' -> v' = v.
Proof.
  unfold coerce. intros Hf. destruct (atype a), v; try done;
    try (intros Hc; by simplify_eq). case_bool_decide; intros Hc; by simplify_eq.
Qed.

(** After an [insert1], the table has a row that agrees with the inserted
    dict on any sub-dict of primary-key attributes of exact type. *)
Lemma insert1_compatible s allow t r d u d' h key :
  insert1 s allow t r d = Ok (u, d') -> s !! t = Some h ->
  NoDup (names (all_attrs h)) ->
  Forall (fun a => atype a <> TFloat) (h_key h) ->
  dom key ⊆ list_to_set (names (h_key h)) -> key ⊆ r ->
  exists r', r' ∈ rows d' t /\ compatible key r' = true.
Proof.
  intros H Ht Hnd Hexact Hdom Hsub.
  apply insert1_Ok_inv in H as (h' & r' & k & Ht' & _ & Hr & _ & Hfree & _ & ->).
  rewrite Ht in Ht'. injection Ht' as <-. exists r'. split.
  - unfold rows. rewrite contents_insert_eq. apply list_elem_of_fmap.
    exists (k, r'). split; [done|]. apply elem_of_map_to_list. apply lookup_insert_eq.
  - unfold compatible, matches. apply bool_decide_eq_true_2.
    intros x v Hx. right.
    assert (Hxk : x ∈ names (h_key h)).
    { apply (elem_of_list_to_set (C:=gset string)), Hdom, elem_of_dom. eauto. }
    apply list_elem_of_fmap in Hxk as (a & -> & Ha).
    unfold complete_row in Hr. destruct (extra_fields h r); [|discriminate].
    destruct (fill_lookup t r (all_attrs h) r' a v) as (v' & Hc & Hl); try done.
    + apply elem_of_app. by left.
    + by eapply lookup_weaken.
    + rewrite Hl. f_equal. eapply coerce_exact; [|exact Hc].
      by eapply Forall_forall in Hexact.
Qed.

Lemma extra_fields_nil h r x v :
  extra_fields h r = [] -> r !! x = Some v -> x ∈ names (all_attrs h).
Proof.
  unfold extra_fields. intros Hnil Hx.
  apply filter_nil_iff in Hnil. eapply Forall_forall in Hnil.
  - destruct (decide (x ∈ names (all_attrs h))); [done|]. by exfalso.
  - apply list_elem_of_fmap. exists (x, v). split; [done|]. by apply elem_of_map_to_list.
Qed.

(** A table whose attributes are all of exact type stores the inserted
    dict as given: the new row contains every entry of the dict. *)
Lemma insert1_stores s allow t r d u d' h :
  insert1 s allow t r d = Ok (u, d') -> s !! t = Some h ->
  NoDup (names (all_attrs h)) -> Forall (fun a => atype a <> TFloat) (all_attrs h) ->
  exists k r', contents d t !! k = None /\
    d' = <[t := <[k := r']> (contents d t)]> d /\ r ⊆ r'.
Proof.
  intros H Ht Hnd Hexact.
  apply insert1_Ok_inv in H as (h' & r' & k & Ht' & _ & Hr & _ & Hfree & _ & ->).
  rewrite Ht in Ht'. injection Ht' as <-. exists k, r'. split_and!; [done|done|].
  unfold complete_row in Hr. destruct (extra_fields h r) eqn:Hx; [|discriminate].
  apply map_subseteq_spec. intros x v Hv.
  pose proof (extra_fields_nil h r x v Hx Hv) as Hin.
  apply list_elem_of_fmap in Hin as (a & -> & Ha).
  destruct (fill_lookup t r _ r' a v Hnd Hr Ha Hv) as (v' & Hc & Hl).
  rewrite Hl. f_equal. eapply coerce_exact; [|exact Hc].
  by eapply Forall_forall in Hexact.
Qed.

Lemma elem_of_rows d t r : r ∈ rows d t <-> exists k, contents d t !! k = Some r.
Proof.
  unfold rows. rewrite list_elem_of_fmap. split.
  - intros ([k r'] & -> & Hin%elem_of_map_to_list). eauto.
  - intros [k Hk]. exists (k, r). split; [done|]. by apply elem_of_map_to_list.
Qed.

(** Two rows stored under the same key agree on the key's attributes. *)
Lemma row_key_agree t1 t2 h r1 r2 k a :
  row_key t1 h r1 = Ok k -> row_key t2 h r2 = Ok k -> a ∈ h_key h ->
  r1 !! aname a = r2 !! aname a.
Proof.
  unfold row_key. intros H1%mapR_Ok_inv H2%mapR_Ok_inv Ha.
  apply list_elem_of_lookup in Ha as [i Hi].
  eapply Forall2_lookup_l in H1 as (y & Hy & E1); [|exact Hi].
  eapply Forall2_lookup_l in H2 as (y' & Hy' & E2); [|exact Hi].
  rewrite Hy in Hy'. injection Hy' as <-. unfold attr_key in E1, E2.
  destruct (r1 !! aname a) as [v1|]; [|discriminate].
  destruct (value_key v1) eqn:K1; [|discriminate].
  destruct (r2 !! aname a) as [v2|]; [|discriminate].
  destruct (value_key v2) eqn:K2; [|discriminate].
  injection E1 as ->. injection E2 as ->. apply key_value_inv in K1, K2. congruence.
Qed.

(** In a well-formed database, a row's parent row is stored under the key
    the row gives it, and agrees with it on the parent's key. *)
Lemma wf_parent_entry s d c h p hp k r :
  db_wf s d -> s !! c = Some h -> p ∈ all_parents h -> s !! p = Some hp ->
  contents d c !! k = Some r ->
  exists kp rp, row_key c hp r = Ok kp /\ contents d p !! kp = Some rp /\
    forall a, a ∈ h_key hp -> rp !! aname a = r !! aname a.
Proof.
  intros Hwf Hc Hpar Hp Hr.
  destruct (db_wf_contents s d c h Hwf Hc k r Hr) as (_ & _ & Hall).
  eapply Forall_forall in Hall; [|exact Hpar].
  unfold parent_present, table_heading in Hall. rewrite Hp in Hall. simpl in Hall.
  destruct (row_key c hp r) as [kp|] eqn:Hk; [|discriminate]. simpl in Hall.
  destruct (contents d p !! kp) as [rp|] eqn:Hrp; [|discriminate].
  exists kp, rp. split_and!; [done|done|]. intros a Ha.
  destruct (db_wf_contents s d p hp Hwf Hp kp rp Hrp) as (Hkp & _ & _).
  eapply row_key_agree; [exact Hkp|exact Hk|exact Ha].
Qed.

(** In a well-formed database, a row's parent row exists and agrees with
    it on the parent's key. *)
Lemma wf_parent_agree s d c p x r :
  db_wf s d -> parent_key_b s c p x = true -> r ∈ rows d c ->
  exists rp, rp ∈ rows d p /\ rp !! x = r !! x.
Proof.
  intros Hwf Hb (k & Hr)%elem_of_rows. unfold parent_key_b in Hb.
  destruct (s !! c) as [h|] eqn:Hc; [|done]. destruct (s !! p) as [hp|] eqn:Hp; [|done].
  apply andb_true_iff in Hb as [Hpar Hx%bool_decide_eq_true_1]. apply bool_decide_eq_true_1 in Hpar.
  apply list_elem_of_fmap in Hx as (a & -> & Ha).
  destruct (wf_parent_entry s d c h p hp k r Hwf Hc Hpar Hp Hr) as (kp & rp & _ & Hrp & Hagree).
  exists rp. split; [apply elem_of_rows; eauto|]. by apply Hagree.
Qed.

Lemma rows_sub d d' t r : db_sub d d' -> r ∈ rows d t -> r ∈ rows d' t.
Proof.
  intros Hsub Hr. unfold rows in *.
  apply list_elem_of_fmap in Hr as ([k r'] & -> & Hkr).
  apply elem_of_map_to_list in Hkr.
  apply list_elem_of_fmap. exists (k, r'). split; [done|].
  apply elem_of_map_to_list. eapply lookup_weaken; [exact Hkr|apply Hsub].
Qed.

(** Every dict of a successful [T.insert(rows)] is stored, as a row that
    extends it, when the heading has no [float] attribute (whose [int]
    values would be stored converted). *)
Lemma insert_stores s allow t rs d d' h :
  insert s allow t rs d = Ok (tt, d') -> s !! t = Some h ->
  NoDup (names (all_attrs h)) -> Forall (fun a => atype a <> TFloat) (all_attrs h) ->
  forall r, r ∈ rs -> exists r', r' ∈ rows d' t /\ r ⊆ r'.
Proof.
  intros H Ht Hnd Hexact. revert d H. induction rs as [|r0 rs IH]; intros d H r Hr;
    [by apply elem_of_nil in Hr|].
  unfold insert in H. simpl in H. apply sbind_Ok_inv in H as ([] & d1 & H1 & H2).
  apply elem_of_cons in Hr as [->|Hr]; [|by apply (IH d1)].
  destruct (insert1_stores _ _ _ _ _ _ _ h H1 Ht Hnd Hexact) as (k & r' & _ & -> & Hsub).
  exists r'. split; [|done]. apply (rows_sub _ _ _ _ (insert_db_sub _ _ _ _ _ _ H2)).
  unfold rows. rewrite contents_insert_eq. apply list_elem_of_fmap. exists (k, r').
  split; [done|]. apply elem_of_map_to_list, lookup_insert_eq.
Qed.

(** A join with an empty relation is empty. *)
Lemma join_nil_r l : join l [] = [].
Proof. induction l as [|r l IH]; [done|]. exact IH. Qed.

(** The join with the one empty key, where a key source starts, is the
    identity. *)
Lemma join_empty_l l : join [∅] l = l.
Proof.
  unfold join. cbn. rewrite app_nil_r. induction l as [|r l IH]; [done|].
  rewrite filter_cons_True; [cbn; by rewrite IH, (left_id_L ∅ (∪))|].
  unfold compatible, matches. apply bool_decide_eq_true, map_Forall_empty.
Qed.

(** [A - B] with an empty [B] is [A]. *)
Lemma antijoin_nil_r l : antijoin l [] = l.
Proof.
  unfold antijoin. induction l as [|r l IH]; [done|]. by rewrite filter_cons_True, IH.
Qed.

(** A table the schema does not declare has no row in a well-formed
    database. *)
Lemma rows_undeclared s d t : db_wf s d -> s !! t = None -> rows d t = [].
Proof.
  intros Hwf Ht. unfold rows, contents. destruct (d !! t) as [tb|] eqn:E; [|done].
  destruct (Hwf t tb E) as (h & Hh & _). congruence.
Qed.

(** Every stored row of a well-formed database is well formed. *)
Lemma db_wf_row s d t k r :
  db_wf s d -> contents d t !! k = Some r -> exists h, s !! t = Some h /\ row_ok s d t h k r.
Proof.
  intros Hwf Hr. unfold contents in Hr. destruct (d !! t) as [tb|] eqn:Ht; simpl in Hr; [|by rewrite lookup_empty in Hr].
  destruct (Hwf t tb Ht) as (h & Hh & Hall). exists h. split; [done|]. exact (Hall k r Hr).
Qed.

(** A database well formed for a schema stays so for a larger schema. *)
Lemma db_wf_schema_mono s s' d : s ⊆ s' -> db_wf s d -> db_wf s' d.
Proof.
  intros Hs Hwf t tb Ht. destruct (Hwf t tb Ht) as (h & Hh & Hall).
  exists h. split; [by eapply lookup_weaken|].
  eapply map_Forall_impl; [exact Hall|]. intros k r (Hk & Hdom & Hp). split_and!; [done|done|].
  eapply Forall_impl; [exact Hp|]. intros p. unfold parent_present, table_heading.
  destruct (s !! p) as [hp|] eqn:E; [|done]. by rewrite (lookup_weaken _ _ _ _ E Hs).
Qed.

Lemma insert1_tuple_preserves_wf s allow t vs d u d' :
  db_wf s d -> insert1_tuple s allow t vs d = Ok (u, d') -> db_wf s d'.
Proof.
  unfold insert1_tuple. intros Hwf (h & d1 & (_ & ->)%slift_Ok_inv & H)%sbind_Ok_inv.
  case_bool_decide; [|discriminate]. by eapply insert1_preserves_wf.
Qed.

(** A row with [a = v] matches the restriction [{a: v}]. *)
Lemma matches_singleton a v r : r !! a = Some v -> matches {[a := v]} r = true.
Proof. intros H. unfold matches. apply bool_decide_eq_true, map_Forall_singleton. by right. Qed.

(** An insert adds no table but its own. *)
Lemma insert1_lookup_other s allow t r d u d' p :
  insert1 s allow t r d = Ok (u, d') -> p <> t -> d' !! p = d !! p.
Proof.
  intros H Hp. apply insert1_Ok_inv in H as (h & r' & k & _ & _ & _ & _ & _ & _ & ->).
  by apply lookup_insert_ne.
Qed.

Lemma insert_lookup_other s allow t rs d d' p :
  insert s allow t rs d = Ok (tt, d') -> p <> t -> d' !! p = d !! p.
Proof.
  intros H Hp. eapply (sfor_preserves (fun d1 => d1 !! p = d !! p) rs (insert1 s allow t));
    [|done|exact H].
  intros r d1 d2 _ E H1. rewrite <- E. by eapply insert1_lookup_other.
Qed.

(** A database well formed under a schema is well formed under a smaller
    well-formed schema that still has all its tables: the parents of
    those tables, and so their headings, are in the smaller schema. *)
Lemma db_wf_schema_restrict s s' d :
  s' ⊆ s -> wf_schema s' -> (forall t tb, d !! t = Some tb -> is_Some (s' !! t)) ->
  db_wf s d -> db_wf s' d.
Proof.
  intros Hs Hws Hdom Hwf t tb Ht. destruct (Hwf t tb Ht) as (h & Hh & Hall).
  destruct (Hdom t tb Ht) as [h' Hh'].
  rewrite (lookup_weaken _ _ _ _ Hh' Hs) in Hh. injection Hh as <-.
  exists h'. split; [done|]. destruct (Hws t h' Hh') as (Hkp & Hp & _).
  eapply map_Forall_impl; [exact Hall|]. intros k r (Hk & Hd & Hpp). split_and!; [done|done|].
  apply Forall_forall. intros p Hin. rewrite Forall_forall in Hpp. specialize (Hpp p Hin).
  assert (Hp' : is_Some (s' !! p)).
  { unfold all_parents in Hin. apply elem_of_app in Hin as [Hin|Hin].
    - rewrite Forall_forall in Hkp. destruct (Hkp p Hin) as (hp & ? & _). eauto.
    - rewrite Forall_forall in Hp. destruct (Hp p Hin) as (hp & ? & _). eauto. }
  destruct Hp' as [hp Ep]. unfold parent_present, table_heading in *.
  by rewrite Ep; rewrite (lookup_weaken _ _ _ _ Ep Hs) in Hpp.
Qed.

End Table.
