(* ===== verification/Populate.v ===== *)
(** * Populate: DataJoint's [AutoPopulate.populate] and its contract with
    [make].

    [T.populate()] computes the jobs to do, the keys of [T]'s key source
    (the join of the primary keys of the tables [T] references above [---])
    that have no row in [T] yet ([key_source - T]), and for each key, in one
    transaction: skips it if [T] has meanwhile got a row for it, else calls
    [T.make(dict(key))] with inserts into [T] allowed. A [make] that raises
    rolls its transaction back and the exception propagates, so the rows
    committed for the earlier keys stay and the later keys are not
    processed. Without a [make], the call on the first key raises
    [NotImplementedError].

    [Module AutoPopulate] models this driver. Its theorems: [populate]
    always returns; it rolls back exactly the failing key; it does nothing
    when there is nothing to do; a [make] that fulfils the contract
    [MakeContract] (it fills the target for its key, only adds rows, and
    writes no table the key source reads) leaves no job behind, so that a
    second [populate] does nothing; and [populate] keeps the database well
    formed when [make] does. *)

From Stdlib Require Import ZArith.
From S2P Require Import Prelude Values Schema Relation.

Module AutoPopulate.
Import Heading Table.

(** A [make] method: given the table whose inserts are allowed (the one
    being populated) and a key, it runs against the database. *)
Abbreviation make_fn := (option string -> row -> dbm unit).

(** The key source: the join of the primary keys of the key parents. *)
Fixpoint join_keys (s : schema) (d : db) (ps : list string) (acc : list row)
    : result exn (list row) :=
  match ps with
  | [] => Ok acc
  | p :: ps' => hp <-? table_heading s p ;; join_keys s d ps' (join acc (fetch_keys hp d p))
  end.

Definition key_source (s : schema) (h : heading) (d : db) : result exn (list row) :=
  join_keys s d (h_key_parents h) [∅].

(** [(key_source - T).fetch('KEY')] *)
Definition jobs_to_do (s : schema) (t : string) (h : heading) (d : db)
    : result exn (list row) :=
  ks <-? key_source s h d ;; Ok (antijoin ks (rows d t)).

Definition key_in_target (d : db) (t : string) (key : row) : bool :=
  existsb (compatible key) (rows d t).

(** [_populate1(key)]: one transaction. *)
Definition populate1 (t : string) (mk : option make_fn) (key : row) : dbm unit :=
  d <- sget ;;
  if key_in_target d t key then sret tt
  else match mk with
       | Some f => f (Some t) key
       | None => sthrow (MakeNotImplemented t)
       end.

(** The loop over the jobs: the state after the last committed key, and
    the exception that stopped the loop, if any. *)
Fixpoint populate_keys (t : string) (mk : option make_fn) (keys : list row) (d : db)
    : db * option exn :=
  match keys with
  | [] => (d, None)
  | key :: rest =>
      match populate1 t mk key d with
      | Ok (_, d') => populate_keys t mk rest d'
      | Err e => (d, Some e)
      end
  end.

(** [T.populate()] *)
Definition populate (s : schema) (t : string) (mk : option make_fn) (d : db)
    : db * option exn :=
  match table_heading s t with
  | Err e => (d, Some e)
  | Ok h =>
      match jobs_to_do s t h d with
      | Err e => (d, Some e)
      | Ok keys => populate_keys t mk keys d
      end
  end.

(** ** The contract of a [make] with [populate]

    A [make] for [t], given a key made of primary-key attributes of [t],
    fills [t] for it; it only adds rows, and
    leaves alone every table declared before [t] (the tables its key source
    reads); it may write [t] and tables declared after it, its parts. *)
Class MakeContract (s : schema) (t : string) (f : make_fn) : Prop := {
  make_fills : forall key d d' h,
    s !! t = Some h -> dom key ⊆ list_to_set (names (h_key h)) ->
    f (Some t) key d = Ok (tt, d') -> key_in_target d' t key = true;
  make_grows : forall key d d',
    f (Some t) key d = Ok (tt, d') -> db_sub d d';
  make_frame : forall key d d' p hp h,
    f (Some t) key d = Ok (tt, d') -> s !! t = Some h -> s !! p = Some hp ->
    h_rank hp < h_rank h -> contents d' p = contents d p
}.

(** ** Lemmas *)

Lemma key_in_target_mono d d' t key :
  db_sub d d' -> key_in_target d t key = true -> key_in_target d' t key = true.
Proof.
  unfold key_in_target. rewrite !existsb_exists. intros Hsub (r & Hr & Hc).
  exists r. split; [|done]. apply list_elem_of_In, (rows_sub d); [done|].
  by apply list_elem_of_In.
Qed.

(** A job is a key with no row in the target yet. *)
Lemma antijoin_spec ks d t key :
  key ∈ antijoin ks (rows d t) <-> key ∈ ks /\ key_in_target d t key = false.
Proof.
  unfold antijoin, key_in_target. rewrite list_elem_of_filter. cbn beta.
  rewrite <- not_true_iff_false, existsb_exists, forallb_forall.
  split.
  - intros [Hall Hk]. split; [done|]. intros (r & Hr & Hc).
    specialize (Hall r Hr). rewrite Hc in Hall. discriminate.
  - intros [Hk Hno]. split; [|done]. intros r Hr.
    destruct (compatible key r) eqn:E; [|done]. exfalso. eauto.
Qed.

(** The key source reads only the key parents. *)
Lemma join_keys_frame s d d' ps acc :
  (forall p, p ∈ ps -> contents d' p = contents d p) ->
  join_keys s d' ps acc = join_keys s d ps acc.
Proof.
  revert acc. induction ps as [|p ps IH]; intros acc Hfr; simpl; [done|].
  destruct (table_heading s p) as [hp|]; simpl; [|done].
  unfold fetch_keys, rows. rewrite (Hfr p) by set_solver.
  apply IH. set_solver.
Qed.

Lemma proj_key_dom hp r : dom (proj_key hp r) ⊆ list_to_set (names (h_key hp)).
Proof.
  intros x [v Hv]%elem_of_dom. apply map_lookup_filter_Some in Hv as [_ Hx].
  by apply elem_of_list_to_set.
Qed.

(** The keys of a key source have only the parents' key attributes. *)
Lemma join_keys_dom (K : gset string) s d ps acc ks :
  Forall (fun p => exists hp, s !! p = Some hp /\ list_to_set (names (h_key hp)) ⊆ K) ps ->
  Forall (fun r : row => dom r ⊆ K) acc ->
  join_keys s d ps acc = Ok ks -> Forall (fun r : row => dom r ⊆ K) ks.
Proof.
  revert acc. induction ps as [|p ps IH]; simpl; intros acc Hps Hacc H.
  - by simplify_eq.
  - apply Forall_cons in Hps as [(hp & Hp & HK) Hps].
    unfold table_heading in H. rewrite Hp in H. simpl in H.
    refine (IH _ Hps _ H). apply Forall_forall.
    intros r (r1 & Hr & Hr1)%list_elem_of_bind.
    apply list_elem_of_fmap in Hr as (r2 & -> & Hr2).
    apply list_elem_of_filter in Hr2 as [_ Hr2].
    unfold fetch_keys in Hr2. apply list_elem_of_fmap in Hr2 as (r0 & -> & _).
    rewrite dom_union_L. eapply Forall_forall in Hacc; [|exact Hr1].
    pose proof (proj_key_dom hp r0). set_solver.
Qed.

Lemma populate_keys_app t mk pre post d :
  populate_keys t mk (pre ++ post) d =
  match populate_keys t mk pre d with
  | (d1, None) => populate_keys t mk post d1
  | r => r
  end.
Proof.
  revert d. induction pre as [|key pre IH]; intros d; simpl; [done|].
  destruct (populate1 t mk key d) as [[_ d1]|e]; [apply IH|done].
Qed.

(** ** Theorems *)

(** [populate] stops at the first key whose [make] raises: the keys before
    it are committed, the failing key's writes are rolled back, and the
    exception is the one [make] raised. *)
Theorem populate_keys_rollback t mk keys d d' e :
  populate_keys t mk keys d = (d', Some e) ->
  exists pre key post, keys = pre ++ key :: post /\
    populate_keys t mk pre d = (d', None) /\ populate1 t mk key d' = Err e.
Proof.
  revert d. induction keys as [|key keys IH]; simpl; intros d H; [discriminate|].
  destruct (populate1 t mk key d) as [[u d1]|e'] eqn:E.
  - destruct (IH _ H) as (pre & k & post & Heq & Hpre & Hk).
    exists (key :: pre), k, post. rewrite Heq. simpl. rewrite E. auto.
  - simplify_eq. exists [], key, keys. auto.
Qed.

Lemma populate_no_jobs s t h mk d :
  s !! t = Some h -> jobs_to_do s t h d = Ok [] -> populate s t mk d = (d, None).
Proof. intros Ht Hj. unfold populate, table_heading. by rewrite Ht, Hj. Qed.

Lemma jobs_to_do_elem s t h d keys key :
  jobs_to_do s t h d = Ok keys -> key ∈ keys -> key_in_target d t key = false.
Proof.
  unfold jobs_to_do. destruct (key_source s h d) as [ks|]; simpl; [|discriminate].
  intros [= <-]. rewrite antijoin_spec. tauto.
Qed.

(** Without a [make], [populate] raises [NotImplementedError] as soon as
    there is a job, and changes nothing. *)
Theorem populate_without_make s t h d key keys :
  s !! t = Some h -> jobs_to_do s t h d = Ok (key :: keys) ->
  populate s t None d = (d, Some (MakeNotImplemented t)).
Proof.
  intros Ht Hj. unfold populate, table_heading. rewrite Ht, Hj. simpl.
  unfold populate1, sbind, sget. erewrite jobs_to_do_elem by (eauto; set_solver).
  done.
Qed.

(** A [make] that changes nothing (one that only prints): [populate]
    calls it for every pending key and succeeds without a change. *)
Lemma populate_keys_noop t f keys d :
  (forall allow key, f allow key d = Ok (tt, d)) -> populate_keys t (Some f) keys d = (d, None).
Proof.
  intros Hf. induction keys as [|key keys IH]; [done|]. cbn [populate_keys].
  unfold populate1, sbind, sget, sret. by destruct (key_in_target d t key); rewrite ?Hf.
Qed.

Lemma populate_noop s t h f d keys :
  s !! t = Some h -> jobs_to_do s t h d = Ok keys ->
  (forall allow key, f allow key d = Ok (tt, d)) -> populate s t (Some f) d = (d, None).
Proof. intros Ht Hj Hf. unfold populate, table_heading. rewrite Ht, Hj. by apply populate_keys_noop. Qed.

(** [populate] keeps the database well formed when [make] does. *)
Theorem populate_preserves_wf (s : schema) (t : string) (f : make_fn) (d : db) :
  (forall key d1 d2, db_wf s d1 -> f (Some t) key d1 = Ok (tt, d2) -> db_wf s d2) ->
  db_wf s d -> db_wf s (populate s t (Some f) d).1.
Proof.
  intros Hf Hwf. unfold populate.
  destruct (table_heading s t) as [h|]; [|done].
  destruct (jobs_to_do s t h d) as [keys|]; [|done].
  revert d Hwf. induction keys as [|key keys IH]; intros d Hwf; simpl; [done|].
  unfold populate1, sbind, sget.
  destruct (key_in_target d t key); [by apply IH|].
  destruct (f (Some t) key d) as [[[] d1]|e] eqn:E; [|done].
  apply IH. eauto.
Qed.

Section Contract.
Context (s : schema) (t : string) (h : heading) (f : make_fn).
Context `{!MakeContract s t f}.
Hypothesis Hwf : wf_schema s.
Hypothesis Ht : s !! t = Some h.

Definition frame (d d' : db) : Prop :=
  forall p hp, s !! p = Some hp -> h_rank hp < h_rank h -> contents d' p = contents d p.

Definition key_dom_ok (key : row) : Prop := dom key ⊆ list_to_set (names (h_key h)).

Lemma populate1_contract key d u d' :
  key_dom_ok key -> populate1 t (Some f) key d = Ok (u, d') ->
  db_sub d d' /\ key_in_target d' t key = true /\ frame d d'.
Proof.
  intros Hkey. unfold populate1, sbind, sget. destruct (key_in_target d t key) eqn:E.
  - intros [= _ <-]. split_and!; [apply db_sub_refl|done|by intros ? ?].
  - intros H. destruct u. split_and!.
    + by eapply make_grows.
    + by eapply make_fills.
    + intros p hp Hp Hr. by eapply make_frame.
Qed.

Lemma populate_keys_contract keys d d' :
  Forall key_dom_ok keys -> populate_keys t (Some f) keys d = (d', None) ->
  db_sub d d' /\ (forall key, key ∈ keys -> key_in_target d' t key = true) /\ frame d d'.
Proof.
  revert d. induction keys as [|key keys IH]; simpl; intros d Hdom H.
  - simplify_eq. split_and!; [apply db_sub_refl|set_solver|by intros ? ?].
  - apply Forall_cons in Hdom as [Hkey Hdom].
    destruct (populate1 t (Some f) key d) as [[u d1]|e] eqn:E; [|discriminate].
    destruct (populate1_contract _ _ _ _ Hkey E) as (Hs1 & Hk1 & Hf1).
    destruct (IH _ Hdom H) as (Hs2 & Hk2 & Hf2). split_and!.
    + by eapply db_sub_trans.
    + intros k [->|Hk]%elem_of_cons; [|auto]. by eapply key_in_target_mono.
    + intros p hp Hp Hr. rewrite (Hf2 p hp Hp Hr). exact (Hf1 p hp Hp Hr).
Qed.

Lemma jobs_key_dom d keys :
  jobs_to_do s t h d = Ok keys -> Forall key_dom_ok keys.
Proof.
  unfold jobs_to_do. destruct (key_source s h d) as [ks|] eqn:Hks; simpl; [|discriminate].
  intros [= <-]. apply Forall_filter_sub.
  eapply (join_keys_dom (list_to_set (names (h_key h)))); [| |exact Hks].
  - destruct (Hwf t h Ht) as (Hkp & _). eapply Forall_impl; [exact Hkp|].
    intros p (hp & Hp & _ & Hsub). exists hp. split; [done|].
    intros x. rewrite !elem_of_list_to_set. apply Hsub.
  - constructor; [|constructor]. rewrite dom_empty_L. apply empty_subseteq.
Qed.

Lemma key_source_frame d d' :
  frame d d' -> key_source s h d' = key_source s h d.
Proof.
  intros Hfr. apply join_keys_frame. intros p Hp.
  destruct (Hwf t h Ht) as (Hkp & _). eapply Forall_forall in Hkp; [|exact Hp].
  destruct Hkp as (hp & Hhp & Hr & _). by apply (Hfr p hp).
Qed.

(** After a [populate] that raised nothing, every key of the key source has
    its row in the table: nothing is left to do. *)
Theorem populate_complete d d' :
  populate s t (Some f) d = (d', None) -> jobs_to_do s t h d' = Ok [].
Proof.
  unfold populate, table_heading. rewrite Ht.
  destruct (jobs_to_do s t h d) as [keys|e] eqn:Hj; [|discriminate].
  intros H. destruct (populate_keys_contract _ _ _ (jobs_key_dom _ _ Hj) H)
    as (Hsub & Hfill & Hfr).
  unfold jobs_to_do in *. rewrite (key_source_frame _ _ Hfr).
  destruct (key_source s h d) as [ks|]; simpl in *; [|discriminate].
  f_equal. apply elem_of_nil_inv. intros key. rewrite antijoin_spec.
  intros [Hks Hno]. destruct (key_in_target d t key) eqn:E.
  - rewrite (key_in_target_mono _ _ _ _ Hsub E) in Hno. discriminate.
  - rewrite (Hfill key) in Hno; [discriminate|]. simplify_eq.
    by apply antijoin_spec.
Qed.

(** A second [populate] does nothing. *)
Corollary populate_idempotent d d' :
  populate s t (Some f) d = (d', None) -> populate s t (Some f) d' = (d', None).
Proof. intros H. apply (populate_no_jobs _ _ h); [done|]. by eapply populate_complete. Qed.

End Contract.

End AutoPopulate.
