(* ===== verification/Delete.v ===== *)
(** * Delete: DataJoint's cascading [delete].

    [(T & cond).delete()] removes the rows of [T] that match [cond] and,
    transitively, every row that references a removed row. [Module
    Delete] models it as DataJoint orders it: the rows of [T] first, then
    the tables from upstream to downstream ([topo_order], by declaration
    rank), each losing the rows one of whose parents is gone ([prune]). A
    single pass suffices because a table's parents always come before it.
    The confirmation prompt is modelled by the notebook cells
    ([Notebook.DeleteRows]); here it is answered yes.

    Its theorems: deleting keeps the database well formed ([db_wf]): no
    row is left referencing a deleted row ([delete_wf]); it keeps every
    row whose references lead to no deleted row ([Section Keep]); it
    refines the declarative cascade [doomed] (the rows matching the
    restriction and, transitively, the rows referencing a doomed row):
    a row is left exactly when it is not doomed
    ([delete_refines_cascade]); and the notebook's delete of the parameter
    set [0] removes exactly the rows computed from it
    ([delete_param0_exact]). *)

From Stdlib Require Import ZArith.
From stdpp Require Import sorting.
From S2P Require Import Prelude Values Schema Relation.

Module Delete.
Import Heading Table.

Definition rank_of (s : schema) (t : string) : nat := default 0 (h_rank <$> s !! t).

Definition rank_le (s : schema) (a b : string) : Prop := rank_of s a <= rank_of s b.

#[export] Instance rank_le_dec s : RelDecision (rank_le s).
Proof. intros a b. unfold rank_le. apply _. Defined.

(** Every parent of the row [r] of [t] is present. *)
Definition parents_present_b (s : schema) (d : db) (t : string) (r : row) : bool :=
  match s !! t with
  | Some h => forallb (fun p => is_ok (parent_present s d t r p)) (all_parents h)
  | None => true
  end.

(** Remove from [t] the rows one of whose parents is gone. *)
Definition prune (s : schema) (d : db) (t : string) : db :=
  match d !! t with
  | Some tb => <[t := filter (fun kr => parents_present_b s d t kr.2 = true) tb]> d
  | None => d
  end.

(** The tables from upstream to downstream. *)
Definition topo_order (s : schema) : list string :=
  merge_sort (rank_le s) (map fst (map_to_list s)).

(** [(T & cond).delete()] *)
Definition delete (s : schema) (t : string) (cond : row) (d : db) : result exn db :=
  _ <-? table_heading s t ;;
  let d1 := match d !! t with
            | Some tb => <[t := filter (fun kr => matches cond kr.2 = false) tb]> d
            | None => d
            end in
  Ok (foldl (prune s) d1 (topo_order s)).

(** [(SegmentationParam() & 'seg_param_id = 0').delete()] in the
    computed-tables notebook. *)
Definition delete_param0 (d : db) : result exn db :=
  delete Pipeline.computed_schema "SegmentationParam" {[ "seg_param_id" := VInt 0 ]} d.

(** The tables whose rows are computed from a parameter set. *)
Definition param_tables : list string :=
  ["SegmentationParam"; "Segmentation"; "Segmentation.Roi"; "Fluorescence"; "Fluorescence.Trace"].

(** ** Lemmas *)

(** The rows of a table, each with its parents present. *)
Definition intact (s : schema) (d : db) (t : string) : Prop :=
  forall k r h, contents d t !! k = Some r -> s !! t = Some h ->
    Forall (fun p => parent_present s d t r p = Ok tt) (all_parents h).

Lemma parent_present_ext s d d' t r p :
  contents d p = contents d' p -> parent_present s d t r p = parent_present s d' t r p.
Proof. intros E. unfold parent_present. by rewrite E. Qed.

Lemma prune_other s d t x : x <> t -> prune s d t !! x = d !! x.
Proof. intros Hx. unfold prune. destruct (d !! t); [by rewrite lookup_insert_ne|done]. Qed.

Lemma foldl_prune_other s d l x : x ∉ l -> foldl (prune s) d l !! x = d !! x.
Proof.
  revert d. induction l as [|t l IH]; intros d Hx; [done|]. simpl.
  rewrite IH by (intros ?; apply Hx; by right). apply prune_other. intros ->. apply Hx. by left.
Qed.

(** Pruning only removes rows. *)
Lemma prune_sub s d t x tb' :
  prune s d t !! x = Some tb' -> exists tb, d !! x = Some tb /\ tb' ⊆ tb.
Proof.
  unfold prune. destruct (d !! t) as [tb|] eqn:Ht; [|eauto].
  destruct (decide (x = t)) as [->|Hx].
  - rewrite lookup_insert_eq. intros [= <-]. exists tb. split; [done|]. apply map_filter_subseteq.
  - rewrite lookup_insert_ne by congruence. eauto.
Qed.

Lemma foldl_prune_sub s d l x tb' :
  foldl (prune s) d l !! x = Some tb' -> exists tb, d !! x = Some tb /\ tb' ⊆ tb.
Proof.
  revert d tb'. induction l as [|t l IH]; intros d tb' H; simpl in H; [eauto|].
  apply IH in H as (tb1 & H1 & Hs1). apply prune_sub in H1 as (tb & H & Hs).
  exists tb. split; [done|]. by trans tb1.
Qed.

Section Pass.
Context (s : schema) (Hwf : wf_schema s).

(** A parent of a table has a lower rank. *)
Lemma parent_rank t h p :
  s !! t = Some h -> p ∈ all_parents h -> rank_of s p < rank_of s t.
Proof.
  intros Ht Hp. destruct (Hwf t h Ht) as (Hk & Hpar & _).
  assert (Hok : exists scope, parent_ok s h scope p).
  { apply elem_of_app in Hp as [Hp|Hp]; eexists.
    - eapply Forall_forall in Hk; [exact Hk|exact Hp].
    - eapply Forall_forall in Hpar; [exact Hpar|exact Hp]. }
  destruct Hok as (scope & hp & Hhp & Hr & _). unfold rank_of. by rewrite Hhp, Ht.
Qed.

Lemma contents_prune_other d t x : x <> t -> contents (prune s d t) x = contents d x.
Proof. intros Hx. unfold contents. by rewrite prune_other. Qed.

Lemma is_ok_unit (r : result exn unit) : is_ok r = true -> r = Ok tt.
Proof. by destruct r as [[]|]. Qed.

(** After [prune s d t], every row left in [t] has its parents. *)
Lemma prune_intact d t : intact s (prune s d t) t.
Proof.
  intros k r h Hr Ht. unfold contents, prune in Hr.
  destruct (d !! t) as [tb|] eqn:Htb; [|unfold contents in Hr; by rewrite Htb in Hr].
  rewrite lookup_insert_eq in Hr. simpl in Hr.
  apply map_lookup_filter_Some in Hr as [_ Hb]. simpl in Hb.
  unfold parents_present_b in Hb. rewrite Ht in Hb.
  apply Forall_forall. intros p Hp.
  apply forallb_forall with (x := p) in Hb; [|by apply list_elem_of_In].
  rewrite (parent_present_ext s (prune s d t) d); [by apply is_ok_unit|].
  apply contents_prune_other. pose proof (parent_rank t h p Ht Hp). intros ->. lia.
Qed.

(** A table stays intact when it and its parents are left alone. *)
Lemma intact_frame d d' t :
  intact s d t -> contents d' t = contents d t ->
  (forall h p, s !! t = Some h -> p ∈ all_parents h -> contents d' p = contents d p) ->
  intact s d' t.
Proof.
  intros Hi Et Ep k r h Hr Ht. rewrite Et in Hr. specialize (Hi k r h Hr Ht).
  apply Forall_forall. intros p Hp. rewrite (parent_present_ext s d' d); [|by apply (Ep h)].
  by eapply Forall_forall in Hi.
Qed.

Lemma contents_foldl_other d l x : x ∉ l -> contents (foldl (prune s) d l) x = contents d x.
Proof. intros Hx. unfold contents. by rewrite foldl_prune_other. Qed.

(** One pass from upstream to downstream leaves every table of the pass
    intact. *)
Lemma pass_intact l d :
  StronglySorted (rank_le s) l -> NoDup l ->
  forall t, t ∈ l -> intact s (foldl (prune s) d l) t.
Proof.
  revert d. induction l as [|c l IH]; intros d Hs Hnd t Ht; [by apply elem_of_nil in Ht|].
  apply StronglySorted_cons in Hs as [Hle Hs]. apply NoDup_cons in Hnd as [Hc Hnd]. simpl.
  apply elem_of_cons in Ht as [->|Ht]; [|by apply IH].
  apply (intact_frame (prune s d c)); [apply prune_intact|by apply contents_foldl_other|].
  intros h p Hh Hp. apply contents_foldl_other. intros Hpl.
  eapply Forall_forall in Hle; [|exact Hpl]. pose proof (parent_rank c h p Hh Hp).
  unfold rank_le in Hle. lia.
Qed.

End Pass.

Lemma topo_order_spec s :
  StronglySorted (rank_le s) (topo_order s) /\
  NoDup (topo_order s) /\ forall t, t ∈ topo_order s <-> is_Some (s !! t).
Proof.
  unfold topo_order. split_and!.
  - apply StronglySorted_merge_sort; unfold rank_le; [intros ???; lia|intros a b; lia].
  - rewrite merge_sort_Permutation. apply NoDup_fst_map_to_list.
  - intros t. rewrite merge_sort_Permutation. split.
    + intros ([t' h] & -> & Hin)%list_elem_of_fmap. apply elem_of_map_to_list in Hin. eauto.
    + intros [h Hh]. apply list_elem_of_fmap. exists (t, h). split; [done|].
      by apply elem_of_map_to_list.
Qed.

(** Removing the matching rows of [t] only removes rows. *)
Lemma delete_root_sub (d : db) t cond x tb1 :
  (match d !! t with
   | Some tb => <[t := filter (fun kr : list keyval * row => matches cond kr.2 = false) tb]> d
   | None => d
   end) !! x = Some tb1 ->
  exists tb, d !! x = Some tb /\ tb1 ⊆ tb.
Proof.
  destruct (d !! t) as [tb|] eqn:Ht; [|eauto]. destruct (decide (x = t)) as [->|Hx].
  - rewrite lookup_insert_eq. intros [= <-]. exists tb. split; [done|]. apply map_filter_subseteq.
  - rewrite lookup_insert_ne by congruence. eauto.
Qed.

(** [(T & cond).delete()] only removes rows. *)
Lemma delete_contents_sub s t cond d d' x tb' :
  delete s t cond d = Ok d' -> d' !! x = Some tb' -> exists tb, d !! x = Some tb /\ tb' ⊆ tb.
Proof.
  unfold delete. intros (h & _ & [= <-])%rbind_Ok_inv Hx.
  apply foldl_prune_sub in Hx as (tb1 & Hx1 & Hsub1).
  apply delete_root_sub in Hx1 as (tb & Hx0 & Hsub0).
  exists tb. split; [done|]. by trans tb1.
Qed.

Lemma delete_contents_lookup s t cond d d' x k r :
  delete s t cond d = Ok d' -> contents d' x !! k = Some r -> contents d x !! k = Some r.
Proof.
  intros Hdel Hk. unfold contents in *.
  destruct (d' !! x) as [tb'|] eqn:Ex; simpl in Hk; [|by rewrite lookup_empty in Hk].
  destruct (delete_contents_sub _ _ _ _ _ _ _ Hdel Ex) as (tb & -> & Hsub).
  exact (lookup_weaken _ _ _ _ Hk Hsub).
Qed.

(** [(T & cond).delete()] keeps the database well formed: every row
    left has its heading's attributes, is stored under its key, and every
    row it references is still there (the cascade leaves no dangling
    reference). *)
Theorem delete_wf s t cond d d' :
  wf_schema s -> db_wf s d -> delete s t cond d = Ok d' -> db_wf s d'.
Proof.
  intros Hs Hd Hdel x tb' Hx.
  destruct (delete_contents_sub _ _ _ _ _ _ _ Hdel Hx) as (tb & Hx0 & Hsub).
  unfold delete in Hdel. apply rbind_Ok_inv in Hdel as (h & _ & Hdel). injection Hdel as <-.
  destruct (topo_order_spec s) as (Hsort & Hnd & Hin).
  destruct (Hd x tb Hx0) as (hx & Hhx & Hrows). exists hx. split; [done|].
  intros k r Hr. destruct (Hrows k r (lookup_weaken _ _ _ _ Hr Hsub)) as (Hkey & Hdom & _).
  split_and!; [done|done|].
  apply (pass_intact s Hs _ _ Hsort Hnd x (proj2 (Hin x) (mk_is_Some _ _ Hhx)) k r hx); [|done].
  unfold contents. by rewrite Hx.
Qed.

(** After [(T & cond).delete()] no row of [T] matches [cond]. *)
Theorem delete_removes s t cond d d' r :
  delete s t cond d = Ok d' -> r ∈ rows d' t -> matches cond r = false.
Proof.
  unfold delete. intros Hdel Hr. apply rbind_Ok_inv in Hdel as (h & _ & Hdel). injection Hdel as <-.
  unfold rows in Hr. apply list_elem_of_fmap in Hr as ([k r'] & -> & Hin).
  apply elem_of_map_to_list in Hin.
  unfold contents in Hin. destruct (foldl _ _ _ !! t) as [tb'|] eqn:Ht; [|simpl in Hin; by rewrite lookup_empty in Hin].
  simpl in Hin. apply foldl_prune_sub in Ht as (tb1 & Ht1 & Hsub1).
  pose proof (lookup_weaken _ _ _ _ Hin Hsub1) as Hin1.
  destruct (d !! t) as [tb|] eqn:Ht0; [|by rewrite Ht0 in Ht1].
  rewrite lookup_insert_eq in Ht1. injection Ht1 as <-.
  by apply map_lookup_filter_Some in Hin1 as [_ Hm].
Qed.

(** ** What a delete keeps

    A predicate [keep] on rows that holds of no row matching [cond] and
    passes from a row to the rows it references is kept by the delete:
    at every step of the cascade the rows it holds of are all present, so
    the parents of such a row are present when its table is pruned. *)
Section Keep.
Context (s : schema) (d : db) (Hd : db_wf s d) (t0 : string) (cond : row).
Context (keep : string -> row -> Prop).
Hypothesis keep_root : forall k r, contents d t0 !! k = Some r -> keep t0 r -> matches cond r = false.
Hypothesis keep_parent : forall c h p hp k r kp rp,
  s !! c = Some h -> p ∈ all_parents h -> s !! p = Some hp ->
  contents d c !! k = Some r -> row_key c hp r = Ok kp -> contents d p !! kp = Some rp ->
  keep c r -> keep p rp.

Lemma root_kept t k r :
  contents d t !! k = Some r -> keep t r ->
  contents (match d !! t0 with
            | Some tb => <[t0 := filter (fun kr : list keyval * row => matches cond kr.2 = false) tb]> d
            | None => d
            end) t !! k = Some r.
Proof.
  intros Hr Hk. destruct (decide (t = t0)) as [->|Hne].
  - pose proof (keep_root k r Hr Hk) as Hm. unfold contents in *.
    destruct (d !! t0) as [tb|]; [|done]. rewrite lookup_insert_eq.
    by apply map_lookup_filter_Some_2.
  - unfold contents in *. destruct (d !! t0); [|done]. by rewrite lookup_insert_ne by congruence.
Qed.

Lemma prune_kept cur c :
  (forall t k r, contents d t !! k = Some r -> keep t r -> contents cur t !! k = Some r) ->
  forall t k r, contents d t !! k = Some r -> keep t r -> contents (prune s cur c) t !! k = Some r.
Proof.
  intros Inv t k r Hr Hk. destruct (decide (t = c)) as [->|Hne];
    [|unfold contents; rewrite prune_other by done; by apply Inv].
  pose proof (Inv c k r Hr Hk) as Hcur. unfold contents, prune in *.
  destruct (cur !! c) as [tb|] eqn:Hc; simpl in Hcur; [|by rewrite lookup_empty in Hcur].
  rewrite lookup_insert_eq. apply map_lookup_filter_Some_2; [done|]. simpl.
  destruct (db_wf_row s d c k r Hd Hr) as (h & Hh & _ & _ & Hpar).
  unfold parents_present_b. rewrite Hh. apply forallb_forall. intros p Hp%list_elem_of_In.
  eapply Forall_forall in Hpar; [|exact Hp].
  unfold parent_present, table_heading in *. destruct (s !! p) as [hp|] eqn:Hsp; [|done]. simpl in *.
  destruct (row_key c hp r) as [kp|] eqn:Hkp; [|done]. simpl in *.
  destruct (contents d p !! kp) as [rp|] eqn:Hrp; [|done].
  unfold contents in Hrp |- *. rewrite (Inv p kp rp Hrp); [done|].
  exact (keep_parent c h p hp k r kp rp Hh Hp Hsp Hr Hkp Hrp Hk).
Qed.

Lemma foldl_prune_kept l cur :
  (forall t k r, contents d t !! k = Some r -> keep t r -> contents cur t !! k = Some r) ->
  forall t k r, contents d t !! k = Some r -> keep t r ->
    contents (foldl (prune s) cur l) t !! k = Some r.
Proof.
  revert cur. induction l as [|c l IH]; intros cur Inv; [done|]. simpl.
  apply IH. by apply prune_kept.
Qed.

(** Every row [keep] holds of survives [(T & cond).delete()]. *)
Lemma delete_keeps d' t k r :
  delete s t0 cond d = Ok d' -> contents d t !! k = Some r -> keep t r -> contents d' t !! k = Some r.
Proof.
  unfold delete. intros (h & _ & [= <-])%rbind_Ok_inv. apply foldl_prune_kept.
  intros t' k' r' Hr' Hk'. by apply root_kept.
Qed.

End Keep.

(** ** The cascade as a specification

    DataJoint's documentation states the cascade declaratively: a row is
    deleted when it matches the restriction, or when it references a
    deleted row. [doomed] is that closure, on the rows of [d]; the
    single upstream-to-downstream pass of [delete] refines it. *)
Inductive doomed (s : schema) (d : db) (t0 : string) (cond : row) : string -> row -> Prop :=
| doomed_root k r :
    contents d t0 !! k = Some r -> matches cond r = true -> doomed s d t0 cond t0 r
| doomed_child c h p hp k r kp rp :
    s !! c = Some h -> p ∈ all_parents h -> s !! p = Some hp ->
    contents d c !! k = Some r -> row_key c hp r = Ok kp -> contents d p !! kp = Some rp ->
    doomed s d t0 cond p rp -> doomed s d t0 cond c r.


(** A doomed row is gone after the delete. *)
Lemma doomed_removed s t0 cond d d' t r :
  wf_schema s -> db_wf s d -> delete s t0 cond d = Ok d' ->
  doomed s d t0 cond t r -> forall k, contents d' t !! k <> Some r.
Proof.
  intros Hs Hd Hdel. pose proof (delete_wf _ _ _ _ _ Hs Hd Hdel) as Hd'.
  induction 1 as [k0 r Hr Hm|c h p hp k0 r kp rp Hh Hp Hhp Hr Hkp Hrp _ IH]; intros k Hk.
  - assert (Hin : r ∈ rows d' t0) by (apply elem_of_rows; eauto).
    by rewrite (delete_removes _ _ _ _ _ _ Hdel Hin) in Hm.
  - destruct (db_wf_row _ _ _ _ _ Hd' Hk) as (h' & Hh' & _ & _ & Hpar).
    rewrite Hh in Hh'. injection Hh' as <-. eapply Forall_forall in Hpar; [|exact Hp].
    unfold parent_present, table_heading in Hpar. rewrite Hhp in Hpar. cbn [rbind] in Hpar.
    rewrite Hkp in Hpar. cbn [rbind] in Hpar.
    destruct (contents d' p !! kp) as [rp'|] eqn:E; [|discriminate].
    pose proof (delete_contents_lookup _ _ _ _ _ _ _ _ Hdel E) as E0.
    rewrite Hrp in E0. injection E0 as <-. exact (IH kp E).
Qed.

(** A row whose parent rows agreeing with it on [x] are doomed is doomed. *)
Lemma doomed_by_parent s d t0 cond c p x k r :
  db_wf s d -> parent_key_b s c p x = true -> contents d c !! k = Some r ->
  (forall kp rp, contents d p !! kp = Some rp -> rp !! x = r !! x -> doomed s d t0 cond p rp) ->
  doomed s d t0 cond c r.
Proof.
  intros Hwf Hb Hr Hp. unfold parent_key_b in Hb.
  destruct (s !! c) as [h|] eqn:Hc; [|done]. destruct (s !! p) as [hp|] eqn:Hsp; [|done].
  apply andb_true_iff in Hb as [Hpar Hx%bool_decide_eq_true_1]. apply bool_decide_eq_true_1 in Hpar.
  apply list_elem_of_fmap in Hx as (a & -> & Ha).
  destruct (wf_parent_entry s d c h p hp k r Hwf Hc Hpar Hsp Hr) as (kp & rp & Hk & Hrp & Hag).
  eapply doomed_child; [exact Hc|exact Hpar|exact Hsp|exact Hr|exact Hk|exact Hrp|].
  apply (Hp kp rp Hrp). by apply Hag.
Qed.

(** C22: [(T & cond).delete()] refines the declarative cascade: in a
    well-formed database, after the delete a row is left exactly when it
    was there and is not doomed, that is, neither matches [cond] in [T]
    nor references, through a chain of foreign keys, a row that does. *)
Theorem delete_refines_cascade s t0 cond d d' t k r :
  wf_schema s -> db_wf s d -> delete s t0 cond d = Ok d' ->
  (contents d' t !! k = Some r <-> contents d t !! k = Some r /\ ~ doomed s d t0 cond t r).
Proof.
  intros Hs Hd Hdel. split.
  - intros Hk. split; [by eapply delete_contents_lookup|].
    intros Hdm. exact (doomed_removed _ _ _ _ _ _ _ Hs Hd Hdel Hdm k Hk).
  - intros [Hr Hnd]. apply (delete_keeps s d Hd t0 cond (fun t r => ~ doomed s d t0 cond t r));
      [| |exact Hdel|exact Hr|exact Hnd].
    + intros k' r' Hr' Hn. destruct (matches cond r') eqn:E; [|done]. by destruct Hn; econstructor.
    + intros c h p hp k' r' kp rp Hh Hp Hhp Hr' Hkp Hrp Hn Hdp. apply Hn. by econstructor.
Qed.

(** Every row of the tables computed from a parameter set has the
    [seg_param_id] of a parameter set present. *)
Lemma descends_param d t r :
  db_wf Pipeline.computed_schema d -> t ∈ param_tables -> r ∈ rows d t ->
  exists rp, rp ∈ rows d "SegmentationParam" /\ rp !! "seg_param_id" = r !! "seg_param_id".
Proof.
  intros Hwf Ht Hr.
  assert (step : forall c p r, parent_key_b Pipeline.computed_schema c p "seg_param_id" = true ->
            r ∈ rows d c -> exists rp, rp ∈ rows d p /\ rp !! "seg_param_id" = r !! "seg_param_id")
    by (intros; by eapply wf_parent_agree).
  assert (SP : forall r, r ∈ rows d "Segmentation" ->
            exists rp, rp ∈ rows d "SegmentationParam" /\ rp !! "seg_param_id" = r !! "seg_param_id")
    by (intros r1 Hr1; apply (step "Segmentation"); [vm_compute; reflexivity|exact Hr1]).
  assert (FS : forall c r, parent_key_b Pipeline.computed_schema c "Segmentation" "seg_param_id" = true ->
            r ∈ rows d c ->
            exists rp, rp ∈ rows d "SegmentationParam" /\ rp !! "seg_param_id" = r !! "seg_param_id").
  { intros c r1 Hc Hr1. destruct (step _ _ _ Hc Hr1) as (r2 & H2 & E2).
    destruct (SP r2 H2) as (r3 & H3 & E3). exists r3. split; [done|congruence]. }
  repeat (apply elem_of_cons in Ht as [->|Ht]); [eauto|by apply SP|..|by apply elem_of_nil in Ht].
  - apply (FS "Segmentation.Roi"); [vm_compute; reflexivity|done].
  - apply (FS "Fluorescence"); [vm_compute; reflexivity|done].
  - destruct (step "Fluorescence.Trace" "Fluorescence" r) as (r1 & H1 & E1);
      [vm_compute; reflexivity|done|].
    destruct (FS "Fluorescence" r1) as (r2 & H2 & E2); [vm_compute; reflexivity|done|].
    exists r2. split; [done|congruence].
Qed.

(** After the notebook's [(SegmentationParam() & 'seg_param_id =
    0').delete()], no parameter set [0] is left, nor any segmentation, ROI,
    fluorescence or trace computed with it. *)
Lemma delete_param0_cascade d d' t r :
  db_wf Pipeline.computed_schema d -> delete_param0 d = Ok d' ->
  t ∈ param_tables -> r ∈ rows d' t -> r !! "seg_param_id" <> Some (VInt 0).
Proof.
  intros Hwf Hdel Ht Hr.
  pose proof (delete_wf _ _ _ _ _ Pipeline.computed_schema_wf Hwf Hdel) as Hwf'.
  destruct (descends_param d' t r Hwf' Ht Hr) as (rp & Hrp & E). rewrite <- E.
  pose proof (delete_removes _ _ _ _ _ _ Hdel Hrp) as Hm.
  unfold matches in Hm. apply bool_decide_eq_false_1 in Hm. intros E0. apply Hm.
  apply map_Forall_singleton. by right.
Qed.

(** In the pipeline, a row that references a row of a table computed from
    a parameter set is itself computed from one, with the same
    [seg_param_id] in the key it references. *)
Lemma param_parents c h p :
  Pipeline.computed_schema !! c = Some h -> p ∈ all_parents h -> p ∈ param_tables ->
  c ∈ param_tables /\ parent_key_b Pipeline.computed_schema c p "seg_param_id" = true.
Proof.
  assert (H : map_Forall (fun c h => Forall (fun p => p ∈ param_tables ->
                c ∈ param_tables /\ parent_key_b Pipeline.computed_schema c p "seg_param_id" = true)
                (all_parents h)) Pipeline.computed_schema) by decide_by_eval.
  intros Hc Hp. by eapply Forall_forall in Hp; [|exact (H c h Hc)].
Qed.

Lemma param_key_attr h :
  Pipeline.computed_schema !! "SegmentationParam" = Some h -> "seg_param_id" ∈ names (all_attrs h).
Proof. intros Hh. vm_compute in Hh. injection Hh as <-. decide_by_eval. Qed.

(** The rows the delete of parameter set [0] keeps: the rows of the other
    tables, and the rows of the parameter tables with another
    [seg_param_id]. *)
Lemma delete_param0_keeps d d' t k r :
  db_wf Pipeline.computed_schema d -> delete_param0 d = Ok d' -> contents d t !! k = Some r ->
  (t ∈ param_tables -> r !! "seg_param_id" <> Some (VInt 0)) -> contents d' t !! k = Some r.
Proof.
  intros Hwf Hdel Hr Hk. unfold delete_param0 in Hdel.
  refine (delete_keeps _ _ Hwf _ _ (fun t r => t ∈ param_tables -> r !! "seg_param_id" <> Some (VInt 0))
            _ _ d' t k r Hdel Hr Hk); clear Hdel Hr Hk k r t.
  - intros k r Hr Hk. destruct (db_wf_row _ _ _ _ _ Hwf Hr) as (h & Hh & _ & Hdom & _).
    assert (Hin : "seg_param_id" ∈ dom r) by (rewrite Hdom; apply elem_of_list_to_set, param_key_attr, Hh).
    apply elem_of_dom in Hin as [v Hv]. unfold matches. apply bool_decide_eq_false_2.
    rewrite map_Forall_singleton, Hv. intros [?|[= ->]]; [done|]. apply Hk; [by left|done].
  - intros c h p hp k r kp rp Hh Hp Hsp Hr Hkp Hrp Hk HpT.
    destruct (param_parents c h p Hh Hp HpT) as [HcT Hb].
    unfold parent_key_b in Hb. rewrite Hh, Hsp in Hb. apply andb_true_iff in Hb as [_ Ha].
    apply bool_decide_eq_true_1, list_elem_of_fmap in Ha as (a & Ea & Ha).
    destruct (db_wf_row _ _ _ _ _ Hwf Hrp) as (hp' & Hsp' & Hkrp & _).
    rewrite Hsp in Hsp'. injection Hsp' as <-.
    rewrite Ea, <- (row_key_agree c p hp r rp kp a Hkp Hkrp Ha), <- Ea. by apply Hk.
Qed.

(** C12: The notebook's [(SegmentationParam() & 'seg_param_id =
    0').delete()] removes exactly the rows computed from parameter set
    [0]: a row is left after it iff it was there before and, when its
    table is [SegmentationParam], [Segmentation], [Segmentation.Roi],
    [Fluorescence] or [Fluorescence.Trace], its [seg_param_id] is not [0];
    the mice, sessions, scans, average frames and the results of the other
    parameter sets are all kept. *)
Theorem delete_param0_exact d d' t r :
  db_wf Pipeline.computed_schema d -> delete_param0 d = Ok d' ->
  (r ∈ rows d' t <-> r ∈ rows d t /\ (t ∈ param_tables -> r !! "seg_param_id" <> Some (VInt 0))).
Proof.
  intros Hwf Hdel. split.
  - intros Hr. split; [|intros Ht; by apply (delete_param0_cascade d d' t r)].
    apply elem_of_rows in Hr as [k Hk]. apply elem_of_rows. exists k. unfold contents in *.
    destruct (d' !! t) as [tb'|] eqn:E; simpl in Hk; [|by rewrite lookup_empty in Hk].
    destruct (delete_contents_sub _ _ _ _ _ _ _ Hdel E) as (tb & -> & Hsub).
    exact (lookup_weaken _ _ _ _ Hk Hsub).
  - intros [(k & Hk)%elem_of_rows Hkeep]. apply elem_of_rows. exists k.
    exact (delete_param0_keeps d d' t k r Hwf Hdel Hk Hkeep).
Qed.

End Delete.
