(* ===== verification/Files.v ===== *)
(** * Files: the data files the [make] methods read, and their names.

    - [Module PyStr]: Python's [str] of the values put in a file name, the
      string operations used below and their lemmas.
    - [Module DataFiles]: the file system as a map from paths to file
      contents ([.tif] stacks read by [skimage.io.imread], [.npy] arrays read
      by [np.load]), [os.path.join], and the
      [data_{mouse_id}_{session_date}.npy] naming convention of the
      electrophysiology [Neuron.make]; the theorem [data_file_inj]
      shows that two sessions never share a data file, and
      [parse_data_file_name] recovers the session from the file name. *)

From Stdlib Require Import ZArith Ascii DecimalString DecimalZ.
From S2P Require Import Prelude Values.

Module PyStr.
Local Open Scope string_scope.

(** [str(z)] for a Python [int]: its decimal digits, [-] when negative. *)
Definition str_int (z : Z) : string := NilEmpty.string_of_int (Z.to_int z).

(** [c in s] *)
Fixpoint has_char (c : Ascii.ascii) (s : string) : bool :=
  match s with
  | EmptyString => false
  | String c' s' => bool_decide (c = c') || has_char c s'
  end.

Definition underscore : Ascii.ascii := "_"%char.

Lemma str_uint_no_underscore u : has_char underscore (NilEmpty.string_of_uint u) = false.
Proof. induction u; simpl; auto. Qed.

Lemma str_int_no_underscore z : has_char underscore (str_int z) = false.
Proof.
  unfold str_int, NilEmpty.string_of_int.
  destruct (Z.to_int z); simpl; apply str_uint_no_underscore.
Qed.

Lemma str_int_inj z1 z2 : str_int z1 = str_int z2 -> z1 = z2.
Proof.
  unfold str_int. intros H. apply (f_equal NilEmpty.int_of_string) in H.
  rewrite !NilEmpty.isi in H. injection H as H.
  rewrite <- (DecimalZ.of_to z1), <- (DecimalZ.of_to z2), H. done.
Qed.

Lemma string_length_app s1 s2 : String.length (s1 ++ s2) = String.length s1 + String.length s2.
Proof. induction s1; simpl; auto. Qed.

Lemma string_app_assoc s1 s2 s3 : (s1 ++ s2) ++ s3 = s1 ++ s2 ++ s3.
Proof. induction s1 as [|c s1 IH]; [done|]. exact (f_equal (String c) IH). Qed.

(** [s.startswith(p)] and [s[len(p):]] *)
Fixpoint strip_prefix (p s : string) : option string :=
  match p, s with
  | EmptyString, _ => Some s
  | String c p', String c' s' => if bool_decide (c = c') then strip_prefix p' s' else None
  | String _ _, EmptyString => None
  end.

Lemma strip_prefix_app p s : strip_prefix p (p ++ s) = Some s.
Proof. induction p; simpl; [done|]. by rewrite bool_decide_eq_true_2. Qed.

(** [s.partition(c)]: the text before the first [c] and, if there is one,
    the text after it. *)
Fixpoint split_char (c : Ascii.ascii) (s : string) : string * option string :=
  match s with
  | EmptyString => (EmptyString, None)
  | String c' s' =>
      if bool_decide (c = c') then (EmptyString, Some s')
      else let '(a, b) := split_char c s' in (String c' a, b)
  end.

Lemma split_char_app c a b :
  has_char c a = false -> split_char c (a ++ String c b) = (a, Some b).
Proof.
  induction a as [|x a IH]; simpl; intros H.
  - by rewrite bool_decide_eq_true_2.
  - apply orb_false_iff in H as [Hx H]. rewrite Hx, IH by done. done.
Qed.

(** [s.removesuffix(suf)] when [s] ends with [suf]. *)
Definition strip_suffix (suf s : string) : option string :=
  let n := String.length s - String.length suf in
  if bool_decide (String.length suf <= String.length s) &&
     bool_decide (String.substring n (String.length suf) s = suf)
  then Some (String.substring 0 n s) else None.

Lemma substring_app_l s1 s2 : String.substring 0 (String.length s1) (s1 ++ s2) = s1.
Proof. induction s1; simpl; [by destruct s2|by f_equal]. Qed.

Lemma substring_app_r s1 s2 :
  String.substring (String.length s1) (String.length s2) (s1 ++ s2) = s2.
Proof.
  induction s1; simpl; [|done].
  induction s2; simpl; [done|by f_equal].
Qed.

Lemma strip_suffix_app suf s : strip_suffix suf (s ++ suf) = Some s.
Proof.
  unfold strip_suffix. rewrite string_length_app.
  replace (String.length s + String.length suf - String.length suf)
    with (String.length s) by lia.
  rewrite substring_app_r, substring_app_l.
  rewrite bool_decide_eq_true_2 by lia. by rewrite bool_decide_eq_true_2.
Qed.

End PyStr.

Module DataFiles.
Import PyStr.
Local Open Scope string_scope.

(** A TIFF stack as [skimage.io.imread] returns it: frames of [tif_h] rows
    of [tif_w] pixels. *)
Record tif : Type := mk_tif {
  tif_h : nat;
  tif_w : nat;
  tif_frames : list (list (list Z))
}.

(** A 2-D [.npy] array as [np.load] returns it: its rows (the first axis)
    of [npy_cols] columns. *)
Record npy : Type := mk_npy {
  npy_cols : nat;
  npy_rows : list (list pyfloat)
}.

Inductive file : Type :=
| FTif (t : tif)
| FNpy (a : npy).

#[export] Instance tif_eq_dec : EqDecision tif.
Proof. solve_decision. Defined.
#[export] Instance npy_eq_dec : EqDecision npy.
Proof. solve_decision. Defined.

Abbreviation fsys := (gmap string file).

(** [io.imread(path)] *)
Definition imread (F : fsys) (path : string) : result exn tif :=
  match F !! path with
  | Some (FTif t) => Ok t
  | Some _ => Err (BadFile path)
  | None => Err (FileNotFound path)
  end.

(** [np.load(path)] *)
Definition np_load (F : fsys) (path : string) : result exn npy :=
  match F !! path with
  | Some (FNpy a) => Ok a
  | Some _ => Err (BadFile path)
  | None => Err (FileNotFound path)
  end.

(** [os.path.join(a, b)] (posixpath): an absolute [b] replaces [a]; a
    separator is added unless [a] is empty or ends with one. *)
Definition path_join (a b : string) : string :=
  if String.prefix "/" b then b
  else match a, strip_suffix "/" a with
       | EmptyString, _ | _, Some _ => a ++ b
       | _, None => a ++ "/" ++ b
       end.

(** A field of [str.format] applied to the entries of [key]: [str] of an
    [int] or a date. *)
Definition format_field (key : row) (a : string) : result exn string :=
  match key !! a with
  | Some (VInt z) => Ok (str_int z)
  | Some (VStr x) => Ok x
  | Some _ => Err PyTypeError
  | None => Err (PyKeyError a)
  end.

Definition data_file_name (data_dir m d : string) : string :=
  data_dir ++ "/data_" ++ m ++ "_" ++ d ++ ".npy".

(** ['{data_dir}/data_{mouse_id}_{session_date}.npy'.format(...)] with the
    entries of [key] and [data_dir=data_dir] as keyword arguments: a [key] that itself has a [data_dir] entry makes
    the call raise [TypeError] (a keyword argument given twice). *)
Definition data_file (data_dir : string) (key : row) : result exn string :=
  match key !! "data_dir" with
  | Some _ => Err PyTypeError
  | None =>
      m <-? format_field key "mouse_id" ;;
      d <-? format_field key "session_date" ;;
      Ok (data_file_name data_dir m d)
  end.

(** The session a data file name belongs to. *)
Definition parse_data_file_name (data_dir f : string) : option (Z * string) :=
  rest ← strip_prefix (data_dir ++ "/data_") f ;
  let '(ms, after) := split_char underscore rest in
  after' ← after ;
  d ← strip_suffix ".npy" after' ;
  i ← NilEmpty.int_of_string ms ;
  Some (Z.of_int i, d).

(** The file name of a session's data, computed from its key. *)
Lemma data_file_Ok dd key m d :
  key !! "data_dir" = None -> key !! "mouse_id" = Some (VInt m) ->
  key !! "session_date" = Some (VStr d) ->
  data_file dd key = Ok (data_file_name dd (str_int m) d).
Proof. intros H0 H1 H2. unfold data_file, format_field. by rewrite H0, H1, H2. Qed.

(** The session of a data file is recovered from its name. *)
Theorem parse_data_file_name_roundtrip dd m d :
  parse_data_file_name dd (data_file_name dd (str_int m) d) = Some (m, d).
Proof.
  unfold parse_data_file_name, data_file_name.
  rewrite <- (string_app_assoc dd "/data_"), strip_prefix_app. simpl.
  change ("_" ++ d ++ ".npy") with (String underscore (d ++ ".npy")).
  rewrite split_char_app by apply str_int_no_underscore. simpl.
  rewrite strip_suffix_app. simpl. unfold str_int. rewrite NilEmpty.isi. simpl.
  by rewrite DecimalZ.of_to.
Qed.

(** C5: The name [Neuron.make] builds for a session's key parses back to that
    session's [mouse_id] and [session_date]. *)
Theorem data_file_parse dd key f m d :
  data_file dd key = Ok f ->
  key !! "mouse_id" = Some (VInt m) -> key !! "session_date" = Some (VStr d) ->
  parse_data_file_name dd f = Some (m, d).
Proof.
  intros Hf Hm Hd. destruct (key !! "data_dir") eqn:E0;
    [unfold data_file in Hf; by rewrite E0 in Hf|].
  rewrite (data_file_Ok dd key m d E0 Hm Hd) in Hf. injection Hf as <-.
  apply parse_data_file_name_roundtrip.
Qed.

(** C6: Two sessions never share a data file: keys with different
    [(mouse_id, session_date)] get different file names. *)
Theorem data_file_inj dd k1 k2 f m1 d1 m2 d2 :
  data_file dd k1 = Ok f -> data_file dd k2 = Ok f ->
  k1 !! "mouse_id" = Some (VInt m1) -> k1 !! "session_date" = Some (VStr d1) ->
  k2 !! "mouse_id" = Some (VInt m2) -> k2 !! "session_date" = Some (VStr d2) ->
  m1 = m2 /\ d1 = d2.
Proof.
  intros H1 H2 Hm1 Hd1 Hm2 Hd2.
  destruct (k1 !! "data_dir") eqn:E1; [unfold data_file in H1; by rewrite E1 in H1|].
  destruct (k2 !! "data_dir") eqn:E2; [unfold data_file in H2; by rewrite E2 in H2|].
  rewrite (data_file_Ok dd k1 m1 d1 E1 Hm1 Hd1) in H1.
  rewrite (data_file_Ok dd k2 m2 d2 E2 Hm2 Hd2) in H2.
  injection H1 as <-. injection H2 as H2.
  pose proof (parse_data_file_name_roundtrip dd m1 d1) as P1.
  rewrite <- H2, parse_data_file_name_roundtrip in P1. by injection P1.
Qed.

End DataFiles.
