(* ===== verification/Imaging.v ===== *)
(** * Imaging: the array computations of the calcium-imaging notebooks.

    [Module Mean] models [np.mean(im, axis=0)] on a TIFF stack, the average
    frame that [AverageFrame.make] stores: the pixel-wise sum over frames
    divided by the number of frames, as exact rationals (a stack without
    frames gives [nan] everywhere, as numpy does). Its theorem: when every
    pixel of a non-empty stack lies in [[lo, hi]] (for instance [[0, 255]]
    for 8-bit data) so does every pixel of its average. *)

From Stdlib Require Import ZArith QArith.
From S2P Require Import Prelude Values Files.

Module Mean.
Import DataFiles.

(** The pixel [(r, c)] of a frame. *)
Definition px (f : list (list Z)) (r c : nat) : Z := default 0%Z (f !! r ≫= (.!! c)).

(** The sum of a pixel over the frames. *)
Definition pixel_sum (frames : list (list (list Z))) (r c : nat) : Z :=
  foldr Z.add 0%Z (map (fun f => px f r c) frames).

(** [np.mean(im, axis=0)] *)
Definition mean_frames (im : tif) : list (list pyfloat) :=
  let n := length (tif_frames im) in
  map (fun r => map (fun c => fdiv (fof_Z (pixel_sum (tif_frames im) r c)) (fof_Z (Z.of_nat n)))
                    (seq 0 (tif_w im)))
      (seq 0 (tif_h im)).

(** Every frame of the stack has [tif_h] rows of [tif_w] pixels. *)
Definition tif_wf (im : tif) : Prop :=
  Forall (fun f => length f = tif_h im /\ Forall (fun row => length row = tif_w im) f)
    (tif_frames im).

Definition pixels_in (lo hi : Z) (im : tif) : Prop :=
  Forall (Forall (Forall (fun p => (lo <= p <= hi)%Z))) (tif_frames im).

(** ** Lemmas *)

Lemma px_bounds lo hi f r c :
  Forall (Forall (fun p => (lo <= p <= hi)%Z)) f ->
  (r < length f)%nat -> (forall row, f !! r = Some row -> c < length row)%nat ->
  (lo <= px f r c <= hi)%Z.
Proof.
  intros Hall Hr Hc. unfold px.
  destruct (lookup_lt_is_Some_2 f r Hr) as [row Hrow]. rewrite Hrow. simpl.
  destruct (lookup_lt_is_Some_2 row c (Hc row Hrow)) as [p Hp]. rewrite Hp. simpl.
  eapply Forall_lookup_1 in Hall; [|exact Hrow].
  by eapply Forall_lookup_1 in Hall; [|exact Hp].
Qed.

(** A sum of [k] integers in [[lo, hi]] lies in [[k * lo, k * hi]]. *)
Lemma sum_bounds lo hi (l : list Z) :
  Forall (fun p => (lo <= p <= hi)%Z) l ->
  (Z.of_nat (length l) * lo <= foldr Z.add 0%Z l <= Z.of_nat (length l) * hi)%Z.
Proof. induction 1 as [|p l Hp _ IH]; simpl; lia. Qed.

Lemma pixel_sum_bounds lo hi frames r c :
  Forall (fun f => (lo <= px f r c <= hi)%Z) frames ->
  (Z.of_nat (length frames) * lo <= pixel_sum frames r c <= Z.of_nat (length frames) * hi)%Z.
Proof.
  intros H. unfold pixel_sum. rewrite <- (length_map (fun f => px f r c)).
  apply sum_bounds. by apply Forall_fmap.
Qed.

Lemma fdiv_bounds lo hi s n :
  (0 < n)%Z -> (n * lo <= s <= n * hi)%Z ->
  exists q, fdiv (fof_Z s) (fof_Z n) = Fnum q /\ (inject_Z lo <= q <= inject_Z hi)%Q.
Proof.
  intros Hn [Hlo Hhi]. unfold fdiv, fof_Z, fnum.
  assert (Hn0 : Qeq_bool (Qred (inject_Z n)) 0 = false).
  { apply not_true_iff_false. rewrite Qeq_bool_iff, Qred_correct.
    unfold Qeq. simpl. lia. }
  rewrite Hn0. eexists. split; [done|]. rewrite !Qred_correct.
  assert (Hq : (0 < inject_Z n)%Q) by (unfold Qlt; simpl; lia).
  split.
  - apply Qle_shift_div_l; [done|]. rewrite Qmult_comm, <- inject_Z_mult.
    rewrite <- Zle_Qle. lia.
  - apply Qle_shift_div_r; [done|]. rewrite Qmult_comm, <- inject_Z_mult.
    rewrite <- Zle_Qle. lia.
Qed.

(** C7: The average frame of a non-empty stack whose pixels lie in [[lo, hi]]
    has its pixels in [[lo, hi]]. *)
Theorem mean_frames_bounds lo hi im :
  tif_wf im -> pixels_in lo hi im -> tif_frames im <> [] ->
  Forall (Forall (fun x => exists q, x = Fnum q /\ (inject_Z lo <= q <= inject_Z hi)%Q))
    (mean_frames im).
Proof.
  intros Hwf Hpx Hne. unfold mean_frames.
  apply Forall_forall. intros row (r & -> & Hr%elem_of_seq)%list_elem_of_fmap.
  apply Forall_forall. intros x (c & -> & Hc%elem_of_seq)%list_elem_of_fmap.
  apply fdiv_bounds; [destruct (tif_frames im); simpl; [done|lia]|].
  apply pixel_sum_bounds, Forall_forall. intros f Hf.
  eapply Forall_forall in Hwf as [Hlen Hrows]; [|exact Hf].
  eapply Forall_forall in Hpx; [|exact Hf].
  apply px_bounds; [done|lia|]. intros row Hrow.
  eapply Forall_lookup_1 in Hrows; [|exact Hrow]. lia.
Qed.

End Mean.
