(* ===== verification/Segment.v ===== *)
(** * Segment: the array computations of [Segmentation.make].

    [Segmentation.make] (the computed-tables notebook, [src/unnamed/part_001])
    thresholds the average frame, labels its blobs with
    [scipy.ndimage.label], measures each label with [np.unique], removes the
    labels smaller than [size_cutoff] and makes one ROI mask per label left.

    - [Module Label]: [ndimage.label] with its default structuring element
      (4-connectivity): the pixels of the mask are taken in raster order,
      the first pixel left starts a component that is grown to all the
      pixels it touches, and the component gets the next label. Its lemmas:
      a pixel of the mask gets a label in [1, n], every other pixel [0];
      both loops end within the fuel they are given.
    - [Module Segment]: [np.unique], the [sizes] array, [small_size_filter]
      and numpy's fancy indexing [small_size_filter[label_im]], which raises
      [IndexError] on a label past the end of the filter. *)

From Stdlib Require Import ZArith QArith.
From stdpp Require Import sorting.
From S2P Require Import Prelude Values.

Module Label.

Abbreviation pos := (nat * nat)%type.

(** The entry [(r, c)] of a 2-D array. *)
Definition at2 {A} (m : list (list A)) (p : pos) : option A := m !! p.1 ≫= (.!! p.2).

(** [avg_image > threshold], elementwise ([nan] is never above). *)
Definition threshold_mask (img : list (list pyfloat)) (th : pyfloat) : list (list bool) :=
  map (map (fun x => fgt x th)) img.

(** The pixels set in a mask, in raster order. *)
Definition foreground (m : list (list bool)) : list pos :=
  mjoin (imap (fun r row => map (fun c => (r, c))
                 (filter (fun c => row !! c = Some true) (seq 0 (length row)))) m).

(** Two pixels are neighbours for the cross-shaped default structure. *)
Definition adjacent (p q : pos) : bool :=
  bool_decide ((p.1 = q.1 /\ (p.2 = S q.2 \/ q.2 = S p.2)) \/
               (p.2 = q.2 /\ (p.1 = S q.1 \/ q.1 = S p.1))).

Definition touches (comp : list pos) (q : pos) : bool := existsb (adjacent q) comp.

(** Grow a component with the pixels left that touch it, until none does. *)
Fixpoint grow (fuel : nat) (comp rest : list pos) : list pos * list pos :=
  match fuel with
  | 0 => (comp, rest)
  | S f =>
      match filter (fun q => touches comp q = true) rest with
      | [] => (comp, rest)
      | new => grow f (comp ++ new) (filter (fun q => touches comp q = false) rest)
      end
  end.

(** Give the label [v] to the pixels of a component. *)
Definition assign (comp : list pos) (v : Z) (acc : gmap pos Z) : gmap pos Z :=
  foldr (fun q m => <[q := v]> m) acc comp.

(** The labelling loop: the first pixel left starts the next component. *)
Fixpoint label_loop (fuel : nat) (next : Z) (todo : list pos) (acc : gmap pos Z)
    : gmap pos Z * Z :=
  match fuel, todo with
  | S f, p :: rest =>
      let '(comp, rest') := grow (length rest) [p] rest in
      label_loop f (next + 1) rest' (assign comp next acc)
  | _, _ => (acc, (next - 1)%Z)
  end.

(** [label_im, nb_labels = ndimage.label(mask)] *)
Definition ndlabel (m : list (list bool)) : list (list Z) * Z :=
  let todo := foreground m in
  let '(labels, n) := label_loop (length todo) 1 todo ∅ in
  (imap (fun r row => imap (fun c _ => default 0%Z (labels !! (r, c))) row) m, n).

(** ** Lemmas *)

Lemma grow_spec fuel comp rest comp' rest' :
  grow fuel comp rest = (comp', rest') ->
  comp ⊆ comp' /\ rest' `sublist_of` rest /\
  (forall x, x ∈ comp' -> x ∈ comp \/ x ∈ rest) /\
  (forall x, x ∈ rest -> x ∈ comp' \/ x ∈ rest').
Proof.
  revert comp rest. induction fuel as [|f IH]; intros comp rest H; simpl in H.
  - simplify_eq. split_and!; [done|done|by left|by right].
  - destruct (filter _ rest) as [|n new] eqn:Hn; [simplify_eq; split_and!; [done|done|by left|by right]|].
    rewrite <- Hn in H. apply IH in H as (Hc & Hs & Hin & Hout). split_and!.
    + intros x Hx. apply Hc, elem_of_app. by left.
    + etrans; [exact Hs|]. apply sublist_filter.
    + intros x Hx. destruct (Hin x Hx) as [Hx'|Hx'].
      * apply elem_of_app in Hx' as [?|Hx'%list_elem_of_filter]; [by left|right; apply Hx'].
      * apply list_elem_of_filter in Hx'. right; apply Hx'.
    + intros x Hx. destruct (touches comp x) eqn:Ht.
      * left. apply Hc, elem_of_app. right. by apply list_elem_of_filter.
      * apply Hout, list_elem_of_filter. done.
Qed.

Lemma lookup_assign comp v acc x :
  assign comp v acc !! x = if bool_decide (x ∈ comp) then Some v else acc !! x.
Proof.
  induction comp as [|q comp IH]; simpl; [done|].
  rewrite lookup_insert, IH. repeat case_decide; set_solver.
Qed.

Lemma label_loop_next fuel next todo acc :
  (next - 1 <= (label_loop fuel next todo acc).2)%Z.
Proof.
  revert next todo acc. induction fuel as [|f IH]; intros next [|p rest] acc; simpl; try lia.
  destruct (grow _ _ _) as [comp rest']. specialize (IH (next + 1)%Z rest' (assign comp next acc)). lia.
Qed.

(** Every pixel left to label, and every pixel labelled already, gets a
    label when the fuel covers the pixels left. *)
Lemma label_loop_dom fuel next todo acc x :
  length todo <= fuel -> x ∈ todo \/ is_Some (acc !! x) ->
  is_Some ((label_loop fuel next todo acc).1 !! x).
Proof.
  revert next todo acc. induction fuel as [|f IH]; intros next todo acc Hlen Hx.
  - destruct todo; [|simpl in Hlen; lia]. destruct Hx as [Hx|Hx]; [by apply elem_of_nil in Hx|done].
  - destruct todo as [|p rest]; [destruct Hx as [Hx|Hx]; [by apply elem_of_nil in Hx|done]|].
    simpl. destruct (grow _ _ _) as [comp rest'] eqn:G.
    apply grow_spec in G as (Hc & Hs & _ & Hout). apply IH.
    { apply sublist_length in Hs. simpl in Hlen. lia. }
    rewrite lookup_assign. case_decide as Hxc; [by right|].
    destruct Hx as [Hx|Hx]; [|by right]. apply elem_of_cons in Hx as [->|Hx].
    + exfalso. apply Hxc, Hc. by left.
    + destruct (Hout x Hx); [done|by left].
Qed.

(** A label comes from the labels given already, or is one of the new
    labels [next .. n] given to a pixel left to label. *)
Lemma label_loop_range fuel next todo acc x v :
  (label_loop fuel next todo acc).1 !! x = Some v ->
  acc !! x = Some v \/ (x ∈ todo /\ next <= v <= (label_loop fuel next todo acc).2)%Z.
Proof.
  revert next todo acc. induction fuel as [|f IH]; intros next todo acc H.
  - by left.
  - destruct todo as [|p rest]; [by left|]. simpl in *.
    destruct (grow _ _ _) as [comp rest'] eqn:G.
    apply grow_spec in G as (_ & Hs & Hin & _).
    pose proof (label_loop_next f (next + 1) rest' (assign comp next acc)).
    destruct (IH _ _ _ H) as [Ha|(Hx & Hv)].
    + rewrite lookup_assign in Ha. case_decide as Hxc; [|by left].
      injection Ha as <-. right. split; [|lia].
      destruct (Hin x Hxc) as [->%list_elem_of_singleton|Hr]; [by left|by right].
    + right. split; [|lia]. right. eapply elem_of_submseteq; [exact Hx|]. by apply sublist_submseteq.
Qed.

(** A label given already stays when its pixel is not left to label. *)
Lemma label_loop_keep fuel next todo acc x v :
  acc !! x = Some v -> x ∉ todo -> (label_loop fuel next todo acc).1 !! x = Some v.
Proof.
  revert next todo acc. induction fuel as [|f IH]; intros next [|p rest] acc Hx Hn; try done.
  simpl. destruct (grow _ _ _) as [comp rest'] eqn:G.
  apply grow_spec in G as (_ & Hs & Hin & _). apply IH.
  - rewrite lookup_assign. case_decide as Hxc; [|done]. exfalso. apply Hn.
    destruct (Hin x Hxc) as [->%list_elem_of_singleton|Hr]; [by left|by right].
  - intros Hr. apply Hn. right. eapply elem_of_submseteq; [exact Hr|]. by apply sublist_submseteq.
Qed.

(** Every new label [next .. n] is given to a pixel left to label. *)
Lemma label_loop_onto fuel next todo acc l :
  NoDup todo -> (next <= l <= (label_loop fuel next todo acc).2)%Z ->
  exists x, x ∈ todo /\ (label_loop fuel next todo acc).1 !! x = Some l.
Proof.
  revert next todo acc. induction fuel as [|f IH]; intros next todo acc Hnd Hl.
  { simpl in Hl. lia. }
  destruct todo as [|p rest]; [simpl in Hl; lia|]. simpl in *.
  destruct (grow _ _ _) as [comp rest'] eqn:G.
  apply grow_spec in G as (Hc & Hs & _ & _). apply NoDup_cons in Hnd as [Hp Hnd].
  destruct (decide (l = next)) as [->|Hne].
  - exists p. split; [by left|]. apply label_loop_keep.
    + rewrite lookup_assign, bool_decide_eq_true_2; [done|]. apply Hc. by left.
    + intros Hr. apply Hp. eapply elem_of_submseteq; [exact Hr|]. by apply sublist_submseteq.
  - destruct (IH (next + 1)%Z rest' (assign comp next acc)) as (x & Hx & Hxl).
    + by eapply sublist_NoDup.
    + lia.
    + exists x. split; [|done]. right. eapply elem_of_submseteq; [exact Hx|]. by apply sublist_submseteq.
Qed.

Lemma elem_of_foreground m p : p ∈ foreground m <-> at2 m p = Some true.
Proof.
  destruct p as [r c]. unfold foreground, at2. rewrite list_elem_of_join. simpl. split.
  - intros (l & Hp & (r' & row & -> & Hrow)%elem_of_lookup_imap).
    apply list_elem_of_fmap in Hp as (c' & [= -> ->] & Hc).
    apply list_elem_of_filter in Hc as [Hc _]. by rewrite Hrow.
  - destruct (m !! r) as [row|] eqn:Hrow; simpl; [|done]. intros Hc.
    eexists. split; [|by eapply elem_of_lookup_imap_2]. apply list_elem_of_fmap.
    exists c. split; [done|]. apply list_elem_of_filter. split; [done|].
    apply elem_of_seq. apply lookup_lt_Some in Hc. lia.
Qed.

Lemma at2_ndlabel m r c :
  at2 (ndlabel m).1 (r, c) =
  (fun _ => default 0%Z ((label_loop (length (foreground m)) 1 (foreground m) ∅).1 !! (r, c)))
    <$> at2 m (r, c).
Proof.
  unfold ndlabel. destruct (label_loop _ _ _ _) as [labels n]. unfold at2. simpl.
  rewrite list_lookup_imap. destruct (m !! r) as [row|]; simpl; [|done].
  rewrite list_lookup_imap. by destruct (row !! c).
Qed.

(** [ndimage.label]: a pixel of the mask gets a label in [1, nb_labels], a
    pixel outside it the background label [0]. *)
Lemma ndlabel_spec m r c b :
  at2 m (r, c) = Some b ->
  exists v, at2 (ndlabel m).1 (r, c) = Some v /\
    (b = true -> 1 <= v <= (ndlabel m).2)%Z /\ (b = false -> v = 0%Z).
Proof.
  intros Hb. rewrite at2_ndlabel, Hb. simpl. eexists. split; [done|].
  unfold ndlabel. destruct (label_loop _ _ _ _) as [labels n] eqn:L. simpl.
  pose proof (label_loop_range (length (foreground m)) 1 (foreground m) ∅ (r, c)) as Hr.
  rewrite L in Hr. simpl in Hr. split; intros ->.
  - destruct (label_loop_dom (length (foreground m)) 1 (foreground m) ∅ (r, c)) as [v Hv];
      [done|left; by apply elem_of_foreground|].
    rewrite L in Hv. simpl in Hv. rewrite Hv. simpl.
    destruct (Hr v Hv) as [Hv'|[_ ?]]; [by rewrite lookup_empty in Hv'|lia].
  - destruct (labels !! (r, c)) as [v|] eqn:Hv; [|done]. simpl.
    destruct (Hr v eq_refl) as [Hv'|[Hx _]]; [by rewrite lookup_empty in Hv'|].
    apply elem_of_foreground in Hx. congruence.
Qed.

Lemma NoDup_join_imap {A B} (f : nat -> A -> list (nat * B)) k (l : list A) :
  (forall i x, NoDup (f i x)) -> (forall i x y, y ∈ f i x -> y.1 = k + i) ->
  NoDup (mjoin (imap f l)).
Proof.
  revert f k. induction l as [|x l IH]; intros f k Hnd Hfst; [constructor|].
  rewrite imap_cons. simpl. apply NoDup_app. split_and!; [done| |].
  - intros y Hy (ys & Hy' & (i & z & -> & _)%elem_of_lookup_imap)%list_elem_of_join.
    simpl in Hy'. apply Hfst in Hy. apply Hfst in Hy'. lia.
  - apply (IH _ (S k)); [intros; apply Hnd|]. intros i z y Hy. simpl in Hy. apply Hfst in Hy. simpl in Hy. lia.
Qed.

Lemma NoDup_foreground m : NoDup (foreground m).
Proof.
  unfold foreground. apply (NoDup_join_imap _ 0).
  - intros r row. apply NoDup_fmap_2; [intros ?? [=]; done|]. apply NoDup_filter, NoDup_seq.
  - intros r row y (c & -> & _)%list_elem_of_fmap. done.
Qed.

Lemma ndlabel_snd m : (ndlabel m).2 = (label_loop (length (foreground m)) 1 (foreground m) ∅).2.
Proof. unfold ndlabel. by destruct (label_loop _ _ _ _). Qed.

(** [ndimage.label] uses every label of [1 .. nb_labels], and
    [nb_labels >= 0]. *)
Lemma ndlabel_onto m l :
  (1 <= l <= (ndlabel m).2)%Z -> exists r c, at2 (ndlabel m).1 (r, c) = Some l.
Proof.
  rewrite ndlabel_snd. intros Hl.
  destruct (label_loop_onto (length (foreground m)) 1 (foreground m) ∅ l) as ([r c] & Hx & Hxl);
    [apply NoDup_foreground|done|].
  exists r, c. rewrite at2_ndlabel. apply elem_of_foreground in Hx. by rewrite Hx, Hxl.
Qed.

Lemma ndlabel_nonneg m : (0 <= (ndlabel m).2)%Z.
Proof. rewrite ndlabel_snd. pose proof (label_loop_next (length (foreground m)) 1 (foreground m) ∅). lia. Qed.

(** A round of [grow] that adds pixels leaves fewer pixels to scan. *)
Lemma grow_round_shorter comp rest q new :
  filter (fun q => touches comp q = true) rest = q :: new ->
  length (filter (fun q => touches comp q = false) rest) < length rest.
Proof.
  intros Hn. assert (Hq : q ∈ filter (fun q => touches comp q = true) rest) by (rewrite Hn; left).
  apply list_elem_of_filter in Hq as [Hq Hin]. apply (length_filter_lt _ _ q Hin).
  by rewrite Hq.
Qed.

(** [grow] stops within its fuel: with at least one round per pixel left
    to scan, more fuel computes the same component, so the fuel
    [length rest] that [label_loop] gives it is enough for the growth of
    a blob to end. *)
Theorem grow_fuel_enough f k comp rest :
  length rest <= f -> grow (f + k) comp rest = grow f comp rest.
Proof.
  revert comp rest. induction f as [|f IH]; intros comp rest Hl.
  - destruct rest; [|simpl in Hl; lia]. by destruct k.
  - simpl. destruct (filter _ rest) as [|q new] eqn:Hn; [done|].
    apply IH. apply grow_round_shorter in Hn. lia.
Qed.

(** Each round of the labelling loop removes at least its seed pixel from
    the pixels left, so with one round per pixel more fuel changes
    nothing. *)
Lemma label_loop_fuel_more f k next todo acc :
  length todo <= f -> label_loop (f + k) next todo acc = label_loop f next todo acc.
Proof.
  revert next todo acc. induction f as [|f IH]; intros next todo acc Hl.
  - destruct todo; [|simpl in Hl; lia]. by destruct k.
  - destruct todo as [|p rest]; [done|]. simpl.
    destruct (grow _ _ _) as [comp rest'] eqn:G.
    apply grow_spec in G as (_ & Hs & _). apply IH.
    apply sublist_length in Hs. simpl in Hl. lia.
Qed.

End Label.

Module Segment.
Import Label.

(** [np.unique(a)]: the distinct values of [a], sorted. *)
Definition np_unique (a : list Z) : list Z := merge_sort Z.le (remove_dups a).

(** [np.sum(label_im == i)] *)
Definition count_label (a : list Z) (i : Z) : nat := length (filter (fun x => x = i) a).

(** [sizes = np.array([np.sum(label_im==i) for i in np.unique(label_im)])] *)
Definition sizes (label_im : list (list Z)) : list nat :=
  let a := mjoin label_im in map (count_label a) (np_unique a).

(** [small_size_filter = sizes < size_cutoff] *)
Definition small_size_filter (sz : list nat) (size_cutoff : pyfloat) : list bool :=
  map (fun n => flt (fof_Z (Z.of_nat n)) size_cutoff) sz.

(** [a[i]] for an integer [i]: counted from the end when negative,
    [IndexError] out of range. *)
Definition np_index {A} (a : list A) (i : Z) : result exn A :=
  let j := if (i <? 0)%Z then (Z.of_nat (length a) + i)%Z else i in
  if (0 <=? j)%Z then
    match a !! Z.to_nat j with Some x => Ok x | None => Err PyIndexError end
  else Err PyIndexError.

(** [small_size_filter[label_im]]: indexing by an integer array. *)
Definition fancy_index {A} (a : list A) (idx : list (list Z)) : result exn (list (list A)) :=
  mapR (mapR (np_index a)) idx.

(** [label_im[pixel_to_remove] = 0] *)
Definition clear_pixels (label_im : list (list Z)) (rm : list (list bool)) : list (list Z) :=
  zip_with (zip_with (fun (v : Z) (b : bool) => if b then 0%Z else v)) label_im rm.

(** [label_im == i] *)
Definition label_mask (label_im : list (list Z)) (i : Z) : list (list bool) :=
  map (map (fun v => bool_decide (v = i))) label_im.

(** The image part of [Segmentation.make], from [mask = avg_image >
    threshold] to [label_im[pixel_to_remove] = 0]: the label image after the
    size filter. *)
Definition segment (avg_image : list (list pyfloat)) (threshold size_cutoff : pyfloat)
    : result exn (list (list Z)) :=
  let mask := threshold_mask avg_image threshold in
  let '(label_im, _) := ndlabel mask in
  let ssf := small_size_filter (sizes label_im) size_cutoff in
  pixel_to_remove <-? fancy_index ssf label_im ;;
  Ok (clear_pixels label_im pixel_to_remove).

(** [np.unique(label_im)[1:]]: the labels of the ROIs, the first value
    taken for the background. *)
Definition roi_labels (label_im : list (list Z)) : list Z := drop 1 (np_unique (mjoin label_im)).

(** ** Lemmas *)

Lemma np_unique_spec a : NoDup (np_unique a) /\ forall x, x ∈ np_unique a <-> x ∈ a.
Proof.
  unfold np_unique. split.
  - rewrite (merge_sort_Permutation Z.le). apply NoDup_remove_dups.
  - intros x. rewrite (merge_sort_Permutation Z.le). apply elem_of_remove_dups.
Qed.

(** Distinct values in [[1, n]] are at most [n]. *)
Lemma NoDup_bounded_length (u : list Z) n :
  NoDup u -> (forall x, x ∈ u -> 1 <= x <= n)%Z -> length u <= Z.to_nat n.
Proof.
  intros Hnd Hb. rewrite <- (length_seqZ 1 n). apply submseteq_length, NoDup_submseteq; [done|].
  intros x Hx. apply elem_of_seqZ. specialize (Hb x Hx). lia.
Qed.

Lemma list_max_Z (l : list Z) : l <> [] -> exists m, m ∈ l /\ forall x, x ∈ l -> (x <= m)%Z.
Proof.
  induction l as [|y l IH]; [done|]. intros _. destruct l as [|z l].
  - exists y. split; [by left|]. intros x ->%list_elem_of_singleton. lia.
  - destruct IH as (m & Hm & Hmax); [done|]. destruct (Z.le_gt_cases y m).
    + exists m. split; [by right|]. intros x [->|Hx]%elem_of_cons; [lia|auto].
    + exists y. split; [by left|]. intros x [->|Hx]%elem_of_cons; [lia|]. specialize (Hmax x Hx). lia.
Qed.

Lemma np_index_only {A} (a : list A) i e : np_index a i = Err e -> e = PyIndexError.
Proof. unfold np_index. repeat case_match; congruence. Qed.

Lemma np_index_past_end {A} (a : list A) i :
  (Z.of_nat (length a) <= i)%Z -> np_index a i = Err PyIndexError.
Proof.
  intros Hi. unfold np_index. rewrite (proj2 (Z.ltb_ge i 0)) by lia.
  rewrite (proj2 (Z.leb_le 0 i)) by lia. rewrite lookup_ge_None_2; [done|lia].
Qed.

(** Fancy indexing raises [IndexError] when one index is past the end. *)
Lemma fancy_index_past_end {A} (a : list A) idx i :
  i ∈ mjoin idx -> (Z.of_nat (length a) <= i)%Z -> fancy_index a idx = Err PyIndexError.
Proof.
  intros (row & Hi & Hrow)%list_elem_of_join Hlen. unfold fancy_index.
  apply (mapR_Err _ _ row); [|done|].
  - intros y e' (z & _ & Hz)%mapR_Err_inv. by apply np_index_only in Hz.
  - apply (mapR_Err _ _ i); [apply np_index_only|done|by apply np_index_past_end].
Qed.

Lemma elem_of_join_at2 {A} (m : list (list A)) x :
  x ∈ mjoin m <-> exists r c, at2 m (r, c) = Some x.
Proof.
  rewrite list_elem_of_join. unfold at2. simpl. split.
  - intros (row & Hx & Hrow). apply list_elem_of_lookup in Hx as [c Hc].
    apply list_elem_of_lookup in Hrow as [r Hr]. exists r, c. by rewrite Hr.
  - intros (r & c & H). destruct (m !! r) as [row|] eqn:Hr; [|done].
    exists row. split; [by eapply list_elem_of_lookup_2|by eapply list_elem_of_lookup_2].
Qed.

Lemma join_nonempty_at2 {A} (m : list (list A)) :
  mjoin m <> [] <-> exists r c x, at2 m (r, c) = Some x.
Proof.
  split.
  - intros Hne. destruct (mjoin m) as [|x l] eqn:E; [done|].
    assert (Hx : x ∈ mjoin m) by (rewrite E; left). apply elem_of_join_at2 in Hx as (r & c & ?). eauto.
  - intros (r & c & x & Hx) E.
    assert (Hin : x ∈ mjoin m) by (apply elem_of_join_at2; eauto).
    rewrite E in Hin. by apply elem_of_nil in Hin.
Qed.

Lemma at2_map {A B} (f : A -> B) m p : at2 (map (map f) m) p = f <$> at2 m p.
Proof.
  unfold at2. rewrite list_lookup_fmap. destruct (m !! p.1); simpl; [|done].
  apply list_lookup_fmap.
Qed.

(** A mask without background: every pixel gets a label of at least 1. *)
Lemma ndlabel_no_background m x :
  Forall (Forall (fun b => b = true)) m -> x ∈ mjoin (ndlabel m).1 -> (1 <= x)%Z.
Proof.
  intros Hall (r & c & Hx)%elem_of_join_at2.
  pose proof Hx as Hx'. rewrite at2_ndlabel in Hx'. apply fmap_Some in Hx' as (b & Hb & _).
  assert (b = true) as ->.
  { unfold at2 in Hb. simpl in Hb. destruct (m !! r) as [row|] eqn:Hr; [|done]. simpl in Hb.
    eapply Forall_lookup_1 in Hall; [|exact Hr]. by eapply Forall_lookup_1 in Hall; [|exact Hb]. }
  destruct (ndlabel_spec m r c true Hb) as (v & Hv & Hpos & _).
  rewrite Hx in Hv. injection Hv as ->. specialize (Hpos eq_refl). lia.
Qed.

Lemma ndlabel_nonempty m : mjoin m <> [] -> mjoin (ndlabel m).1 <> [].
Proof.
  intros (r & c & b & Hb)%join_nonempty_at2. apply join_nonempty_at2.
  exists r, c. rewrite at2_ndlabel, Hb. eauto.
Qed.

(** A label image whose labels are all at least 1 makes the size filter
    index past its end: [np.unique] has fewer values than the largest
    label. *)
Lemma size_filter_past_end (label_im : list (list Z)) cutoff :
  mjoin label_im <> [] -> (forall x, x ∈ mjoin label_im -> 1 <= x)%Z ->
  fancy_index (small_size_filter (sizes label_im) cutoff) label_im = Err PyIndexError.
Proof.
  intros Hne Hpos. destruct (list_max_Z _ Hne) as (m & Hm & Hmax).
  destruct (np_unique_spec (mjoin label_im)) as [Hnd Hu].
  assert (length (np_unique (mjoin label_im)) <= Z.to_nat m).
  { apply NoDup_bounded_length; [done|]. intros x Hx%Hu. auto. }
  apply (fancy_index_past_end _ _ m); [done|].
  unfold small_size_filter, sizes. rewrite !length_map. specialize (Hpos m Hm). lia.
Qed.

(** With some background, the values of the label image are exactly
    [0 .. nb_labels]. *)
Lemma ndlabel_values m :
  (exists r c, at2 m (r, c) = Some false) ->
  forall v, v ∈ mjoin (ndlabel m).1 <-> (0 <= v <= (ndlabel m).2)%Z.
Proof.
  intros (r0 & c0 & H0) v. pose proof (ndlabel_nonneg m). split.
  - intros (r & c & Hv)%elem_of_join_at2.
    pose proof Hv as Hb. rewrite at2_ndlabel in Hb. apply fmap_Some in Hb as (b & Hb & _).
    destruct (ndlabel_spec m r c b Hb) as (v' & Hv' & Ht & Hf). rewrite Hv in Hv'. injection Hv' as <-.
    destruct b; [specialize (Ht eq_refl)|specialize (Hf eq_refl)]; lia.
  - intros Hv. apply elem_of_join_at2. destruct (decide (v = 0%Z)) as [->|Hne].
    + destruct (ndlabel_spec m r0 c0 false H0) as (v' & Hv' & _ & Hf). rewrite (Hf eq_refl) in Hv'. eauto.
    + apply ndlabel_onto. lia.
Qed.

Lemma seqZ_sorted m k : StronglySorted Z.le (seqZ m (Z.of_nat k)).
Proof.
  induction k as [|k IH]; [rewrite seqZ_nil; [constructor|lia]|].
  rewrite seqZ_S. apply StronglySorted_app_2; [|done|repeat constructor].
  intros x y Hx ->%list_elem_of_singleton. apply elem_of_seqZ in Hx. lia.
Qed.

(** [np.unique] of an array whose values are exactly [0 .. n] is
    [0, 1, ..., n]. *)
Lemma np_unique_seqZ a n :
  (0 <= n)%Z -> (forall x, x ∈ a <-> 0 <= x <= n)%Z -> np_unique a = seqZ 0 (n + 1).
Proof.
  intros Hn Ha. replace (n + 1)%Z with (Z.of_nat (Z.to_nat (n + 1))) by lia.
  apply (StronglySorted_unique Z.le); [|apply seqZ_sorted|].
  { apply StronglySorted_merge_sort; [intros ???; lia|intros x y; lia]. }
  unfold np_unique. rewrite (merge_sort_Permutation Z.le).
  apply NoDup_Permutation; [apply NoDup_remove_dups|apply NoDup_seqZ|].
  intros x. rewrite elem_of_remove_dups, Ha, elem_of_seqZ. lia.
Qed.

Lemma fancy_index_in_range {A} (a : list A) (g : Z -> A) idx :
  (forall v, v ∈ mjoin idx -> np_index a v = Ok (g v)) ->
  fancy_index a idx = Ok (map (map g) idx).
Proof.
  intros H. unfold fancy_index. apply mapR_Ok_map. intros row Hrow. apply mapR_Ok_map.
  intros v Hv. apply H, list_elem_of_join. eauto.
Qed.

Lemma np_index_lookup {A} (a : list A) (v : Z) x :
  (0 <= v)%Z -> a !! Z.to_nat v = Some x -> np_index a v = Ok x.
Proof.
  intros Hv Hx. unfold np_index. rewrite (proj2 (Z.ltb_ge v 0)) by lia.
  rewrite (proj2 (Z.leb_le 0 v)) by lia. by rewrite Hx.
Qed.

Lemma clear_pixels_map (label_im : list (list Z)) (g : Z -> bool) :
  clear_pixels label_im (map (map g) label_im) =
  map (map (fun v => if g v then 0%Z else v)) label_im.
Proof.
  unfold clear_pixels. induction label_im as [|row rows IH]; [done|]. simpl. rewrite IH. f_equal.
  induction row as [|v row IHr]; [done|]. simpl. by rewrite IHr.
Qed.

Lemma join_map {A B} (f : A -> B) (m : list (list A)) : mjoin (map (map f) m) = map f (mjoin m).
Proof. induction m as [|row m IH]; [done|]. simpl. by rewrite IH, map_app. Qed.

Lemma count_label_map (f : Z -> Z) a v :
  (forall w, f w = v <-> w = v) -> count_label (map f a) v = count_label a v.
Proof.
  intros Hf. unfold count_label. induction a as [|w a IH]; [done|]. simpl.
  rewrite !filter_cons. destruct (decide (f w = v)) as [E|E];
    destruct (decide (w = v)) as [E'|E']; simpl; try rewrite IH; try done;
    exfalso; [apply E', Hf, E|apply E, Hf, E'].
Qed.

(** [np.unique(a)[1:]] with a background [0] and no negative value: the
    values of [a] other than [0]. *)
Lemma roi_labels_spec (label_im : list (list Z)) v :
  0%Z ∈ mjoin label_im -> (forall x, x ∈ mjoin label_im -> 0 <= x)%Z ->
  v ∈ roi_labels label_im <-> v ∈ mjoin label_im /\ v <> 0%Z.
Proof.
  intros H0 Hpos. unfold roi_labels.
  destruct (np_unique_spec (mjoin label_im)) as [Hnd Hu].
  assert (Hs : StronglySorted Z.le (np_unique (mjoin label_im))).
  { apply StronglySorted_merge_sort; [intros ???; lia|intros x y; lia]. }
  destruct (np_unique (mjoin label_im)) as [|u t] eqn:E; [by apply Hu in H0; apply elem_of_nil in H0|].
  apply StronglySorted_cons in Hs as [Hle _]. apply NoDup_cons in Hnd as [Hut _].
  assert (u = 0%Z) as ->.
  { assert (Hu0 : u ∈ mjoin label_im) by (apply Hu; left). apply Hpos in Hu0.
    apply Hu in H0. apply elem_of_cons in H0 as [<-|H0]; [done|].
    eapply Forall_forall in Hle; [|exact H0]. lia. }
  simpl. rewrite <- Hu, elem_of_cons. split; [intros Hv; split; [by right|intros ->; contradiction]|].
  intros [[->|Hv] Hne]; [done|exact Hv].
Qed.

(** The size filter on a label image whose values are [0 .. n]: the
    labels whose pixel count is below [size_cutoff] become background. *)
Lemma segment_Ok img th cutoff :
  (exists r c, at2 (threshold_mask img th) (r, c) = Some false) ->
  let label_im := (ndlabel (threshold_mask img th)).1 in
  let a := mjoin label_im in
  segment img th cutoff =
    Ok (map (map (fun v => if flt (fof_Z (Z.of_nat (count_label a v))) cutoff then 0%Z else v))
            label_im).
Proof.
  intros Hbg label_im a. pose proof (ndlabel_values _ Hbg) as Hval.
  pose proof (ndlabel_nonneg (threshold_mask img th)) as Hn.
  unfold segment, label_im, a in *. destruct (ndlabel _) as [L n]. simpl in *.
  unfold sizes. rewrite (np_unique_seqZ _ n Hn Hval).
  rewrite (fancy_index_in_range _ (fun v => flt (fof_Z (Z.of_nat (count_label (mjoin L) v))) cutoff)).
  - simpl. by rewrite clear_pixels_map.
  - intros v Hv. apply Hval in Hv. apply np_index_lookup; [lia|].
    unfold small_size_filter. rewrite !list_lookup_fmap, lookup_seqZ_lt by lia. simpl.
    by rewrite Z.add_0_l, Z2Nat.id by lia.
Qed.

(** C9: When the average frame has a pixel at or below [threshold], the
    segmentation of [Segmentation.make] succeeds; the ROIs it makes
    ([np.unique(label_im)[1:]]) are exactly the labels left in the label
    image other than the background [0], and each has at least
    [size_cutoff] pixels. *)
Theorem segment_rois img th cutoff :
  (exists r c x, at2 img (r, c) = Some x /\ fgt x th = false) ->
  exists label_im, segment img th cutoff = Ok label_im /\
    (forall v, v ∈ roi_labels label_im <-> v ∈ mjoin label_im /\ v <> 0%Z) /\
    (forall v, v ∈ roi_labels label_im ->
       flt (fof_Z (Z.of_nat (count_label (mjoin label_im) v))) cutoff = false).
Proof.
  intros (r & c & x & Hx & Hth).
  assert (Hbg : exists r c, at2 (threshold_mask img th) (r, c) = Some false).
  { exists r, c. unfold threshold_mask. by rewrite at2_map, Hx, <- Hth. }
  pose proof (ndlabel_values _ Hbg) as Hval. pose proof (ndlabel_nonneg (threshold_mask img th)).
  rewrite (segment_Ok _ _ _ Hbg). eexists. split; [done|].
  destruct (ndlabel _) as [L n]. simpl in *. rewrite join_map.
  set (keep := fun v => if flt (fof_Z (Z.of_nat (count_label (mjoin L) v))) cutoff then 0%Z else v).
  assert (Hkeep : forall v, v ∈ map keep (mjoin L) -> v <> 0%Z ->
            v ∈ mjoin L /\ flt (fof_Z (Z.of_nat (count_label (mjoin L) v))) cutoff = false).
  { intros v (w & -> & Hw)%list_elem_of_fmap Hne. unfold keep in *.
    destruct (flt _ _) eqn:E; [done|]. by rewrite E. }
  assert (Hroi : forall v, v ∈ roi_labels (map (map keep) L) <-> v ∈ map keep (mjoin L) /\ v <> 0%Z).
  { intros v. rewrite <- join_map. apply roi_labels_spec; rewrite join_map.
    - apply list_elem_of_fmap. exists 0%Z. split; [unfold keep; by destruct (flt _ _)|].
      apply Hval. lia.
    - intros y (w & -> & Hw)%list_elem_of_fmap. apply Hval in Hw. unfold keep. destruct (flt _ _); lia. }
  split; [exact Hroi|]. intros v (Hv & Hne)%Hroi.
  destruct (Hkeep v Hv Hne) as [_ Hflt]. rewrite count_label_map; [exact Hflt|].
  intros w. unfold keep. split; [|intros ->; by rewrite Hflt].
  destruct (flt (fof_Z (Z.of_nat (count_label (mjoin L) w))) cutoff); [intros <-; by destruct Hne|auto].
Qed.

(** ** Shapes: every step of the segmentation keeps the shape of the image. *)

Lemma ndlabel_shape m : map length (ndlabel m).1 = map length m.
Proof.
  unfold ndlabel. destruct (label_loop _ _ _ _) as [labels n]. simpl.
  rewrite fmap_imap. apply list_eq. intros i. rewrite list_lookup_imap, list_lookup_fmap.
  destruct (m !! i); simpl; [by rewrite length_imap|done].
Qed.
(** [a[idx]] has the shape of [idx]. *)

Lemma fancy_index_shape {A} (a : list A) idx m :
  fancy_index a idx = Ok m -> map length idx = map length m.
Proof.
  intros H%mapR_Ok_inv. induction H as [|r mr idx m Hr _ IH]; [done|]. simpl. f_equal; [|done].
  apply mapR_Ok_inv in Hr. by apply Forall2_length in Hr.
Qed.

Lemma clear_pixels_shape l m :
  map length l = map length m -> map length (clear_pixels l m) = map length l.
Proof.
  revert m. induction l as [|r l IH]; intros [|r' m] H; simpl in *; try done.
  injection H as Hr H. rewrite length_zip_with, Hr, Nat.min_id. f_equal. by apply IH.
Qed.

Lemma threshold_mask_shape img th : map length (threshold_mask img th) = map length img.
Proof.
  unfold threshold_mask. rewrite <- list_fmap_compose. apply list_fmap_ext.
  intros ? row _. simpl. by rewrite length_map.
Qed.

Lemma label_mask_shape l i : map length (label_mask l i) = map length l.
Proof.
  unfold label_mask. rewrite <- list_fmap_compose. apply list_fmap_ext.
  intros ? row _. simpl. by rewrite length_map.
Qed.

Lemma segment_shape img th c l : segment img th c = Ok l -> map length l = map length img.
Proof.
  unfold segment. pose proof (ndlabel_shape (threshold_mask img th)) as Hs.
  destruct (ndlabel _) as [l0 n]. simpl in Hs. intros (m & Hm & [= <-])%rbind_Ok_inv.
  apply fancy_index_shape in Hm. rewrite clear_pixels_shape by done.
  by rewrite Hs, threshold_mask_shape.
Qed.

End Segment.
