(* ===== verification/Components.v ===== *)
(** * Components: [ndimage.label] labels the connected components.

    The specification of [scipy.ndimage.label] with its default structure
    is that two pixels of the mask get the same label exactly when a path
    of pixels of the mask, each a neighbour (up, down, left, right) of the
    next, joins them. [Module Components] states it as the inductive
    relation [connected] and proves that the labelling of [Segment.Label]
    refines it: the component grown from a seed stays connected to it, and
    the growth, run with enough fuel, stops only when no pixel left touches
    the component. *)

From Stdlib Require Import ZArith.
From S2P Require Import Prelude Values Segment.

Module Components.
Import Label Segment.

(** Pixels of the mask joined by a path of neighbouring pixels of the
    mask. *)
Inductive connected (m : list (list bool)) : pos -> pos -> Prop :=
| conn_refl p : at2 m p = Some true -> connected m p p
| conn_step p q r : connected m p q -> adjacent q r = true -> at2 m r = Some true ->
                    connected m p r.

(** ** Lemmas *)

Lemma adjacent_sym p q : adjacent p q = adjacent q p.
Proof. unfold adjacent. apply bool_decide_ext. lia. Qed.

Lemma conn_fg_l m p q : connected m p q -> at2 m p = Some true.
Proof. by induction 1. Qed.

Lemma conn_fg_r m p q : connected m p q -> at2 m q = Some true.
Proof. by destruct 1. Qed.

Lemma conn_trans m p q r : connected m p q -> connected m q r -> connected m p r.
Proof.
  intros Hpq Hqr. induction Hqr as [q' Hq'|q' r' s' Hqr IH Hadj Hs]; [done|].
  eapply conn_step; [exact (IH Hpq)|exact Hadj|exact Hs].
Qed.

Lemma conn_adj m p q :
  adjacent p q = true -> at2 m p = Some true -> at2 m q = Some true -> connected m p q.
Proof. intros. eapply conn_step; [by apply conn_refl|done|done]. Qed.

Lemma conn_sym m p q : connected m p q -> connected m q p.
Proof.
  induction 1 as [|p q r Hpq IH Hadj Hr]; [by apply conn_refl|].
  eapply conn_trans; [|exact IH]. apply conn_adj; [by rewrite adjacent_sym|done|].
  by eapply conn_fg_r.
Qed.

Lemma touches_spec comp q : touches comp q = true <-> exists c, c ∈ comp /\ adjacent q c = true.
Proof.
  unfold touches. rewrite existsb_exists. setoid_rewrite <- list_elem_of_In. done.
Qed.

(** The component grown from [p] stays connected to [p]. *)
Lemma grow_conn m p fuel comp rest comp' rest' :
  (forall x, x ∈ comp -> connected m p x) -> (forall x, x ∈ rest -> at2 m x = Some true) ->
  grow fuel comp rest = (comp', rest') -> forall x, x ∈ comp' -> connected m p x.
Proof.
  revert comp rest. induction fuel as [|f IH]; intros comp rest Hc Hr H; simpl in H;
    [by simplify_eq|].
  destruct (filter _ rest) as [|n new] eqn:Hn; [by simplify_eq|]. rewrite <- Hn in H.
  refine (IH _ _ _ _ H).
  - intros x [Hx|(Ht & Hx)%list_elem_of_filter]%elem_of_app; [by apply Hc|].
    apply touches_spec in Ht as (c & Hcomp & Hadj). eapply conn_step; [by apply Hc| |by apply Hr].
    by rewrite adjacent_sym.
  - intros x (_ & Hx)%list_elem_of_filter. by apply Hr.
Qed.

(** With enough fuel, no pixel left touches the grown component. *)
Lemma grow_closed fuel comp rest comp' rest' :
  length rest <= fuel -> grow fuel comp rest = (comp', rest') ->
  forall q, q ∈ rest' -> touches comp' q = false.
Proof.
  revert comp rest. induction fuel as [|f IH]; intros comp rest Hlen H; simpl in H.
  - destruct rest; [|simpl in Hlen; lia]. simplify_eq. intros q Hq. by apply elem_of_nil in Hq.
  - destruct (filter _ rest) as [|n new] eqn:Hn.
    + injection H as <- <-. intros q Hq. apply not_true_iff_false. intros Ht.
      assert (Hin : q ∈ filter (fun q => touches comp q = true) rest)
        by (by apply list_elem_of_filter). rewrite Hn in Hin. by apply elem_of_nil in Hin.
    + rewrite <- Hn in H. refine (IH _ _ _ H).
      assert (Hx : n ∈ filter (fun q => touches comp q = true) rest) by (rewrite Hn; left).
      apply list_elem_of_filter in Hx as [Ht Hx].
      assert (Hlt : length (filter (fun q => touches comp q = false) rest) < length rest).
      { apply (length_filter_lt _ _ n Hx). congruence. }
      lia.
Qed.

(** A pixel of the grown component is not left over. *)
Lemma grow_disjoint fuel comp rest comp' rest' :
  (forall x, x ∈ comp -> x ∉ rest) -> grow fuel comp rest = (comp', rest') ->
  forall x, x ∈ comp' -> x ∉ rest'.
Proof.
  revert comp rest. induction fuel as [|f IH]; intros comp rest Hd H; simpl in H; [by simplify_eq|].
  destruct (filter _ rest) as [|n new] eqn:Hn; [by simplify_eq|]. rewrite <- Hn in H.
  refine (IH _ _ _ H). intros x Hx (Hf & Hr)%list_elem_of_filter.
  apply elem_of_app in Hx as [Hx|(Ht & _)%list_elem_of_filter]; [by eapply Hd|congruence].
Qed.

Lemma touches_adjacent comp x y :
  x ∈ comp -> adjacent y x = true -> touches comp y = true.
Proof. intros Hx Hadj. apply touches_spec. eauto. Qed.

(** Neighbouring pixels left to label, or labelled alike, end up with the
    same label. *)
Lemma label_loop_adjacent fuel next todo acc x y :
  NoDup todo -> length todo <= fuel -> adjacent x y = true ->
  (x ∈ todo /\ y ∈ todo) \/ ((x ∉ todo) /\ (y ∉ todo) /\ acc !! x = acc !! y) ->
  (label_loop fuel next todo acc).1 !! x = (label_loop fuel next todo acc).1 !! y.
Proof.
  revert next todo acc. induction fuel as [|f IH]; intros next todo acc Hnd Hlen Hadj Hinv.
  { destruct todo; [|simpl in Hlen; lia]. destruct Hinv as [[Hx _]|(_ & _ & E)];
      [by apply elem_of_nil in Hx|done]. }
  destruct todo as [|p rest].
  { destruct Hinv as [[Hx _]|(_ & _ & E)]; [by apply elem_of_nil in Hx|done]. }
  simpl. destruct (grow _ _ _) as [comp rest'] eqn:G. simpl in Hlen.
  apply NoDup_cons in Hnd as [Hp Hnd].
  pose proof (grow_spec _ _ _ _ _ G) as (Hc & Hs & Hin & Hout).
  pose proof (grow_closed (length rest) [p] rest comp rest' (le_n _) G) as Hcl.
  assert (Hdis : forall z, z ∈ comp -> z ∉ rest').
  { apply (grow_disjoint (length rest) [p] rest comp rest'); [|exact G]. by intros z ->%list_elem_of_singleton. }
  assert (Hsplit : forall z, z ∈ p :: rest -> z ∈ comp \/ z ∈ rest').
  { intros z [->|Hz]%elem_of_cons; [left; apply Hc; by left|by apply Hout]. }
  assert (Hsub : forall z, z ∈ rest' -> z ∈ rest).
  { intros z Hz. eapply elem_of_submseteq; [exact Hz|]. by apply sublist_submseteq. }
  apply IH; [by eapply sublist_NoDup|apply sublist_length in Hs; lia|done|].
  destruct Hinv as [[Hx Hy]|(Hx & Hy & E)].
  - destruct (Hsplit x Hx) as [Hxc|Hxr], (Hsplit y Hy) as [Hyc|Hyr].
    + right. split_and!; [by apply Hdis|by apply Hdis|]. by rewrite !lookup_assign, !bool_decide_eq_true_2.
    + exfalso. pose proof (Hcl y Hyr) as Hf. rewrite (touches_adjacent comp x y) in Hf;
        [done|done|by rewrite adjacent_sym].
    + exfalso. pose proof (Hcl x Hxr) as Hf. by rewrite (touches_adjacent comp y x) in Hf.
    + by left.
  - assert (Hnot : forall z, z ∉ p :: rest -> (z ∉ comp) /\ (z ∉ rest')).
    { intros z Hz. split; [intros Hzc|intros Hzr; apply Hz; right; by apply Hsub].
      apply Hz. destruct (Hin z Hzc) as [->%list_elem_of_singleton|?]; [by left|by right]. }
    destruct (Hnot x Hx) as [Hxc Hxr], (Hnot y Hy) as [Hyc Hyr].
    right. split_and!; [done|done|]. rewrite !lookup_assign, !bool_decide_eq_false_2 by done. done.
Qed.

(** The pixels of one label are connected. *)
Lemma label_loop_conn m fuel next todo acc :
  (forall z, z ∈ todo -> at2 m z = Some true) ->
  (forall z v, acc !! z = Some v -> (v < next)%Z) ->
  (forall x y v, acc !! x = Some v -> acc !! y = Some v -> connected m x y) ->
  forall x y v, (label_loop fuel next todo acc).1 !! x = Some v ->
    (label_loop fuel next todo acc).1 !! y = Some v -> connected m x y.
Proof.
  revert next todo acc. induction fuel as [|f IH]; intros next todo acc Hfg Hlt Hconn; [done|].
  destruct todo as [|p rest]; [done|]. simpl. destruct (grow _ _ _) as [comp rest'] eqn:G.
  pose proof (grow_spec _ _ _ _ _ G) as (_ & Hs & _ & _).
  assert (Hcomp : forall z, z ∈ comp -> connected m p z).
  { apply (grow_conn m p (length rest) [p] rest comp rest'); [|intros z Hz; apply Hfg; by right|done].
    intros z ->%list_elem_of_singleton. apply conn_refl, Hfg. by left. }
  apply IH.
  - intros z Hz. apply Hfg. right. eapply elem_of_submseteq; [exact Hz|]. by apply sublist_submseteq.
  - intros z v. rewrite lookup_assign. case_decide; [intros [= <-]; lia|intros Hz; specialize (Hlt _ _ Hz); lia].
  - intros x y v. rewrite !lookup_assign. case_decide as Hx; case_decide as Hy.
    + intros _ _. eapply conn_trans; [apply conn_sym|]; by apply Hcomp.
    + intros [= <-] Hy'. specialize (Hlt _ _ Hy'). lia.
    + intros Hx' [= <-]. specialize (Hlt _ _ Hx'). lia.
    + apply Hconn.
Qed.

Lemma at2_ndlabel_fg m p :
  at2 m p = Some true ->
  exists v, at2 (ndlabel m).1 p = Some v /\
    (label_loop (length (foreground m)) 1 (foreground m) ∅).1 !! p = Some v.
Proof.
  destruct p as [r c]. intros Hp. rewrite at2_ndlabel, Hp. simpl.
  destruct (label_loop_dom (length (foreground m)) 1 (foreground m) ∅ (r, c)) as [v Hv];
    [done|left; by apply elem_of_foreground|].
  exists v. by rewrite Hv.
Qed.

(** [ndimage.label] labels the connected components of the mask: two
    pixels of the mask get the same label exactly when they are
    connected. *)
Theorem ndlabel_components m p q :
  at2 m p = Some true -> at2 m q = Some true ->
  at2 (ndlabel m).1 p = at2 (ndlabel m).1 q <-> connected m p q.
Proof.
  intros Hp Hq. destruct (at2_ndlabel_fg m p Hp) as (v & Hpv & Hlp).
  destruct (at2_ndlabel_fg m q Hq) as (w & Hqw & Hlq). rewrite Hpv, Hqw. split.
  - intros [= <-]. eapply (label_loop_conn m _ 1 (foreground m) ∅); [| |done|exact Hlp|exact Hlq].
    + intros z Hz. by apply elem_of_foreground.
    + intros z v' Hz. by rewrite lookup_empty in Hz.
  - intros Hpq. revert v w Hpv Hqw Hlp Hlq. induction Hpq as [p Hp'|p q r Hpq IH Hadj Hr];
      intros v w Hpv Hqw Hlp Hlq; [congruence|].
    destruct (at2_ndlabel_fg m q (conn_fg_r _ _ _ Hpq)) as (u & Hqu & Hlq').
    rewrite (IH Hp (conn_fg_r _ _ _ Hpq) v u Hpv Hqu Hlp Hlq').
    assert (E : (label_loop (length (foreground m)) 1 (foreground m) ∅).1 !! q =
                (label_loop (length (foreground m)) 1 (foreground m) ∅).1 !! r).
    { apply label_loop_adjacent; [apply NoDup_foreground|done|done|].
      left. split; apply elem_of_foreground; [by eapply conn_fg_r|done]. }
    congruence.
Qed.

(** C13: In [Segmentation.make], [label_im, nb_labels =
    ndimage.label(avg_image > threshold)] gives two pixels above
    [threshold] the same label exactly when a path of neighbouring pixels
    above [threshold] joins them. *)
Theorem segmentation_labels_components img th p q x y :
  at2 img p = Some x -> fgt x th = true -> at2 img q = Some y -> fgt y th = true ->
  at2 (ndlabel (threshold_mask img th)).1 p = at2 (ndlabel (threshold_mask img th)).1 q <->
  connected (threshold_mask img th) p q.
Proof.
  intros Hx Htx Hy Hty. apply ndlabel_components; unfold threshold_mask; rewrite at2_map.
  - by rewrite Hx, <- Htx.
  - by rewrite Hy, <- Hty.
Qed.

End Components.
