(* ===== verification/Makes.v ===== *)
(** * Makes: the [make] methods the notebooks define.

    [Module Makes] translates, statement by statement:
    - [print_make]: the first [make] of both notebooks, which only prints
      its key;
    - [AverageFrame_make]: fetches the session's [data_path] and the scan's
      [file_name], reads the TIFF stack at [os.path.join(data_path,
      file_name)], sets [key['average_frame']] to its mean over frames and
      inserts [key];
    - [Neuron_make]: loads [data_{mouse_id}_{session_date}.npy] and, for
      each row [d] of the array at index [idx], sets [key['neuron_id']] and
      [key['activity']] in the same dict and inserts it.
    The [print] calls are not modelled (their output is not observable
    state). The theorems give what each [make] inserts, the errors it
    raises, and that [AverageFrame_make] fulfils the [MakeContract] of
    [populate]; [Neuron_make] does not when a data file has no rows. *)

From Stdlib Require Import ZArith.
From S2P Require Import Prelude Values Schema Relation Populate Files Imaging.

Module Makes.
Import Heading Pipeline Table AutoPopulate DataFiles Mean PyStr.
Local Open Scope string_scope.

Definition as_str (v : value) : result exn string :=
  match v with VStr x => Ok x | _ => Err PyTypeError end.

(** [def make(self, key): print('key is', key)] *)
Definition print_make : make_fn := fun _ _ => sret tt.

(** [AverageFrame.make] *)
Definition AverageFrame_make (s : schema) (F : fsys) : make_fn := fun allow key =>
  d <- sget ;;
  data_path <- slift (fetch1 d "Session" key "data_path") ;;
  file_name <- slift (fetch1 d "Scan" key "file_name") ;;
  path <- slift (dp <-? as_str data_path ;; fn <-? as_str file_name ;; Ok (path_join dp fn)) ;;
  im <- slift (imread F path) ;;
  insert1 s allow "AverageFrame" (<["average_frame" := VBlob (BFrame (mean_frames im))]> key).

(** The loop of [Neuron.make]: the same dict [key] is updated and inserted
    at each iteration. *)
Fixpoint neuron_loop (s : schema) (allow : option string) (key : row) (idx : nat)
    (data : list (list pyfloat)) : dbm unit :=
  match data with
  | [] => sret tt
  | d :: rest =>
      let key := <["activity" := VBlob (BVec d)]> (<["neuron_id" := VInt (Z.of_nat idx)]> key) in
      insert1 s allow "Neuron" key ;;;
      neuron_loop s allow key (S idx) rest
  end.

(** [Neuron.make] *)
Definition Neuron_make (s : schema) (F : fsys) (data_dir : string) : make_fn := fun allow key =>
  path <- slift (data_file data_dir key) ;;
  data <- slift (np_load F path) ;;
  neuron_loop s allow key 0 (npy_rows data).

(** ** The tables the [make]s write *)

Definition AverageFrame_heading : heading :=
  mk_heading Imported None 3 ["Scan"] []
    [a "mouse_id" TInt; a "session_date" TDate; a "scan_idx" TInt]
    [a "average_frame" TLongblob].

Definition Neuron_heading : heading :=
  mk_heading Imported None 2 ["Session"] []
    [a "mouse_id" TInt; a "session_date" TDate; a "neuron_id" TInt]
    [a "activity" TLongblob].

(** [AverageFrame] has exactly the primary key of [Scan] (the one-to-one
    relationship the notebook points out), and [Neuron] that of [Session]
    plus [neuron_id]. *)
Lemma imaging_AverageFrame : imaging_schema !! "AverageFrame" = Some AverageFrame_heading.
Proof. vm_compute. reflexivity. Qed.

Lemma ephys_Neuron : ephys_schema !! "Neuron" = Some Neuron_heading.
Proof. vm_compute. reflexivity. Qed.

(** ** AverageFrame.make *)

Lemma AverageFrame_make_Ok_inv s F allow key d u d' :
  AverageFrame_make s F allow key d = Ok (u, d') ->
  exists dp fn im,
    fetch1 d "Session" key "data_path" = Ok (VStr dp) /\
    fetch1 d "Scan" key "file_name" = Ok (VStr fn) /\
    imread F (path_join dp fn) = Ok im /\
    insert1 s allow "AverageFrame"
      (<["average_frame" := VBlob (BFrame (mean_frames im))]> key) d = Ok (u, d').
Proof.
  unfold AverageFrame_make, sbind, sget, slift.
  destruct (fetch1 d "Session" key "data_path") as [[]|] eqn:E1; try discriminate;
  destruct (fetch1 d "Scan" key "file_name") as [[]|] eqn:E2; try discriminate; simpl;
  destruct (imread F _) as [im|] eqn:E3; try discriminate.
  intros H. eauto 10.
Qed.

(** C2: [AverageFrame.make] inserts one row, under a key that was free: the
    key with [average_frame] set to the mean over frames of the stack at
    [os.path.join(data_path, file_name)], read from the session's and the
    scan's rows. Nothing else changes. *)
Theorem AverageFrame_make_inserts_mean F key d d' :
  AverageFrame_make imaging_schema F (Some "AverageFrame") key d = Ok (tt, d') ->
  exists dp fn im k r,
    fetch1 d "Session" key "data_path" = Ok (VStr dp) /\
    fetch1 d "Scan" key "file_name" = Ok (VStr fn) /\
    imread F (path_join dp fn) = Ok im /\
    contents d "AverageFrame" !! k = None /\
    r !! "average_frame" = Some (VBlob (BFrame (mean_frames im))) /\
    d' = <["AverageFrame" := <[k := r]> (contents d "AverageFrame")]> d.
Proof.
  intros H. apply AverageFrame_make_Ok_inv in H as (dp & fn & im & H1 & H2 & H3 & H).
  apply insert1_Ok_inv in H as (h & r & k & Ht & _ & Hr & _ & Hfree & _ & ->).
  rewrite imaging_AverageFrame in Ht. injection Ht as <-.
  exists dp, fn, im, k, r. split_and!; try done.
  unfold complete_row in Hr. destruct (extra_fields _ _); [|discriminate].
  assert (Hnd : NoDup (names (all_attrs AverageFrame_heading))) by decide_by_eval.
  destruct (fill_lookup _ _ _ _ (a "average_frame" TLongblob)
              (VBlob (BFrame (mean_frames im))) Hnd Hr)
    as (v' & Hc & Hl); [decide_by_eval|by rewrite lookup_insert_eq|].
  unfold coerce, Pipeline.a in Hc. simpl in Hc. simplify_eq. exact Hl.
Qed.

(** A key made of primary-key attributes of [AverageFrame] has no
    [average_frame] entry. *)
Lemma key_no_average_frame (key : row) :
  dom key ⊆ list_to_set (names (h_key AverageFrame_heading)) ->
  key !! "average_frame" = None.
Proof.
  intros Hdom. destruct (key !! "average_frame") eqn:E; [exfalso|done].
  assert (Hin : "average_frame" ∈ dom key) by (apply elem_of_dom; eauto).
  apply Hdom, (elem_of_list_to_set (C:=gset string)) in Hin. revert Hin. decide_by_eval.
Qed.

(** [AverageFrame.make] fulfils the contract [populate] relies on. *)
#[export] Instance AverageFrame_contract F :
  MakeContract imaging_schema "AverageFrame" (AverageFrame_make imaging_schema F).
Proof.
  split.
  - intros key d d' h Ht Hdom H.
    rewrite imaging_AverageFrame in Ht. injection Ht as <-.
    apply AverageFrame_make_Ok_inv in H as (dp & fn & im & _ & _ & _ & H).
    destruct (insert1_compatible _ _ _ _ _ _ _ AverageFrame_heading key H
                imaging_AverageFrame) as (r' & Hr' & Hc);
      [decide_by_eval|decide_by_eval|exact Hdom| |].
    + apply insert_subseteq. by apply key_no_average_frame.
    + unfold key_in_target. apply existsb_exists. exists r'.
      split; [by apply list_elem_of_In|done].
  - intros key d d' H.
    apply AverageFrame_make_Ok_inv in H as (dp & fn & im & _ & _ & _ & H).
    by eapply insert1_db_sub.
  - intros key d d' p hp h H Ht Hp Hr.
    apply AverageFrame_make_Ok_inv in H as (dp & fn & im & _ & _ & _ & H).
    apply insert1_Ok_inv in H as (h' & r & k & _ & _ & _ & _ & _ & _ & ->).
    apply contents_insert_ne. intros <-. rewrite Ht in Hp. injection Hp as <-. lia.
Qed.

(** C1: After [AverageFrame.populate()] returns without an exception, no scan
    is left without its average frame ([Scan - AverageFrame] is empty). *)
Corollary AverageFrame_populate_complete F d d' :
  populate imaging_schema "AverageFrame" (Some (AverageFrame_make imaging_schema F)) d
    = (d', None) ->
  jobs_to_do imaging_schema "AverageFrame" AverageFrame_heading d' = Ok [].
Proof.
  exact (@populate_complete _ _ _ _ (AverageFrame_contract F) imaging_schema_wf
           imaging_AverageFrame d d').
Qed.

(** ** Neuron.make *)

Lemma neuron_loop_db_sub s allow key idx data d d' :
  neuron_loop s allow key idx data d = Ok (tt, d') -> db_sub d d'.
Proof.
  revert key idx d. induction data as [|x data IH]; simpl; intros key idx d H.
  - unfold sret in H. simplify_eq. apply db_sub_refl.
  - inv_sbind H as [] d1 H1. eapply db_sub_trans; [by eapply insert1_db_sub|eauto].
Qed.

Lemma Neuron_heading_exact :
  NoDup (names (all_attrs Neuron_heading)) /\
  Forall (fun a => atype a <> TFloat) (all_attrs Neuron_heading).
Proof. split; decide_by_eval. Qed.

(** The [i]-th iteration of the loop inserts a row with [neuron_id = idx + i]
    and the [i]-th row of the data as [activity], and otherwise the entries
    of the [key] the loop started with. *)
Theorem neuron_loop_rows key idx data d d' :
  neuron_loop ephys_schema (Some "Neuron") key idx data d = Ok (tt, d') ->
  forall i di, data !! i = Some di ->
  exists k r, contents d' "Neuron" !! k = Some r /\
    r !! "neuron_id" = Some (VInt (Z.of_nat (idx + i))) /\
    r !! "activity" = Some (VBlob (BVec di)) /\
    (forall x v, x <> "neuron_id" -> x <> "activity" -> key !! x = Some v -> r !! x = Some v).
Proof.
  destruct Neuron_heading_exact as [Hnd Hexact].
  revert key idx d. induction data as [|x data IH]; intros key idx d H i di Hi;
    [done|].
  simpl in H. inv_sbind H as [] d1 H1.
  destruct i as [|i]; simpl in Hi.
  - injection Hi as <-.
    destruct (insert1_stores _ _ _ _ _ _ _ _ H1 ephys_Neuron Hnd Hexact)
      as (k & r & _ & -> & Hsub).
    exists k, r. split_and!.
    + eapply lookup_weaken; [|apply (neuron_loop_db_sub _ _ _ _ _ _ _ H)].
      rewrite contents_insert_eq. apply lookup_insert_eq.
    + eapply lookup_weaken; [|exact Hsub]. rewrite lookup_insert_ne by done.
      rewrite Nat.add_0_r. apply lookup_insert_eq.
    + eapply lookup_weaken; [|exact Hsub]. apply lookup_insert_eq.
    + intros y v Hy1 Hy2 Hy. eapply lookup_weaken; [|exact Hsub].
      rewrite !lookup_insert_ne by done. exact Hy.
  - destruct (IH _ _ _ H i di Hi) as (k & r & Hk & Hn & Ha & Hkey).
    exists k, r. split_and!; [done| |done|].
    + rewrite Hn. do 3 f_equal. lia.
    + intros y v Hy1 Hy2 Hy. apply Hkey; [done|done|].
      rewrite !lookup_insert_ne by done. exact Hy.
Qed.

Lemma Neuron_make_Ok_inv s F dd allow key d u d' :
  Neuron_make s F dd allow key d = Ok (u, d') ->
  exists p arr, data_file dd key = Ok p /\ np_load F p = Ok arr /\
    neuron_loop s allow key 0 (npy_rows arr) d = Ok (u, d').
Proof.
  unfold Neuron_make, sbind, slift.
  destruct (data_file dd key) as [p|] eqn:Hp; [|discriminate].
  destruct (np_load F p) as [arr|] eqn:Ha; [|discriminate]. eauto.
Qed.

(** C3: [Neuron.make] inserts, for each row [i] of the session's data file, a
    row with [neuron_id = i], that row as [activity], and the session's key. *)
Theorem Neuron_make_rows F dd key d d' :
  Neuron_make ephys_schema F dd (Some "Neuron") key d = Ok (tt, d') ->
  exists p arr, data_file dd key = Ok p /\ np_load F p = Ok arr /\
    forall i di, npy_rows arr !! i = Some di ->
    exists k r, contents d' "Neuron" !! k = Some r /\
      r !! "neuron_id" = Some (VInt (Z.of_nat i)) /\
      r !! "activity" = Some (VBlob (BVec di)) /\
      r !! "mouse_id" = key !! "mouse_id" /\
      r !! "session_date" = key !! "session_date".
Proof.
  intros H. apply Neuron_make_Ok_inv in H as (p & arr & Hp & Harr & H).
  exists p, arr. split_and!; [done|done|]. intros i di Hi.
  destruct (neuron_loop_rows _ _ _ _ _ H i di Hi) as (k & r & Hk & Hn & Ha & Hkey).
  exists k, r. split_and!; [done|done|done| |].
  - unfold data_file in Hp. destruct (key !! "data_dir"); [discriminate|].
    unfold format_field in Hp. destruct (key !! "mouse_id") eqn:E; [|discriminate].
    by apply Hkey.
  - unfold data_file in Hp. destruct (key !! "data_dir"); [discriminate|].
    apply rbind_Ok_inv in Hp as (m & _ & Hp).
    unfold format_field in Hp. destruct (key !! "session_date") eqn:E; [|discriminate].
    by apply Hkey.
Qed.

(** A session whose data file has no rows gets no neuron: [make] succeeds
    and changes nothing. *)
Lemma Neuron_make_empty s F dd allow key d p c :
  data_file dd key = Ok p -> np_load F p = Ok (mk_npy c []) ->
  Neuron_make s F dd allow key d = Ok (tt, d).
Proof. intros Hp Harr. unfold Neuron_make, sbind, slift. by rewrite Hp, Harr. Qed.

(** C4: When every session left to import has an empty data file,
    [Neuron.populate()] reports success and imports nothing: the sessions
    stay in [Session - Neuron], and every later [populate] calls [make] on
    them again. *)
Theorem Neuron_populate_empty_files F dd d keys :
  jobs_to_do ephys_schema "Neuron" Neuron_heading d = Ok keys ->
  Forall (fun key => exists p c, data_file dd key = Ok p /\ np_load F p = Ok (mk_npy c []))
    keys ->
  populate ephys_schema "Neuron" (Some (Neuron_make ephys_schema F dd)) d = (d, None) /\
  jobs_to_do ephys_schema "Neuron" Neuron_heading d = Ok keys.
Proof.
  intros Hj Hall. split; [|done].
  unfold populate, table_heading. rewrite ephys_Neuron, Hj. clear Hj.
  induction Hall as [|key keys (p & c & Hp & Harr) _ IH]; simpl; [done|].
  unfold populate1, sbind, sget. destruct (key_in_target d "Neuron" key); [exact IH|].
  rewrite (Neuron_make_empty _ _ _ _ _ _ _ _ Hp Harr). exact IH.
Qed.

End Makes.
