(* ===== verification/Computed.v ===== *)
(** * Computed: the [make] methods of the computed-tables notebook.

    [Module Computed] translates [Segmentation.make] of
    [src/unnamed/part_001]: it fetches the average frame of the key and the
    [threshold] and [size_cutoff] of its parameter set, segments the frame
    ([Segment.segment]), builds one ROI dict per label left
    ([dict( **key, roi_idx=i, mask=label_im==i)]), inserts the master row
    and then the part rows. [Fluorescence.make] reads the scan's stack,
    inserts the time axis [np.array(range(n))/fps], then one trace per ROI
    of the key's segmentation: at every frame, the mean of the pixels under
    the ROI's mask. The [print] calls are not modelled.

    Its theorems: the ROI masks cut from the average frame of a stack fit
    [Fluorescence.make]'s reshape of the same stack; [Segmentation.populate()]
    before any parameter set does nothing; the [IndexError] of the size
    filter (when every pixel of
    the average frame is above [threshold], no pixel is background, and
    [small_size_filter[label_im]] indexes past the end of the filter); the
    bounds of an ROI's trace; the [nan]/[inf] time axis of [fps = 0];
    what a [Segmentation.make] that returns has inserted; and, through the
    instances [Segmentation_contract] and [Fluorescence_contract] of
    [MakeContract], that a [Segmentation.populate()] or a
    [Fluorescence.populate()] that returns leaves nothing to compute. The
    notebook's last cell (the trace plot) is not modelled: as written it
    leaves [time =] and [traces =] unfinished and does not parse. *)

From Stdlib Require Import ZArith QArith.
From S2P Require Import Prelude Values Schema Relation Populate Files Imaging Segment Makes.

Module Computed.
Import Heading Table AutoPopulate DataFiles Mean Label Segment Makes.
Import (notations) Pipeline.
Local Open Scope string_scope.

(** [dict( **key, name=v)]: a keyword given twice raises [TypeError]. *)
Definition kw_extend (key : row) (name : string) (v : value) : result exn row :=
  match key !! name with
  | Some _ => Err PyTypeError
  | None => Ok (<[name := v]> key)
  end.

Definition as_frame (v : value) : result exn (list (list pyfloat)) :=
  match v with VBlob (BFrame f) => Ok f | _ => Err PyTypeError end.

Definition as_float (v : value) : result exn pyfloat :=
  match v with VFloat f => Ok f | VInt z => Ok (fof_Z z) | _ => Err PyTypeError end.

(** [dict( **key, roi_idx=i, mask=label_im==i)] *)
Definition roi_row (key : row) (label_im : list (list Z)) (i : Z) : result exn row :=
  r <-? kw_extend key "roi_idx" (VInt i) ;;
  kw_extend r "mask" (VBlob (BMask (label_mask label_im i))).

(** [Segmentation.make] *)
Definition Segmentation_make (s : schema) : make_fn := fun allow key =>
  d <- sget ;;
  avg_image <- slift (v <-? fetch1 d "AverageFrame" key "average_frame" ;; as_frame v) ;;
  threshold <- slift (v <-? fetch1 d "SegmentationParam" key "threshold" ;; as_float v) ;;
  size_cutoff <- slift (v <-? fetch1 d "SegmentationParam" key "size_cutoff" ;; as_float v) ;;
  label_im <- slift (segment avg_image threshold size_cutoff) ;;
  rois <- slift (mapR (roi_row key label_im) (roi_labels label_im)) ;;
  master <- slift (kw_extend key "segmented_masks" (VBlob (BLabels label_im))) ;;
  insert1 s allow "Segmentation" master ;;;
  insert s allow "Segmentation.Roi" rois.

(** [np.array(range(n))/fps] *)
Definition time_axis (n : nat) (fps : pyfloat) : list pyfloat :=
  map (fun i => fdiv (fof_Z (Z.of_nat i)) fps) (seq 0 n).

(** [np.reshape(mask, [w*h])]: [ValueError] unless the mask has [w*h]
    pixels. *)
Definition reshape_mask (w h : nat) (mask : list (list bool)) : result exn (list bool) :=
  if bool_decide (length (mjoin mask) = w * h) then Ok (mjoin mask) else Err PyValueError.

(** The pixels of a frame that a mask selects. *)
Definition masked (frame : list Z) (mask : list bool) : list Z :=
  map fst (filter (fun p => p.2 = true) (zip frame mask)).

(** The mean of the selected pixels ([nan] when none is). *)
Definition masked_mean (frame : list Z) (mask : list bool) : pyfloat :=
  fdiv (fof_Z (foldr Z.add 0%Z (masked frame mask))) (fof_Z (Z.of_nat (length (masked frame mask)))).

(** [np.mean(im_reshaped[:, mask_reshaped], axis=1)]: a boolean index
    must have one entry per column, else [IndexError]. *)
Definition roi_trace (im_reshaped : list (list Z)) (npx : nat) (mask : list bool)
    : result exn (list pyfloat) :=
  if bool_decide (length mask = npx)
  then Ok (map (fun frame => masked_mean frame mask) im_reshaped)
  else Err PyIndexError.

Definition as_mask (v : value) : result exn (list (list bool)) :=
  match v with VBlob (BMask m) => Ok m | _ => Err PyTypeError end.

(** One iteration of the loop over [zip(roi_keys, masks)]. *)
Definition trace_row (hroi : heading) (im : tif) (roi : row) : result exn row :=
  v <-? (match roi !! "mask" with
         | Some v => Ok v
         | None => Err (UnknownAttribute "Segmentation.Roi" "mask")
         end) ;;
  mask <-? as_mask v ;;
  mask_reshaped <-? reshape_mask (tif_h im) (tif_w im) mask ;;
  trace <-? roi_trace (map mjoin (tif_frames im)) (tif_h im * tif_w im) mask_reshaped ;;
  kw_extend (proj_key hroi roi) "trace" (VBlob (BVec trace)).

(** [Fluorescence.make] *)
Definition Fluorescence_make (s : schema) (F : fsys) : make_fn := fun allow key =>
  d <- sget ;;
  data_path <- slift (fetch1 d "Session" key "data_path") ;;
  file_name <- slift (fetch1 d "Scan" key "file_name") ;;
  path <- slift (dp <-? as_str data_path ;; fn <-? as_str file_name ;; Ok (path_join dp fn)) ;;
  im <- slift (imread F path) ;;
  fps <- slift (v <-? fetch1 d "Scan" key "fps" ;; as_float v) ;;
  master <- slift (kw_extend key "time"
                     (VBlob (BVec (time_axis (length (tif_frames im)) fps)))) ;;
  insert1 s allow "Fluorescence" master ;;;
  d1 <- sget ;;
  hroi <- slift (table_heading s "Segmentation.Roi") ;;
  traces <- slift (mapR (trace_row hroi im) (restrict (rows d1 "Segmentation.Roi") key)) ;;
  insert s allow "Fluorescence.Trace" traces.

(** The heading of [Segmentation] in the pipeline. *)
Definition Segmentation_heading : heading :=
  mk_heading Computed None 5 ["AverageFrame"; "SegmentationParam"] []
    [Pipeline.a "mouse_id" TInt; Pipeline.a "session_date" TDate; Pipeline.a "scan_idx" TInt;
     Pipeline.a "seg_param_id" TInt]
    [Pipeline.a "segmented_masks" TLongblob].

(** The heading of [Segmentation.Roi] in the pipeline. *)
Definition Roi_heading : heading :=
  mk_heading Part (Some "Segmentation") 6 ["Segmentation"] []
    [Pipeline.a "mouse_id" TInt; Pipeline.a "session_date" TDate; Pipeline.a "scan_idx" TInt;
     Pipeline.a "seg_param_id" TInt; Pipeline.a "roi_idx" TInt]
    [Pipeline.a "mask" TLongblob].

(** The heading of [Fluorescence] in the pipeline. *)
Definition Fluorescence_heading : heading :=
  mk_heading Imported None 7 ["Segmentation"] []
    [Pipeline.a "mouse_id" TInt; Pipeline.a "session_date" TDate; Pipeline.a "scan_idx" TInt;
     Pipeline.a "seg_param_id" TInt]
    [Pipeline.a "time" TLongblob].

(** ** Theorems *)

Lemma computed_Fluorescence : Pipeline.computed_schema !! "Fluorescence" = Some Fluorescence_heading.
Proof. vm_compute. reflexivity. Qed.

Lemma computed_Roi : Pipeline.computed_schema !! "Segmentation.Roi" = Some Roi_heading.
Proof. vm_compute. reflexivity. Qed.

Lemma computed_Segmentation : Pipeline.computed_schema !! "Segmentation" = Some Segmentation_heading.
Proof. vm_compute. reflexivity. Qed.


Lemma threshold_mask_all img th :
  Forall (Forall (fun x => fgt x th = true)) img ->
  Forall (Forall (fun b => b = true)) (threshold_mask img th).
Proof.
  intros H. unfold threshold_mask. apply Forall_fmap. eapply Forall_impl; [exact H|].
  intros row Hrow. by apply Forall_fmap.
Qed.

(** The segmentation of a frame with no pixel at or below [threshold]
    raises [IndexError]. *)
Lemma segment_no_background img th cutoff :
  mjoin img <> [] -> Forall (Forall (fun x => fgt x th = true)) img ->
  segment img th cutoff = Err PyIndexError.
Proof.
  intros Hne Hall. unfold segment.
  pose proof (fun x => ndlabel_no_background _ x (threshold_mask_all _ _ Hall)) as Hpos.
  assert (Hne' : mjoin (threshold_mask img th) <> []).
  { apply join_nonempty_at2 in Hne as (r & c & x & Hx). apply join_nonempty_at2.
    exists r, c. unfold threshold_mask. rewrite at2_map, Hx. eauto. }
  apply ndlabel_nonempty in Hne'. destruct (ndlabel _) as [label_im n]. simpl in *.
  by rewrite size_filter_past_end.
Qed.

(** What a run of [Segmentation.make] that returns did: the fetches,
    the segmentation, the ROI dicts, the insert into the master table, then
    the insert into the part table. *)
Lemma Segmentation_make_Ok_inv s allow key d u d' :
  Segmentation_make s allow key d = Ok (u, d') ->
  exists img th cutoff label_im rois master d1,
    (v <-? fetch1 d "AverageFrame" key "average_frame" ;; as_frame v) = Ok img /\
    (v <-? fetch1 d "SegmentationParam" key "threshold" ;; as_float v) = Ok th /\
    (v <-? fetch1 d "SegmentationParam" key "size_cutoff" ;; as_float v) = Ok cutoff /\
    segment img th cutoff = Ok label_im /\
    mapR (roi_row key label_im) (roi_labels label_im) = Ok rois /\
    kw_extend key "segmented_masks" (VBlob (BLabels label_im)) = Ok master /\
    insert1 s allow "Segmentation" master d = Ok (tt, d1) /\
    insert s allow "Segmentation.Roi" rois d1 = Ok (u, d').
Proof.
  unfold Segmentation_make. intros H.
  apply sbind_Ok_inv in H as (d0 & s0 & Hg & H). injection Hg as <- <-.
  apply sbind_Ok_inv in H as (img & s1 & H1 & H). apply slift_Ok_inv in H1 as [H1 ->].
  apply sbind_Ok_inv in H as (th & s2 & H2 & H). apply slift_Ok_inv in H2 as [H2 ->].
  apply sbind_Ok_inv in H as (c & s3 & H3 & H). apply slift_Ok_inv in H3 as [H3 ->].
  apply sbind_Ok_inv in H as (l & s4 & H4 & H). apply slift_Ok_inv in H4 as [H4 ->].
  apply sbind_Ok_inv in H as (rs & s5 & H5 & H). apply slift_Ok_inv in H5 as [H5 ->].
  apply sbind_Ok_inv in H as (m & s6 & H6 & H). apply slift_Ok_inv in H6 as [H6 ->].
  apply sbind_Ok_inv in H as ([] & d1 & H7 & H). eauto 20.
Qed.

Lemma Segmentation_make_wf s allow key d d' :
  db_wf s d -> Segmentation_make s allow key d = Ok (tt, d') -> db_wf s d'.
Proof.
  intros Hwf (? & ? & ? & ? & ? & ? & d1 & _ & _ & _ & _ & _ & _ & H1 & H2)%Segmentation_make_Ok_inv.
  eapply insert_preserves_wf; [|exact H2]. by eapply insert1_preserves_wf.
Qed.

(** [Segmentation.make] writes only [Segmentation] and its part. *)
Lemma Segmentation_make_lookup_other s allow key d u d' p :
  Segmentation_make s allow key d = Ok (u, d') ->
  p <> "Segmentation" -> p <> "Segmentation.Roi" -> d' !! p = d !! p.
Proof.
  intros (? & ? & ? & ? & ? & ? & d1 & _ & _ & _ & _ & _ & _ & H1 & H2)%Segmentation_make_Ok_inv Hp1 Hp2.
  destruct u. rewrite (insert_lookup_other _ _ _ _ _ _ _ H2 Hp2). by eapply insert1_lookup_other.
Qed.

Lemma kw_extend_Ok key name v r : kw_extend key name v = Ok r -> r = <[name := v]> key /\ key !! name = None.
Proof. unfold kw_extend. destruct (key !! name); [discriminate|]. by intros [= <-]. Qed.

Lemma roi_row_Ok key label_im i r :
  roi_row key label_im i = Ok r ->
  r = <["mask" := VBlob (BMask (label_mask label_im i))]> (<["roi_idx" := VInt i]> key).
Proof.
  unfold roi_row. intros (r1 & H1 & H2)%rbind_Ok_inv.
  apply kw_extend_Ok in H1 as [-> _]. by apply kw_extend_Ok in H2 as [-> _].
Qed.

(** The master row of a [Segmentation.make] is stored once the part rows
    are inserted after it. *)
Lemma Segmentation_master_stored key label_im rois d d1 d' :
  insert1 Pipeline.computed_schema (Some "Segmentation") "Segmentation"
    (<["segmented_masks" := VBlob (BLabels label_im)]> key) d = Ok (tt, d1) ->
  insert Pipeline.computed_schema (Some "Segmentation") "Segmentation.Roi" rois d1 = Ok (tt, d') ->
  exists r, r ∈ rows d' "Segmentation" /\
    <["segmented_masks" := VBlob (BLabels label_im)]> key ⊆ r.
Proof.
  intros H1 H2.
  destruct (insert1_stores _ _ _ _ _ _ _ _ H1 computed_Segmentation) as (k & r' & _ & -> & Hsub);
    [decide_by_eval|decide_by_eval|].
  exists r'. split; [|done]. apply (rows_sub _ _ _ _ (insert_db_sub _ _ _ _ _ _ H2)).
  unfold rows. rewrite contents_insert_eq. apply list_elem_of_fmap. exists (k, r').
  split; [done|]. apply elem_of_map_to_list, lookup_insert_eq.
Qed.

(** Every ROI dict of a [Segmentation.make] is stored in [Segmentation.Roi]. *)
Lemma Segmentation_rois_stored key label_im rois d1 d' :
  mapR (roi_row key label_im) (roi_labels label_im) = Ok rois ->
  insert Pipeline.computed_schema (Some "Segmentation") "Segmentation.Roi" rois d1 = Ok (tt, d') ->
  forall i, i ∈ roi_labels label_im -> exists r, r ∈ rows d' "Segmentation.Roi" /\
    <["mask" := VBlob (BMask (label_mask label_im i))]> (<["roi_idx" := VInt i]> key) ⊆ r.
Proof.
  intros Hr H2 i Hi. apply (insert_stores _ _ _ _ _ _ _ H2 computed_Roi); [decide_by_eval|decide_by_eval|].
  apply mapR_Ok_inv in Hr. apply list_elem_of_lookup in Hi as [j Hj].
  destruct (Forall2_lookup_l _ _ _ j i Hr Hj) as (r & Hrj & Hrow).
  apply roi_row_Ok in Hrow as <-. by eapply list_elem_of_lookup_2.
Qed.

(** C18: Before a parameter set is inserted, [Segmentation.populate()]
    does nothing and raises nothing: its key source is the join of
    [AverageFrame] with the empty [SegmentationParam], so there is no key
    to compute (the notebook's "populate doesn't seem to be doing
    anything"). *)
Theorem Segmentation_populate_no_params d :
  rows d "SegmentationParam" = [] ->
  populate Pipeline.computed_schema "Segmentation" (Some (Segmentation_make Pipeline.computed_schema)) d = (d, None).
Proof.
  intros Hp. unfold populate, table_heading at 1. rewrite computed_Segmentation.
  unfold jobs_to_do, key_source. cbn [h_key_parents Segmentation_heading join_keys].
  destruct (table_heading _ "AverageFrame") as [ha|e] eqn:Ea; [|vm_compute in Ea; discriminate].
  destruct (table_heading _ "SegmentationParam") as [hp|e] eqn:Ep; [|vm_compute in Ep; discriminate].
  cbn [rbind join_keys]. unfold fetch_keys at 2. rewrite Hp. cbn [map]. by rewrite join_nil_r.
Qed.

(** The rows of an average frame all have the stack's width. *)
Lemma mean_frames_rows im : map length (mean_frames im) = replicate (tif_h im) (tif_w im).
Proof.
  unfold mean_frames. rewrite <- list_fmap_compose.
  rewrite (const_fmap _ _ (tif_w im)); [by rewrite length_seq|].
  intros r x _. unfold compose. by rewrite length_map, length_seq.
Qed.

(** An ROI mask of a segmentation of a stack's average frame has one entry
    per pixel of the stack's frames. *)
Lemma roi_mask_size im th cutoff label_im i :
  segment (mean_frames im) th cutoff = Ok label_im ->
  length (mjoin (label_mask label_im i)) = tif_h im * tif_w im.
Proof.
  intros Hs. rewrite length_join, label_mask_shape, (segment_shape _ _ _ _ Hs), mean_frames_rows.
  apply sum_list_replicate.
Qed.

(** C21: The ROI masks [Segmentation.make] cuts from the average frame of a
    stack fit [Fluorescence.make]'s reading of the same stack: for a
    [Segmentation.Roi] row whose mask is [label_im == i] for a segmentation
    [label_im] of [np.mean(im, axis=0)], [np.reshape(mask, [w*h])] and the
    boolean index [im_reshaped[:, mask_reshaped]] raise nothing, and the
    trace row is the key of the ROI with, at every frame, the mean of the
    pixels under the mask. *)
Theorem roi_mask_fits_stack hroi im th cutoff label_im i roi :
  segment (mean_frames im) th cutoff = Ok label_im ->
  roi !! "mask" = Some (VBlob (BMask (label_mask label_im i))) ->
  proj_key hroi roi !! "trace" = None ->
  trace_row hroi im roi =
    Ok (<["trace" := VBlob (BVec (map (fun frame => masked_mean frame (mjoin (label_mask label_im i)))
                                     (map mjoin (tif_frames im))))]> (proj_key hroi roi)).
Proof.
  intros Hs Hm Hk. unfold trace_row. rewrite Hm. simpl. unfold reshape_mask, roi_trace.
  rewrite (roi_mask_size _ _ _ _ _ Hs), bool_decide_eq_true_2 by done. simpl.
  rewrite (roi_mask_size _ _ _ _ _ Hs), bool_decide_eq_true_2 by done. cbn [rbind].
  unfold kw_extend. by rewrite Hk.
Qed.

(** C15: A run of [Segmentation.make] that returns has inserted the
    master row [dict( **key, segmented_masks=label_im)] for the label image
    of its segmentation, and one [Segmentation.Roi] row
    [dict( **key, roi_idx=i, mask=label_im==i)] for every ROI label [i]. *)
Theorem Segmentation_make_inserts key d d' :
  Segmentation_make Pipeline.computed_schema (Some "Segmentation") key d = Ok (tt, d') ->
  exists img th cutoff label_im,
    (v <-? fetch1 d "AverageFrame" key "average_frame" ;; as_frame v) = Ok img /\
    (v <-? fetch1 d "SegmentationParam" key "threshold" ;; as_float v) = Ok th /\
    (v <-? fetch1 d "SegmentationParam" key "size_cutoff" ;; as_float v) = Ok cutoff /\
    segment img th cutoff = Ok label_im /\
    (exists r, r ∈ rows d' "Segmentation" /\
       <["segmented_masks" := VBlob (BLabels label_im)]> key ⊆ r) /\
    forall i, i ∈ roi_labels label_im -> exists r, r ∈ rows d' "Segmentation.Roi" /\
      <["mask" := VBlob (BMask (label_mask label_im i))]> (<["roi_idx" := VInt i]> key) ⊆ r.
Proof.
  intros (img & th & c & l & rois & master & d1 & Ha & Ht & Hc & Hs & Hr & Hm & H1 & H2)%Segmentation_make_Ok_inv.
  apply kw_extend_Ok in Hm as [-> _].
  exists img, th, c, l. split_and!; [done..| |].
  - exact (Segmentation_master_stored _ _ _ _ _ _ H1 H2).
  - exact (Segmentation_rois_stored _ _ _ _ _ Hr H2).
Qed.

(** C8: [Segmentation.make] raises [IndexError] on an average frame whose
    pixels are all above [threshold]: [ndimage.label] then leaves no
    background, [np.unique(label_im)] has fewer values than the largest
    label, and [small_size_filter[label_im]] indexes past its end. *)
Theorem Segmentation_make_no_background s allow key d img th cutoff :
  fetch1 d "AverageFrame" key "average_frame" = Ok (VBlob (BFrame img)) ->
  fetch1 d "SegmentationParam" key "threshold" = Ok (VFloat th) ->
  fetch1 d "SegmentationParam" key "size_cutoff" = Ok (VFloat cutoff) ->
  mjoin img <> [] -> Forall (Forall (fun x => fgt x th = true)) img ->
  Segmentation_make s allow key d = Err PyIndexError.
Proof.
  intros Ha Ht Hc Hne Hall. unfold Segmentation_make, sbind, sget, slift, sret. simpl.
  rewrite Ha, Ht, Hc. simpl. by rewrite segment_no_background.
Qed.

Lemma masked_bounds lo hi frame mask :
  Forall (fun p => (lo <= p <= hi)%Z) frame -> Forall (fun p => (lo <= p <= hi)%Z) (masked frame mask).
Proof.
  intros H. unfold masked. apply Forall_forall. intros x (p & -> & Hp)%list_elem_of_fmap.
  apply list_elem_of_filter in Hp as [_ Hp]. destruct p as [y b]. simpl.
  apply elem_of_zip_l in Hp. by eapply Forall_forall in H.
Qed.

Lemma masked_nonempty frame mask i :
  i < length frame -> mask !! i = Some true -> masked frame mask <> [].
Proof.
  intros Hi Hm Hnil. destruct (lookup_lt_is_Some_2 frame i Hi) as [y Hy].
  assert (Hin : (y, true) ∈ filter (fun p : Z * bool => p.2 = true) (zip frame mask)).
  { apply list_elem_of_filter. split; [done|]. apply list_elem_of_lookup. exists i.
    by rewrite lookup_zip_with, Hy, Hm. }
  unfold masked in Hnil. apply map_eq_nil in Hnil. rewrite Hnil in Hin. by apply elem_of_nil in Hin.
Qed.

(** C10: The fluorescence trace of an ROI whose mask selects a pixel stays
    within the range of the stack's pixels: at every frame it is the mean
    of the frame's pixels under the mask. *)
Theorem roi_trace_bounds lo hi im_reshaped npx mask tr i :
  roi_trace im_reshaped npx mask = Ok tr ->
  Forall (fun frame => length frame = npx /\ Forall (fun p => (lo <= p <= hi)%Z) frame) im_reshaped ->
  i < npx -> mask !! i = Some true ->
  Forall (fun x => exists q, x = Fnum q /\ (inject_Z lo <= q <= inject_Z hi)%Q) tr.
Proof.
  unfold roi_trace. case_bool_decide; [|done]. intros [= <-] Hall Hi Hm.
  apply Forall_fmap, (Forall_impl _ _ _ Hall). intros frame [Hlen Hpx]. simpl.
  pose proof (masked_bounds lo hi frame mask Hpx) as Hb.
  pose proof (masked_nonempty frame mask i ltac:(lia) Hm) as Hne.
  apply fdiv_bounds; [destruct (masked frame mask); simpl; [done|lia]|].
  by apply sum_bounds.
Qed.

Lemma fdiv_pos_by_zero z : (0 < z)%Z -> fdiv (fof_Z z) (fof_Z 0) = Finf false.
Proof.
  intros Hz. unfold fdiv, fof_Z, fnum. simpl.
  assert (Qeq_bool (Qred (inject_Z z)) 0 = false) as ->.
  { apply not_true_iff_false. rewrite Qeq_bool_iff, Qred_correct. unfold Qeq. simpl. lia. }
  f_equal. apply not_true_iff_false. rewrite Qltb_spec, Qred_correct.
  unfold Qlt. simpl. lia.
Qed.

(** C11: With [fps = 0], [Fluorescence.make]'s time axis
    [np.array(range(n))/fps] is [nan] for the first frame and [inf] for the
    others; no exception is raised. *)
Theorem time_axis_zero_fps n :
  time_axis (S n) (fof_Z 0) = Fnan :: repeat (Finf false) n.
Proof.
  unfold time_axis. cbn [seq map]. f_equal.
  assert (H : forall k, 1 <= k ->
            map (fun i => fdiv (fof_Z (Z.of_nat i)) (fof_Z 0)) (seq k n) = repeat (Finf false) n).
  { induction n as [|n IH]; intros k Hk; [done|]. cbn [seq map repeat].
    rewrite fdiv_pos_by_zero by lia. f_equal. apply IH. lia. }
  apply H. lia.
Qed.

(** [Segmentation.make] fulfils the contract [populate] relies on. *)
#[export] Instance Segmentation_contract :
  MakeContract Pipeline.computed_schema "Segmentation" (Segmentation_make Pipeline.computed_schema).
Proof.
  split.
  - intros key d d' h Ht Hdom H.
    rewrite computed_Segmentation in Ht. injection Ht as <-.
    apply Segmentation_make_Ok_inv in H
      as (img & th & c & l & rois & master & d1 & _ & _ & _ & _ & _ & Hm & H1 & H2).
    apply kw_extend_Ok in Hm as [-> Hnone].
    destruct (insert1_compatible _ _ _ _ _ _ _ Segmentation_heading key H1
                computed_Segmentation) as (r' & Hr' & Hc);
      [decide_by_eval|decide_by_eval|exact Hdom|by apply insert_subseteq|].
    apply (key_in_target_mono d1); [by eapply insert_db_sub|].
    unfold key_in_target. apply existsb_exists. exists r'. split; [by apply list_elem_of_In|done].
  - intros key d d' H.
    apply Segmentation_make_Ok_inv in H
      as (img & th & c & l & rois & master & d1 & _ & _ & _ & _ & _ & _ & H1 & H2).
    intros t. etrans; [by apply (insert1_db_sub _ _ _ _ _ _ _ H1)|by apply (insert_db_sub _ _ _ _ _ _ H2)].
  - intros key d d' p hp h H Ht Hp Hr.
    apply Segmentation_make_Ok_inv in H
      as (img & th & c & l & rois & master & d1 & _ & _ & _ & _ & _ & _ & H1 & H2).
    rewrite computed_Segmentation in Ht. injection Ht as <-. simpl in Hr.
    assert (Hroi : h_rank <$> Pipeline.computed_schema !! "Segmentation.Roi" = Some 6)
      by (vm_compute; reflexivity).
    rewrite (insert_contents_other _ _ _ _ _ _ _ H2), (insert1_contents_other _ _ _ _ _ _ _ _ H1);
      [done|intros ->..].
    + rewrite computed_Segmentation in Hp. injection Hp as <-. simpl in Hr. lia.
    + rewrite Hp in Hroi. injection Hroi as Hroi. lia.
Qed.

(** C14: After [Segmentation.populate()] returns without an exception,
    every combination of an average frame and a parameter set has its
    segmentation: nothing is left to compute. *)
Corollary Segmentation_populate_complete d d' :
  populate Pipeline.computed_schema "Segmentation" (Some (Segmentation_make Pipeline.computed_schema)) d
    = (d', None) ->
  jobs_to_do Pipeline.computed_schema "Segmentation" Segmentation_heading d' = Ok [].
Proof.
  exact (@populate_complete _ _ _ _ Segmentation_contract Pipeline.computed_schema_wf
           computed_Segmentation d d').
Qed.

(** What a run of [Fluorescence.make] that returns did. *)
Lemma Fluorescence_make_Ok_inv s F allow key d u d' :
  Fluorescence_make s F allow key d = Ok (u, d') ->
  exists im fps master d1 hroi traces,
    (v <-? fetch1 d "Scan" key "fps" ;; as_float v) = Ok fps /\
    kw_extend key "time" (VBlob (BVec (time_axis (length (tif_frames im)) fps))) = Ok master /\
    insert1 s allow "Fluorescence" master d = Ok (tt, d1) /\
    table_heading s "Segmentation.Roi" = Ok hroi /\
    mapR (trace_row hroi im) (restrict (rows d1 "Segmentation.Roi") key) = Ok traces /\
    insert s allow "Fluorescence.Trace" traces d1 = Ok (u, d').
Proof.
  unfold Fluorescence_make. intros H.
  apply sbind_Ok_inv in H as (d0 & s0 & Hg & H). injection Hg as <- <-.
  apply sbind_Ok_inv in H as (dp & s1 & H1 & H). apply slift_Ok_inv in H1 as [H1 ->].
  apply sbind_Ok_inv in H as (fn & s2 & H2 & H). apply slift_Ok_inv in H2 as [H2 ->].
  apply sbind_Ok_inv in H as (path & s3 & H3 & H). apply slift_Ok_inv in H3 as [H3 ->].
  apply sbind_Ok_inv in H as (im & s4 & H4 & H). apply slift_Ok_inv in H4 as [H4 ->].
  apply sbind_Ok_inv in H as (fps & s5 & H5 & H). apply slift_Ok_inv in H5 as [H5 ->].
  apply sbind_Ok_inv in H as (m & s6 & H6 & H). apply slift_Ok_inv in H6 as [H6 ->].
  apply sbind_Ok_inv in H as ([] & d1 & H7 & H).
  apply sbind_Ok_inv in H as (d2 & s8 & Hg & H). injection Hg as <- <-.
  apply sbind_Ok_inv in H as (hr & s9 & H9 & H). apply slift_Ok_inv in H9 as [H9 ->].
  apply sbind_Ok_inv in H as (tr & s10 & H10 & H). apply slift_Ok_inv in H10 as [H10 ->].
  exists im, fps, m, d1, hr, tr. split_and!; assumption.
Qed.

(** [Fluorescence.make] fulfils the contract [populate] relies on. *)
#[export] Instance Fluorescence_contract F :
  MakeContract Pipeline.computed_schema "Fluorescence" (Fluorescence_make Pipeline.computed_schema F).
Proof.
  split.
  - intros key d d' h Ht Hdom H.
    rewrite computed_Fluorescence in Ht. injection Ht as <-.
    apply Fluorescence_make_Ok_inv in H as (im & fps & master & d1 & hr & tr & _ & Hm & H1 & _ & _ & H2).
    apply kw_extend_Ok in Hm as [-> Hnone].
    destruct (insert1_compatible _ _ _ _ _ _ _ Fluorescence_heading key H1
                computed_Fluorescence) as (r' & Hr' & Hc);
      [decide_by_eval|decide_by_eval|exact Hdom|by apply insert_subseteq|].
    apply (key_in_target_mono d1); [by eapply insert_db_sub|].
    unfold key_in_target. apply existsb_exists. exists r'. split; [by apply list_elem_of_In|done].
  - intros key d d' H.
    apply Fluorescence_make_Ok_inv in H as (im & fps & master & d1 & hr & tr & _ & _ & H1 & _ & _ & H2).
    intros t. etrans; [by apply (insert1_db_sub _ _ _ _ _ _ _ H1)|by apply (insert_db_sub _ _ _ _ _ _ H2)].
  - intros key d d' p hp h H Ht Hp Hr.
    apply Fluorescence_make_Ok_inv in H as (im & fps & master & d1 & hr & tr & _ & _ & H1 & _ & _ & H2).
    rewrite computed_Fluorescence in Ht. injection Ht as <-. simpl in Hr.
    assert (Htr : h_rank <$> Pipeline.computed_schema !! "Fluorescence.Trace" = Some 8)
      by (vm_compute; reflexivity).
    rewrite (insert_contents_other _ _ _ _ _ _ _ H2), (insert1_contents_other _ _ _ _ _ _ _ _ H1);
      [done|intros ->..].
    + rewrite computed_Fluorescence in Hp. injection Hp as <-. simpl in Hr. lia.
    + rewrite Hp in Htr. injection Htr as Htr. lia.
Qed.

(** C16: After [Fluorescence.populate()] returns without an exception,
    every segmentation has its fluorescence traces: nothing is left to
    import. *)
Corollary Fluorescence_populate_complete F d d' :
  populate Pipeline.computed_schema "Fluorescence"
    (Some (Fluorescence_make Pipeline.computed_schema F)) d = (d', None) ->
  jobs_to_do Pipeline.computed_schema "Fluorescence" Fluorescence_heading d' = Ok [].
Proof.
  exact (@populate_complete _ _ _ _ (Fluorescence_contract F) Pipeline.computed_schema_wf
           computed_Fluorescence d d').
Qed.

(** A restriction ignores an attribute the row does not have. *)
Lemma matches_delete_absent key r x :
  r !! x = None -> matches key r = matches (delete x key) r.
Proof.
  intros Hx. unfold matches. apply bool_decide_ext. split.
  - intros H. by apply map_Forall_delete.
  - intros H y v Hy. destruct (decide (y = x)) as [->|Hne]; [by left|].
    apply H. by rewrite lookup_delete_ne.
Qed.

End Computed.
