(* ===== verification/Explore.v ===== *)
(** * Explore: the exploratory cells of the computed-tables notebook.

    Before it defines [Segmentation], the computed-tables notebook
    ([src/unnamed/part_001], cells of lines 171-397) segments one average
    frame by hand: it fetches the keys of [AverageFrame], takes the first,
    fetches its frame, thresholds it, labels its blobs, removes the small
    ones in place ([label_im[pixel_to_remove] = 0]) and collects one mask
    per label left. [Module Explore] runs these cells statement by
    statement against the notebook's namespace, a map from variable names
    to Python objects: a statement reads the variables it uses ([NameError]
    when one is unbound), and a statement that raises ends its cell, the
    assignments before it kept, while the next cells still run. The
    [plt.imshow] calls are not modelled.

    Its theorem: the cells bind [label_im] to the label image that
    [Segment.segment] computes for the first key's frame with [threshold =
    60] and [size_cutoff = 50], and [rois] to the masks [label_im == i] of
    the labels [np.unique(label_im)[1:]], the image and the masks that
    [Segmentation.make] computes for these parameters. *)

From Stdlib Require Import ZArith QArith.
From S2P Require Import Prelude Values Schema Relation Populate Segment Computed.

Module Explore.
Import Heading Table AutoPopulate Label Segment Computed.
Local Open Scope string_scope.

(** ** The notebook's namespace *)

(** The objects the cells bind. *)
Inductive pyobj : Type :=
| ORows (l : list row)                       (** a list of dicts *)
| ORow (r : row)                             (** a dict *)
| OVal (v : value)                           (** a number or an attribute's array *)
| OVals (vs : list value)                    (** an object array of attribute values *)
| ONats (l : list nat)                       (** a 1-D int array *)
| OBools (l : list bool)                     (** a 1-D bool array *)
| OMasks (ms : list (list (list bool))).     (** a list of 2-D bool arrays *)

Abbreviation ns := (gmap string pyobj).

Definition getvar (env : ns) (x : string) : result exn pyobj :=
  match env !! x with Some o => Ok o | None => Err (PyNameError x) end.

Definition get_val (env : ns) (x : string) : result exn value :=
  o <-? getvar env x ;; match o with OVal v => Ok v | _ => Err PyTypeError end.

Definition get_labels (env : ns) (x : string) : result exn (list (list Z)) :=
  v <-? get_val env x ;; match v with VBlob (BLabels l) => Ok l | _ => Err PyTypeError end.

Definition get_nats (env : ns) (x : string) : result exn (list nat) :=
  o <-? getvar env x ;; match o with ONats l => Ok l | _ => Err PyTypeError end.

Definition get_bools (env : ns) (x : string) : result exn (list bool) :=
  o <-? getvar env x ;; match o with OBools l => Ok l | _ => Err PyTypeError end.

(** A statement reads the database and the namespace, and binds
    variables or raises. *)
Abbreviation stmt := (db -> ns -> result exn ns).

(** ** The statements of the cells *)

(** [keys = AverageFrame.fetch('KEY')] *)
Definition s_fetch_keys (s : schema) : stmt := fun d env =>
  h <-? table_heading s "AverageFrame" ;;
  Ok (<["keys" := ORows (fetch_keys h d "AverageFrame")]> env).

(** [key = keys[0]] *)
Definition s_key0 : stmt := fun _ env =>
  o <-? getvar env "keys" ;;
  match o with
  | ORows (k :: _) => Ok (<["key" := ORow k]> env)
  | ORows [] => Err PyIndexError
  | _ => Err PyTypeError
  end.

(** [avg_image = AverageFrame.fetch('average_frame')] *)
Definition s_fetch_avgs : stmt := fun d env =>
  vs <-? fetch_attr d "AverageFrame" "average_frame" ;;
  Ok (<["avg_image" := OVals vs]> env).

(** A cell showing the variable [x]. *)
Definition s_show (x : string) : stmt := fun _ env => _ <-? getvar env x ;; Ok env.

(** [avg_image[0]] *)
Definition s_avg0 : stmt := fun _ env =>
  o <-? getvar env "avg_image" ;;
  match o with
  | OVals (_ :: _) | OVal (VBlob (BFrame (_ :: _))) => Ok env
  | OVals [] | OVal (VBlob (BFrame [])) => Err PyIndexError
  | _ => Err PyTypeError
  end.

(** [avg_image = (AverageFrame & key).fetch1('average_frame')] *)
Definition s_fetch1_avg : stmt := fun d env =>
  o <-? getvar env "key" ;;
  key <-? match o with ORow k => Ok k | _ => Err PyTypeError end ;;
  v <-? fetch1 d "AverageFrame" key "average_frame" ;;
  Ok (<["avg_image" := OVal v]> env).

(** [x = v] for a constant [v] *)
Definition s_assign (x : string) (v : value) : stmt := fun _ env => Ok (<[x := OVal v]> env).

(** [mask = avg_image > threshold] *)
Definition s_mask : stmt := fun _ env =>
  img <-? (v <-? get_val env "avg_image" ;; as_frame v) ;;
  th <-? (v <-? get_val env "threshold" ;; as_float v) ;;
  Ok (<["mask" := OVal (VBlob (BMask (threshold_mask img th)))]> env).

(** [label_im, nb_labels = ndimage.label(mask)] *)
Definition s_label : stmt := fun _ env =>
  m <-? (v <-? get_val env "mask" ;; as_mask v) ;;
  let '(l, n) := ndlabel m in
  Ok (<["nb_labels" := OVal (VInt n)]> (<["label_im" := OVal (VBlob (BLabels l))]> env)).

(** [np.unique(label_im)], shown *)
Definition s_unique : stmt := fun _ env => _ <-? get_labels env "label_im" ;; Ok env.

(** [sizes = np.array([np.sum(label_im==i) for i in np.unique(label_im)])] *)
Definition s_sizes : stmt := fun _ env =>
  l <-? get_labels env "label_im" ;; Ok (<["sizes" := ONats (sizes l)]> env).

(** [small_size_filter = sizes < size_cutoff] *)
Definition s_filter : stmt := fun _ env =>
  sz <-? get_nats env "sizes" ;;
  c <-? (v <-? get_val env "size_cutoff" ;; as_float v) ;;
  Ok (<["small_size_filter" := OBools (small_size_filter sz c)]> env).

(** [pixel_to_remove = small_size_filter[label_im]] *)
Definition s_pixels : stmt := fun _ env =>
  f <-? get_bools env "small_size_filter" ;;
  l <-? get_labels env "label_im" ;;
  m <-? fancy_index f l ;;
  Ok (<["pixel_to_remove" := OVal (VBlob (BMask m))]> env).

(** [label_im[pixel_to_remove] = 0]: in place; a boolean index of another
    shape raises [IndexError]. *)
Definition s_clear : stmt := fun _ env =>
  l <-? get_labels env "label_im" ;;
  m <-? (v <-? get_val env "pixel_to_remove" ;; as_mask v) ;;
  if bool_decide (map length l = map length m)
  then Ok (<["label_im" := OVal (VBlob (BLabels (clear_pixels l m)))]> env)
  else Err PyIndexError.

(** [rois = []], then [for i in np.unique(label_im)[1:]: rois.append(label_im == i)] *)
Definition s_rois : stmt := fun _ env =>
  l <-? get_labels env "label_im" ;;
  Ok (<["rois" := OMasks (foldl (fun acc i => (acc ++ [label_mask l i])%list) [] (roi_labels l))]> env).

(** ** Running cells *)

(** The statements of a cell, up to the first that raises. *)
Fixpoint run_stmts (d : db) (ss : list stmt) (env : ns) : ns * option exn :=
  match ss with
  | [] => (env, None)
  | st :: ss' => match st d env with Ok env' => run_stmts d ss' env' | Err e => (env, Some e) end
  end.

(** The cells in order; a cell that raises shows its exception and the
    next cell runs. *)
Fixpoint run_cells (d : db) (cs : list (list stmt)) (env : ns) : ns * list (option exn) :=
  match cs with
  | [] => (env, [])
  | c :: cs' =>
      let '(env1, o) := run_stmts d c env in
      let '(env2, os) := run_cells d cs' env1 in
      (env2, o :: os)
  end.

(** The cells of lines 171-397, with the notebook's constants. *)
Definition explore_cells (s : schema) : list (list stmt) :=
  [ [s_fetch_keys s; s_key0];
    [s_fetch_avgs];
    [s_show "avg_image"];
    [s_avg0];
    [s_fetch1_avg];
    [s_show "avg_image"];
    [s_assign "threshold" (VInt 50); s_mask];
    [s_assign "threshold" (VInt 60); s_mask];
    [s_label];
    [s_unique];
    [s_assign "size_cutoff" (VInt 50); s_sizes; s_filter; s_pixels; s_clear];
    [s_rois] ].

(** ** Lemmas *)

Lemma run_cells_cons_fst d c cs env :
  (run_cells d (c :: cs) env).1 = (run_cells d cs (run_stmts d c env).1).1.
Proof. simpl. by destruct (run_stmts d c env), (run_cells d cs _). Qed.

Lemma run_cells_app_fst d cs1 cs2 env :
  (run_cells d (cs1 ++ cs2) env).1 = (run_cells d cs2 (run_cells d cs1 env).1).1.
Proof.
  revert env. induction cs1 as [|c cs1 IH]; intros env; [done|].
  rewrite <- app_comm_cons, !run_cells_cons_fst. apply IH.
Qed.

(** Resolve the lookups of variables in a namespace built by assignments. *)
Ltac lookups :=
  repeat first
    [ match goal with
      | |- context [<[?i:=?x]> ?m !! ?j] =>
          first [rewrite (lookup_insert_eq m i x) | rewrite (lookup_insert_ne m i j x) by discriminate]
      end
    | progress cbn [rbind fst] ].

(** Run the next cell of a script. *)
Ltac run_cell :=
  rewrite run_cells_cons_fst; cbn [run_stmts];
  unfold s_fetch_keys, s_key0, s_fetch_avgs, s_avg0, s_fetch1_avg, s_show, s_assign, s_mask,
    s_label, s_unique, s_sizes, s_filter, s_pixels, s_clear, s_rois,
    get_labels, get_nats, get_bools, get_val, getvar, as_frame, as_float, as_mask;
  lookups.

(** [rois = []] and [rois.append(...)] in a loop build the list of the
    appended values. *)
Lemma foldl_snoc_map {A B} (f : A -> B) (l : list A) acc :
  foldl (fun acc i => (acc ++ [f i])%list) acc l = (acc ++ map f l)%list.
Proof.
  revert acc. induction l as [|x l IH]; intros acc; simpl; [by rewrite app_nil_r|].
  by rewrite IH, <- app_assoc.
Qed.

Lemma segment_Ok_inv img th cutoff label_im :
  segment img th cutoff = Ok label_im ->
  exists l0 n m, ndlabel (threshold_mask img th) = (l0, n) /\
    fancy_index (small_size_filter (sizes l0) cutoff) l0 = Ok m /\
    map length l0 = map length m /\ label_im = clear_pixels l0 m.
Proof.
  unfold segment. destruct (ndlabel _) as [l0 n]. intros (m & Hm & [= <-])%rbind_Ok_inv.
  exists l0, n, m. split_and!; [done|done|by eapply fancy_index_shape|done].
Qed.

(** The first cells bind [key] to the first key of [AverageFrame], whatever
    [AverageFrame.fetch('average_frame')] and [avg_image[0]] do. *)
Lemma explore_first_cells s d h key keys :
  table_heading s "AverageFrame" = Ok h ->
  fetch_keys h d "AverageFrame" = key :: keys ->
  (run_cells d (take 4 (explore_cells s)) ∅).1 !! "key" = Some (ORow key).
Proof.
  intros Hh Hk. cbn [take explore_cells].
  run_cell. rewrite Hh. cbn [rbind]. lookups. rewrite Hk. lookups.
  run_cell. destruct (fetch_attr _ _ _) as [[|v vs]|e]; lookups;
    run_cell; run_cell; cbn [run_cells fst]; by lookups.
Qed.

(** From a namespace where [key] is bound, the segmentation cells bind
    [label_im] and [rois]. *)
Lemma explore_last_cells s d key env img l0 n m :
  env !! "key" = Some (ORow key) ->
  fetch1 d "AverageFrame" key "average_frame" = Ok (VBlob (BFrame img)) ->
  ndlabel (threshold_mask img (fof_Z 60)) = (l0, n) ->
  fancy_index (small_size_filter (sizes l0) (fof_Z 50)) l0 = Ok m ->
  map length l0 = map length m ->
  let env' := (run_cells d (drop 4 (explore_cells s)) env).1 in
  env' !! "label_im" = Some (OVal (VBlob (BLabels (clear_pixels l0 m)))) /\
  env' !! "rois" = Some (OMasks (foldl (fun acc i => (acc ++ [label_mask (clear_pixels l0 m) i])%list)
                                   [] (roi_labels (clear_pixels l0 m)))).
Proof.
  intros Hk Hf Hl Hm Hshape env'. subst env'. cbn [drop explore_cells].
  run_cell. rewrite Hk. cbn [rbind]. rewrite Hf. lookups.
  do 4 run_cell. rewrite Hl. lookups.
  do 2 run_cell. rewrite Hm. lookups. rewrite bool_decide_eq_true_2 by done. lookups.
  run_cell. cbn [run_cells fst]. split; by lookups.
Qed.

(** Run in order on a database whose first [AverageFrame] key has a frame
    that segments, the exploration cells leave in the namespace the label
    image [Segment.segment] computes for that frame with [threshold = 60]
    and [size_cutoff = 50], after its in-place removal of the small blobs,
    and as [rois] the masks [label_im == i] of its labels
    [np.unique(label_im)[1:]], in that order. *)
Lemma explore_cells_segment s d h key keys img label_im :
  table_heading s "AverageFrame" = Ok h ->
  fetch_keys h d "AverageFrame" = key :: keys ->
  fetch1 d "AverageFrame" key "average_frame" = Ok (VBlob (BFrame img)) ->
  segment img (fof_Z 60) (fof_Z 50) = Ok label_im ->
  (run_cells d (explore_cells s) ∅).1 !! "label_im" = Some (OVal (VBlob (BLabels label_im))) /\
  (run_cells d (explore_cells s) ∅).1 !! "rois" =
    Some (OMasks (map (label_mask label_im) (roi_labels label_im))).
Proof.
  intros Hh Hk Hf (l0 & n & m & Hl & Hm & Hshape & ->)%segment_Ok_inv.
  rewrite <- (take_drop 4 (explore_cells s)), run_cells_app_fst.
  pose proof (explore_first_cells s d h key keys Hh Hk) as Hkey.
  destruct (explore_last_cells s d key _ img l0 n m Hkey Hf Hl Hm Hshape) as [H1 H2].
  split; [exact H1|]. by rewrite H2, foldl_snoc_map.
Qed.

(** [(T & key).fetch1(a)] depends on [key] only through the rows it
    selects. *)
Lemma fetch1_same_rows d t key key' a :
  restrict (rows d t) key' = restrict (rows d t) key -> fetch1 d t key' a = fetch1 d t key a.
Proof. unfold fetch1. by intros ->. Qed.

Lemma as_frame_Ok v img : as_frame v = Ok img -> v = VBlob (BFrame img).
Proof. destruct v as [| | |[]]; simpl; congruence. Qed.

(** C17: The exploration cells and [Segmentation.make] compute the same
    segmentation: when [Segmentation.make] runs for a key that selects the
    same [AverageFrame] row as the first key the exploration takes, with
    the parameter set [threshold = 60], [size_cutoff = 50] the exploration
    uses, the label image it stores in [Segmentation] is the [label_im] the
    cells leave, and the masks it stores in [Segmentation.Roi] are the
    cells' [rois], one per label, in the order of the labels. *)
Theorem explore_agrees_with_make s d h key keys key' d' :
  table_heading s "AverageFrame" = Ok h ->
  fetch_keys h d "AverageFrame" = key :: keys ->
  restrict (rows d "AverageFrame") key' = restrict (rows d "AverageFrame") key ->
  (v <-? fetch1 d "SegmentationParam" key' "threshold" ;; as_float v) = Ok (fof_Z 60) ->
  (v <-? fetch1 d "SegmentationParam" key' "size_cutoff" ;; as_float v) = Ok (fof_Z 50) ->
  Segmentation_make Pipeline.computed_schema (Some "Segmentation") key' d = Ok (tt, d') ->
  exists label_im,
    (run_cells d (explore_cells s) ∅).1 !! "label_im" = Some (OVal (VBlob (BLabels label_im))) /\
    (exists r, r ∈ rows d' "Segmentation" /\
       <["segmented_masks" := VBlob (BLabels label_im)]> key' ⊆ r) /\
    (run_cells d (explore_cells s) ∅).1 !! "rois" =
      Some (OMasks (map (label_mask label_im) (roi_labels label_im))) /\
    forall i, i ∈ roi_labels label_im -> exists r, r ∈ rows d' "Segmentation.Roi" /\
      <["mask" := VBlob (BMask (label_mask label_im i))]> (<["roi_idx" := VInt i]> key') ⊆ r.
Proof.
  intros Hh Hk Hsame Ht Hc
    (img & th & c & l & rois & master & d1 & Ha & Ht' & Hc' & Hs & Hr & Hm & H1 & H2)%Segmentation_make_Ok_inv.
  rewrite Ht in Ht'. rewrite Hc in Hc'. injection Ht' as <-. injection Hc' as <-.
  apply kw_extend_Ok in Hm as [-> _].
  apply rbind_Ok_inv in Ha as (v & Hv & ->%as_frame_Ok).
  rewrite (fetch1_same_rows _ _ _ _ _ Hsame) in Hv.
  destruct (explore_cells_segment s d h key keys img l Hh Hk Hv Hs) as [Hlabel Hrois].
  exists l. split_and!; [exact Hlabel| |exact Hrois|].
  - exact (Segmentation_master_stored _ _ _ _ _ _ H1 H2).
  - exact (Segmentation_rois_stored _ _ _ _ _ Hr H2).
Qed.

End Explore.
