(* ===== verification/Notebooks.v ===== *)
(** * Notebooks: the notebooks' code cells as scripts of steps.

    A notebook is run cell by cell against one state: the schema, the
    database, and the [make] method currently bound to each table class (a
    cell that redefines a class with [@schema] keeps the declared table and
    rebinds [make]). A cell that raises shows the exception and the next
    cells still run, as in Jupyter. [Module Notebook] gives the cells of
    [02-Calcium-Imaging-Imported-Tables.ipynb] and of
    [04-Electrophysiology-Imported-Tables.ipynb] with the notebooks' own
    data; the rows [pipeline.mouse] fills [Mouse] and [Session] with are not
    in the sources and are taken to be the sessions the notebooks use.

    Its lemmas: every cell keeps the state well formed (schema and
    database) when the [make] it runs does ([run_cell_inv],
    [run_cells_preserve]); its theorem: with its exercises filled, the
    first cells of notebook 04 raise [NotImplementedError], then print
    and insert nothing ([nb04_exercises_filled]). The lemmas at the end
    are the witnesses of the claims: each applies a claim at the
    notebooks' data, with small data files in place of the real TIFF stacks and arrays. *)

From Stdlib Require Import ZArith QArith.
From S2P Require Import Prelude Values Schema Relation Populate Delete Files Imaging Segment Components Makes Computed.

Module Notebook.
Import Heading Pipeline Table AutoPopulate DataFiles Mean PyStr Makes Label Segment Components Computed.
Local Open Scope string_scope.

(** ** Cells *)

(** Queries displayed by a cell: [T()] and [A - B]. *)
Inductive query : Type :=
| QTable (t : string)
| QRestrict (t : string) (cond : row)
| QAntijoin (t1 t2 : string).

Inductive cell : Type :=
| DefineTable (d : table_decl) (mk : option make_fn)(** [@schema class T: ...] *)
| Insert (t : string) (rs : list row)               (** [T.insert([...])] *)
| Insert1 (t : string) (r : row)                    (** [T.insert1({...})] *)
| Insert1Tuple (t : string) (vs : list value)       (** [T.insert1((...))] *)
| Populate (t : string)                             (** [T.populate()] *)
| Fetch1 (t : string) (key : row) (a : string)      (** [(T & key).fetch1(a)] *)
| FetchAt (t a : string) (i : nat)                  (** [T.fetch(a)[i]] *)
| DeleteRows (t : string) (cond : row) (yes : bool)  (** [(T & cond).delete()], answered [yes] *)
| Show (q : query).                                 (** a cell displaying a query *)

Record nb_state : Type := mk_nb {
  nb_schema : schema;
  nb_db : db;
  nb_make : gmap string make_fn
}.

Inductive output : Type :=
| OutNone
| OutExn (e : exn)
| OutRows (rs : list row)
| OutValue (v : value).

Definition eval_query (d : db) (q : query) : list row :=
  match q with
  | QTable t => rows d t
  | QRestrict t cond => restrict (rows d t) cond
  | QAntijoin t1 t2 => antijoin (rows d t1) (rows d t2)
  end.

Definition with_db (st : nb_state) (d : db) : nb_state :=
  mk_nb (nb_schema st) d (nb_make st).

(** A statement against the database: its new state, or the exception. *)
Definition run_stmt (st : nb_state) (c : dbm unit) : nb_state * output :=
  match c (nb_db st) with
  | Ok (_, d') => (with_db st d', OutNone)
  | Err e => (st, OutExn e)
  end.

Definition run_cell (st : nb_state) (c : cell) : nb_state * output :=
  match c with
  | DefineTable dcl mk =>
      match declare (nb_schema st) dcl with
      | Ok s' =>
          (mk_nb s' (nb_db st)
             (match mk with
              | Some f => <[d_name dcl := f]> (nb_make st)
              | None => delete (d_name dcl) (nb_make st)
              end), OutNone)
      | Err e => (st, OutExn e)
      end
  | Insert t rs => run_stmt st (insert (nb_schema st) None t rs)
  | Insert1 t r => run_stmt st (insert1 (nb_schema st) None t r)
  | Insert1Tuple t vs => run_stmt st (insert1_tuple (nb_schema st) None t vs)
  | Populate t =>
      let '(d', oe) := populate (nb_schema st) t (nb_make st !! t) (nb_db st) in
      (with_db st d', match oe with Some e => OutExn e | None => OutNone end)
  | Fetch1 t key a =>
      (st, match fetch1 (nb_db st) t key a with Ok v => OutValue v | Err e => OutExn e end)
  | FetchAt t a i =>
      (st, match fetch_attr (nb_db st) t a with
           | Ok vs => match vs !! i with Some v => OutValue v | None => OutExn PyIndexError end
           | Err e => OutExn e
           end)
  | DeleteRows t cond yes =>
      if yes then
        match Delete.delete (nb_schema st) t cond (nb_db st) with
        | Ok d' => (with_db st d', OutNone)
        | Err e => (st, OutExn e)
        end
      else (st, OutNone)
  | Show q => (st, OutRows (eval_query (nb_db st) q))
  end.

Fixpoint run_cells (st : nb_state) (cs : list cell) : nb_state * list output :=
  match cs with
  | [] => (st, [])
  | c :: cs' =>
      let '(st1, o) := run_cell st c in
      let '(st2, os) := run_cells st1 cs' in
      (st2, o :: os)
  end.

(** The invariant of a notebook's state: the schema and the database are
    well formed. *)
Definition nb_inv (st : nb_state) : Prop :=
  wf_schema (nb_schema st) /\ db_wf (nb_schema st) (nb_db st).

(** What a [populate] cell needs of the [make] bound to its class: that it
    keeps the database well formed. *)
Definition make_ok (st : nb_state) (c : cell) : Prop :=
  match c with
  | Populate t =>
      forall f, nb_make st !! t = Some f ->
        forall key d1 d2, db_wf (nb_schema st) d1 -> f (Some t) key d1 = Ok (tt, d2) ->
          db_wf (nb_schema st) d2
  | _ => True
  end.

(** ** The state [pipeline.mouse] leaves *)

Definition mouse_row (m : Z) : row := {[ "mouse_id" := VInt m ]}.

Definition session_row (m : Z) (date : string) : row :=
  list_to_map [("mouse_id", VInt m); ("session_date", VStr date);
               ("experiment_setup", VInt 0); ("experimenter", VStr "Edgar Walker");
               ("data_path", VStr "data")].

Definition mouse_session : nb_state :=
  let s := schema_of [Mouse; Session] in
  let d := match (insert s None "Mouse" [mouse_row 0; mouse_row 100] ;;;
                  insert s None "Session" [session_row 0 "2017-05-15";
                                           session_row 100 "2017-05-25"]) ∅ with
           | Ok (_, d) => d | Err _ => ∅ end in
  mk_nb s d ∅.

(** ** 02-Calcium-Imaging-Imported-Tables *)

Definition scan_row (m : Z) (date : string) (idx : Z) (depth laser : Z) (file : string) : row :=
  list_to_map [("mouse_id", VInt m); ("session_date", VStr date); ("scan_idx", VInt idx);
               ("depth", VInt depth); ("wavelength", VInt 920); ("laser_power", VInt laser);
               ("fps", VInt 15); ("file_name", VStr file)].

(** An exercise cell ("ENTER YOUR CODE!"): empty as written, the
    asked-for call when filled. *)
Definition exercise (filled : bool) (c : cell) : list cell := if filled then [c] else [].

(** Define [Scan], insert the two scans of the first session, show them. *)
Definition nb02_scan_cells : list cell :=
  [ DefineTable Scan None;
    Insert "Scan" [scan_row 0 "2017-05-15" 1 150 26 "example_scan_01.tif";
                   scan_row 0 "2017-05-15" 2 200 24 "example_scan_02.tif"];
    Show (QTable "Scan") ].

(** Define [AverageFrame]; [populate] without [make], then with a [make]
    that only prints its key. *)
Definition nb02_average_frame_cells : list cell :=
  [ DefineTable AverageFrame None;
    Populate "AverageFrame";
    DefineTable AverageFrame (Some print_make);
    Populate "AverageFrame" ].

(** The real [make]; [populate], show the table, [populate] again. *)
Definition nb02_make_cells (F : fsys) : list cell :=
  [ Show (QTable "Scan");
    DefineTable AverageFrame (Some (AverageFrame_make imaging_schema F));
    Populate "AverageFrame";
    Show (QTable "AverageFrame");
    Populate "AverageFrame" ].

(** A new scan, [Scan - AverageFrame], [populate], and a fetch of one
    average frame. *)
Definition nb02_new_scan_cells : list cell :=
  [ Insert1 "Scan" (scan_row 100 "2017-05-25" 1 150 25 "example_scan_03.tif");
    Show (QAntijoin "Scan" "AverageFrame");
    Populate "AverageFrame";
    Show (QTable "AverageFrame");
    Fetch1 "AverageFrame"
      (list_to_map [("mouse_id", VInt 0); ("session_date", VStr "2017-05-15");
                    ("scan_idx", VInt 1)]) "average_frame" ].

Definition nb02_cells (F : fsys) : list cell :=
  nb02_scan_cells ++ nb02_average_frame_cells ++ nb02_make_cells F ++ nb02_new_scan_cells.

(** ** 04-Electrophysiology-Imported-Tables *)

(** The first cells: [keys = Session.fetch('KEY')], [key = keys[0]], its
    file name, and [np.load] of it. *)
Definition nb04_explore (F : fsys) (data_dir : string) (s : schema) (d : db)
    : result exn npy :=
  h <-? table_heading s "Session" ;;
  key <-? match fetch_keys h d "Session" with k :: _ => Ok k | [] => Err PyIndexError end ;;
  filename <-? data_file data_dir key ;;
  np_load F filename.

(** Define [Neuron] without [make], the [populate] exercise, then with a
    [make] that only prints, and the [populate] exercise again. *)
Definition nb04_neuron_cells (filled : bool) : list cell :=
  [ DefineTable Neuron None ] ++
  exercise filled (Populate "Neuron") ++
  [ DefineTable Neuron (Some print_make) ] ++
  exercise filled (Populate "Neuron") ++
  [ Show (QTable "Session") ].

(** The real [make], [populate] twice, a new session, [Session - Neuron],
    [populate]. *)
Definition nb04_make_cells (F : fsys) (data_dir : string) : list cell :=
  [ DefineTable Neuron (Some (Neuron_make ephys_schema F data_dir));
    Populate "Neuron";
    Show (QTable "Neuron");
    Populate "Neuron";
    Insert1 "Session"
      (list_to_map [("mouse_id", VInt 100); ("session_date", VStr "2017-06-01");
                    ("experiment_setup", VInt 1); ("experimenter", VStr "Jacob Reimer")]);
    Show (QAntijoin "Session" "Neuron");
    Populate "Neuron";
    Show (QTable "Neuron") ].

Definition nb04_cells (F : fsys) (data_dir : string) (filled : bool) : list cell :=
  nb04_neuron_cells filled ++ nb04_make_cells F data_dir.

(** ** Every cell keeps the state well formed *)

Lemma populate_none_db s t d : (populate s t None d).1 = d.
Proof.
  unfold populate. destruct (table_heading s t) as [h|]; [|done].
  destruct (jobs_to_do s t h d) as [keys|]; [|done]. simpl. clear h.
  induction keys as [|key keys IH]; [done|]. simpl.
  unfold populate1, sbind, sget. destruct (key_in_target d t key); [exact IH|done].
Qed.

Lemma define_inv (st : nb_state) dcl mk : nb_inv st -> nb_inv (run_cell st (DefineTable dcl mk)).1.
Proof.
  intros [Hs Hd]. simpl. destruct (declare (nb_schema st) dcl) as [s'|e] eqn:E; [|done].
  split; [by eapply declare_wf|]. eapply db_wf_schema_mono; [by eapply declare_sub|exact Hd].
Qed.

Lemma stmt_inv (st : nb_state) (c : dbm unit) :
  (forall d', db_wf (nb_schema st) (nb_db st) -> c (nb_db st) = Ok (tt, d') -> db_wf (nb_schema st) d') ->
  nb_inv st -> nb_inv (run_stmt st c).1.
Proof.
  intros Hc [Hs Hd]. unfold run_stmt. destruct (c (nb_db st)) as [[[] d']|e] eqn:E; [|done].
  split; [done|]. by apply Hc.
Qed.

(** The cells other than [populate] keep the state well formed. *)
Lemma run_cell_inv_nopop (st : nb_state) c :
  (forall t, c <> Populate t) -> nb_inv st -> nb_inv (run_cell st c).1.
Proof.
  intros Hc Hinv. pose proof Hinv as [Hs Hd].
  destruct c as [dcl mk|t rs|t r|t vs|t|t key a|t a i|t cond []|q];
    try (by apply define_inv); try done.
  - apply stmt_inv; [|done]. intros d' _. by apply insert_preserves_wf.
  - apply stmt_inv; [|done]. intros d' _. by apply insert1_preserves_wf.
  - apply stmt_inv; [|done]. intros d' _. by apply insert1_tuple_preserves_wf.
  - by destruct (Hc t).
  - simpl. destruct (Delete.delete _ _ _ _) as [d'|e] eqn:E; [|done].
    split; [done|]. by eapply Delete.delete_wf.
Qed.

(** Every cell of a notebook keeps its state well formed (a well formed
    schema, and a database whose rows are complete, stored under their keys
    and referencing present rows): a class definition extends the schema,
    an insert or a delete keeps the database well formed, and a
    [populate] does when the [make] bound to its class does. *)
Lemma run_cell_inv (st : nb_state) c : nb_inv st -> make_ok st c -> nb_inv (run_cell st c).1.
Proof.
  intros Hinv Hmk. destruct c as [dcl mk|t rs|t r|t vs|t|t key a|t a i|t cond yes|q];
    try solve [apply run_cell_inv_nopop; [intros ? [=]|exact Hinv]].
  destruct Hinv as [Hs Hd]. simpl in *.
  destruct (nb_make st !! t) as [f|] eqn:Ef.
  - pose proof (populate_preserves_wf _ _ f _ (Hmk f eq_refl) Hd) as Hwf.
    destruct (populate _ _ _ _) as [d' oe]. by split; simpl.
  - pose proof (populate_none_db (nb_schema st) t (nb_db st)) as E.
    destruct (populate _ _ _ _) as [d' oe]. simpl in E. subst d'. by split; simpl.
Qed.

(** A property of the state kept by every cell of a script holds after it. *)
Lemma run_cells_preserve (P : nb_state -> Prop) st cs :
  (forall st' c, c ∈ cs -> P st' -> P (run_cell st' c).1) -> P st -> P (run_cells st cs).1.
Proof.
  revert st. induction cs as [|c cs IH]; intros st Hc HP; [done|]. simpl.
  assert (H1 : P (run_cell st c).1) by (apply Hc; [set_solver|done]).
  destruct (run_cell st c) as [st1 o].
  assert (IH1 : P (run_cells st1 cs).1) by (apply IH; [intros; apply Hc; set_solver|done]).
  destruct (run_cells st1 cs). exact IH1.
Qed.

Lemma nb_run_cells_app_fst st cs1 cs2 :
  (run_cells st (cs1 ++ cs2)).1 = (run_cells (run_cells st cs1).1 cs2).1.
Proof.
  revert st. induction cs1 as [|c cs1 IH]; intros st; [done|]. simpl.
  destruct (run_cell st c) as [st1 o]. specialize (IH st1).
  destruct (run_cells st1 (cs1 ++ cs2)), (run_cells st1 cs1). exact IH.
Qed.

Lemma nb_run_cells_cons_fst (st : nb_state) (c : cell) (cs : list cell) :
  (run_cells st (c :: cs)).1 = (run_cells (run_cell st c).1 cs).1.
Proof. cbn [run_cells]. destruct (run_cell st c) as [st1 o]. simpl. by destruct (run_cells st1 cs). Qed.

Lemma run_cell_define_eq (st : nb_state) dcl mk s' :
  declare (nb_schema st) dcl = Ok s' ->
  run_cell st (DefineTable dcl mk) =
    (mk_nb s' (nb_db st) (match mk with
                          | Some f => <[d_name dcl := f]> (nb_make st)
                          | None => delete (d_name dcl) (nb_make st)
                          end), OutNone).
Proof. simpl. by intros ->. Qed.

Lemma run_cell_define (st : nb_state) dcl mk s' :
  declare (nb_schema st) dcl = Ok s' ->
  (run_cell st (DefineTable dcl mk)).1 =
    mk_nb s' (nb_db st) (match mk with
                         | Some f => <[d_name dcl := f]> (nb_make st)
                         | None => delete (d_name dcl) (nb_make st)
                         end).
Proof. intros H. by rewrite (run_cell_define_eq _ _ _ _ H). Qed.

(** Only a class definition changes the schema or the [make]s. *)
Lemma run_cell_nodefine (st : nb_state) c :
  (forall dcl mk, c <> DefineTable dcl mk) ->
  nb_schema (run_cell st c).1 = nb_schema st /\ nb_make (run_cell st c).1 = nb_make st.
Proof.
  intros Hc. destruct c as [dcl mk|t rs|t r|t vs|t|t key a|t a i|t cond []|q]; simpl;
    try done; try (unfold run_stmt; repeat case_match; done).
  by destruct (Hc dcl mk).
Qed.

(** A script without [populate] keeps the state well formed. *)
Lemma run_cells_inv_nopop st cs :
  Forall (fun c => forall t, c <> Populate t) cs -> nb_inv st -> nb_inv (run_cells st cs).1.
Proof.
  rewrite Forall_forall. intros Hcs. apply run_cells_preserve.
  intros st' c Hin. by apply run_cell_inv_nopop, Hcs.
Qed.

(** ** The populate exercises of the electrophysiology notebook *)

(** With sessions and no [Neuron] row, [Neuron.populate()] has a job for
    every session. *)
Lemma neuron_jobs_pending d :
  rows d "Neuron" = [] -> rows d "Session" <> [] ->
  exists key keys, jobs_to_do ephys_schema "Neuron" Neuron_heading d = Ok (key :: keys).
Proof.
  intros HN HS. unfold jobs_to_do, key_source. cbn [h_key_parents Neuron_heading join_keys].
  destruct (table_heading ephys_schema "Session") as [hS|e] eqn:E; [|vm_compute in E; discriminate].
  cbn [rbind join_keys]. rewrite join_empty_l, HN, antijoin_nil_r. unfold fetch_keys.
  destruct (rows d "Session") as [|r rs]; [done|]. by exists (proj_key hS r), (map (proj_key hS) rs).
Qed.

(** C24: With its exercises filled, the first cells of the
    electrophysiology notebook do what its text says: run after
    [pipeline.mouse] with at least one session, the first
    [Neuron.populate()] complains that [make] is not implemented and
    changes nothing; the second, with the [make] that only prints the
    key, calls it for every session, succeeds and inserts nothing; the
    schema is then the electrophysiology schema and [Neuron] is bound to
    that [make]. *)
Theorem nb04_exercises_filled st :
  nb_schema st = schema_of [Mouse; Session] -> nb_inv st -> rows (nb_db st) "Session" <> [] ->
  run_cells st (nb04_neuron_cells true) =
    (mk_nb ephys_schema (nb_db st) (<["Neuron" := print_make]> (delete "Neuron" (nb_make st))),
     [OutNone; OutExn (MakeNotImplemented "Neuron"); OutNone; OutNone;
      OutRows (rows (nb_db st) "Session")]).
Proof.
  destruct st as [s d m]. cbn [nb_schema nb_db nb_make]. intros -> [_ Hwf] HS.
  assert (HN : rows d "Neuron" = []) by (apply (rows_undeclared _ _ _ Hwf); vm_compute; reflexivity).
  destruct (neuron_jobs_pending d HN HS) as (key & keys & Hj).
  assert (E1 : declare (schema_of [Mouse; Session]) Neuron = Ok ephys_schema) by (vm_compute; reflexivity).
  assert (E2 : declare ephys_schema Neuron = Ok ephys_schema) by (vm_compute; reflexivity).
  unfold nb04_neuron_cells, exercise. cbn [app run_cells run_cell nb_schema nb_make nb_db with_db].
  rewrite E1. cbn [nb_schema nb_make nb_db with_db d_name Neuron].
  rewrite lookup_delete_eq, (populate_without_make _ _ Neuron_heading _ _ _ ephys_Neuron Hj).
  cbn [nb_schema nb_make nb_db with_db]. rewrite E2.
  cbn [nb_schema nb_make nb_db with_db d_name Neuron]. rewrite lookup_insert_eq.
  by rewrite (populate_noop _ _ Neuron_heading _ _ _ ephys_Neuron Hj).
Qed.

(** ** Witnesses *)

(** Small stand-ins for the data files. *)
Definition demo_fs : fsys :=
  list_to_map
    [("data/example_scan_01.tif", FTif (mk_tif 1 2 [[[1; 2]]; [[3; 5]]]%Z));
     ("data/example_scan_02.tif", FTif (mk_tif 1 1 [[[7]]]%Z));
     ("data/example_scan_03.tif", FTif (mk_tif 1 1 [[[4]]]%Z));
     ("data/data_0_2017-05-15.npy", FNpy (mk_npy 2 [[Fnum 1; Fnum 2]]%Q));
     ("data/data_100_2017-05-25.npy", FNpy (mk_npy 2 [[Fnum 3; Fnum 4]; [Fnum 5; Fnum 6]]%Q));
     ("data/data_100_2017-06-01.npy", FNpy (mk_npy 2 []))].

(** The database before the cell [AverageFrame.populate()] that follows the
    definition of the real [make]. *)
Definition nb02_before : db :=
  nb_db (run_cells mouse_session
           (nb02_scan_cells ++ nb02_average_frame_cells ++
            firstn 2 (nb02_make_cells demo_fs))).1.

Definition AF_make : make_fn := AverageFrame_make imaging_schema demo_fs.

Definition nb02_after : db :=
  (populate imaging_schema "AverageFrame" (Some AF_make) nb02_before).1.

Lemma AverageFrame_populate_complete_witness :
  populate imaging_schema "AverageFrame" (Some AF_make) nb02_before = (nb02_after, None) /\
  jobs_to_do imaging_schema "AverageFrame" AverageFrame_heading nb02_after = Ok [].
Proof.
  assert (H : populate imaging_schema "AverageFrame" (Some AF_make) nb02_before
              = (nb02_after, None)) by decide_by_eval.
  split; [exact H|]. exact (AverageFrame_populate_complete demo_fs _ _ H).
Defined.

(** The jobs of [AverageFrame] in [nb02_before]: the two scans of mouse 0. *)
Definition nb02_jobs : list row :=
  match jobs_to_do imaging_schema "AverageFrame" AverageFrame_heading nb02_before with
  | Ok l => l | Err _ => [] end.

Definition first_job : row := hd ∅ nb02_jobs.

Definition nb02_one : db :=
  match AF_make (Some "AverageFrame") first_job nb02_before with
  | Ok (_, d) => d | Err _ => ∅ end.

Lemma AverageFrame_make_inserts_mean_witness :
  AF_make (Some "AverageFrame") first_job nb02_before = Ok (tt, nb02_one) /\
  exists dp fn im k r,
    fetch1 nb02_before "Session" first_job "data_path" = Ok (VStr dp) /\
    fetch1 nb02_before "Scan" first_job "file_name" = Ok (VStr fn) /\
    imread demo_fs (path_join dp fn) = Ok im /\
    contents nb02_before "AverageFrame" !! k = None /\
    r !! "average_frame" = Some (VBlob (BFrame (mean_frames im))) /\
    nb02_one = <["AverageFrame" := <[k := r]> (contents nb02_before "AverageFrame")]> nb02_before.
Proof.
  assert (H : AF_make (Some "AverageFrame") first_job nb02_before = Ok (tt, nb02_one))
    by decide_by_eval.
  split; [exact H|]. exact (AverageFrame_make_inserts_mean _ _ _ _ H).
Defined.

(** The electrophysiology notebook, before the [Neuron.populate()] that
    follows the real [make], and after the new session is inserted. *)
Definition nb04_before : db :=
  nb_db (run_cells mouse_session (firstn 4 (nb04_cells demo_fs "data" false))).1.

Definition nb04_new_session : db :=
  nb_db (run_cells mouse_session (firstn 8 (nb04_cells demo_fs "data" false))).1.

Definition N_make : make_fn := Neuron_make ephys_schema demo_fs "data".

Definition nb04_jobs (d : db) : list row :=
  match jobs_to_do ephys_schema "Neuron" Neuron_heading d with Ok l => l | Err _ => [] end.

Definition nb04_key : row := hd ∅ (nb04_jobs nb04_before).

Definition nb04_one : db :=
  match N_make (Some "Neuron") nb04_key nb04_before with Ok (_, d) => d | Err _ => ∅ end.

Lemma Neuron_make_rows_witness :
  N_make (Some "Neuron") nb04_key nb04_before = Ok (tt, nb04_one) /\
  exists p arr, data_file "data" nb04_key = Ok p /\ np_load demo_fs p = Ok arr /\
    forall i di, npy_rows arr !! i = Some di ->
    exists k r, contents nb04_one "Neuron" !! k = Some r /\
      r !! "neuron_id" = Some (VInt (Z.of_nat i)) /\
      r !! "activity" = Some (VBlob (BVec di)) /\
      r !! "mouse_id" = nb04_key !! "mouse_id" /\
      r !! "session_date" = nb04_key !! "session_date".
Proof.
  assert (H : N_make (Some "Neuron") nb04_key nb04_before = Ok (tt, nb04_one))
    by decide_by_eval.
  split; [exact H|]. exact (Neuron_make_rows _ _ _ _ _ H).
Defined.

Definition empty_session_file : string := "data/data_100_2017-06-01.npy".

Lemma Neuron_populate_empty_files_witness :
  jobs_to_do ephys_schema "Neuron" Neuron_heading nb04_new_session
    = Ok (nb04_jobs nb04_new_session) /\
  populate ephys_schema "Neuron" (Some N_make) nb04_new_session = (nb04_new_session, None) /\
  jobs_to_do ephys_schema "Neuron" Neuron_heading nb04_new_session
    = Ok (nb04_jobs nb04_new_session).
Proof.
  assert (Hj : jobs_to_do ephys_schema "Neuron" Neuron_heading nb04_new_session
               = Ok (nb04_jobs nb04_new_session)) by decide_by_eval.
  assert (Hall : Forall (fun key => exists p c, data_file "data" key = Ok p /\
                           np_load demo_fs p = Ok (mk_npy c []))
                   (nb04_jobs nb04_new_session)).
  { assert (E : nb04_jobs nb04_new_session = [hd ∅ (nb04_jobs nb04_new_session)])
      by decide_by_eval.
    rewrite E. constructor; [|constructor].
    exists empty_session_file, 2%nat. split; decide_by_eval. }
  split; [exact Hj|]. exact (Neuron_populate_empty_files _ _ _ _ Hj Hall).
Defined.

Definition session_key : row :=
  {[ "mouse_id" := VInt 100; "session_date" := VStr "2017-05-25" ]}.

Lemma data_file_parse_witness :
  data_file "data" session_key = Ok "data/data_100_2017-05-25.npy" /\
  parse_data_file_name "data" "data/data_100_2017-05-25.npy" = Some (100%Z, "2017-05-25").
Proof.
  assert (H : data_file "data" session_key = Ok "data/data_100_2017-05-25.npy")
    by decide_by_eval.
  split; [exact H|]. apply (data_file_parse _ _ _ _ _ H); decide_by_eval.
Defined.

Lemma data_file_inj_witness :
  data_file "data" session_key = Ok "data/data_100_2017-05-25.npy" /\
  (100 = 100 /\ "2017-05-25" = "2017-05-25")%Z.
Proof.
  assert (H : data_file "data" session_key = Ok "data/data_100_2017-05-25.npy")
    by decide_by_eval.
  split; [exact H|].
  apply (data_file_inj "data" session_key session_key _ _ _ _ _ H H); decide_by_eval.
Defined.

Definition demo_stack : tif := mk_tif 1 2 [[[1; 2]]; [[3; 5]]]%Z.

Lemma mean_frames_bounds_witness :
  tif_wf demo_stack /\ pixels_in 0 255 demo_stack /\ tif_frames demo_stack <> [] /\
  Forall (Forall (fun x => exists q, x = Fnum q /\ (inject_Z 0 <= q <= inject_Z 255)%Q))
    (mean_frames demo_stack).
Proof.
  assert (H1 : tif_wf demo_stack) by decide_by_eval.
  assert (H2 : pixels_in 0 255 demo_stack) by decide_by_eval.
  assert (H3 : tif_frames demo_stack <> []) by decide_by_eval.
  split_and!; [exact H1|exact H2|exact H3|].
  exact (mean_frames_bounds _ _ _ H1 H2 H3).
Defined.

(** A scan whose average frame is bright everywhere, and the parameter set
    [SegmentationParam.insert1((0, 50, 50))] of the computed-tables
    notebook. *)
Definition bright_frame : list (list pyfloat) := [[Fnum 120; Fnum 90]; [Fnum 75; Fnum 200]]%Q.

Definition seg_key : row :=
  list_to_map [("mouse_id", VInt 0); ("session_date", VStr "2017-05-15");
               ("scan_idx", VInt 1); ("seg_param_id", VInt 0)].

Definition seg_db : db :=
  match (insert computed_schema None "Mouse" [mouse_row 0] ;;;
         insert computed_schema None "Session" [session_row 0 "2017-05-15"] ;;;
         insert1 computed_schema None "Scan" (scan_row 0 "2017-05-15" 1 150 26 "example_scan_01.tif") ;;;
         insert1 computed_schema (Some "AverageFrame") "AverageFrame"
           (list_to_map [("mouse_id", VInt 0); ("session_date", VStr "2017-05-15");
                         ("scan_idx", VInt 1); ("average_frame", VBlob (BFrame bright_frame))]) ;;;
         insert1_tuple computed_schema None "SegmentationParam" [VInt 0; VInt 50; VInt 50]) ∅ with
  | Ok (_, d) => d | Err _ => ∅ end.

Lemma Segmentation_make_no_background_witness :
  fetch1 seg_db "AverageFrame" seg_key "average_frame" = Ok (VBlob (BFrame bright_frame)) /\
  fetch1 seg_db "SegmentationParam" seg_key "threshold" = Ok (VFloat (fof_Z 50)) /\
  fetch1 seg_db "SegmentationParam" seg_key "size_cutoff" = Ok (VFloat (fof_Z 50)) /\
  mjoin bright_frame <> [] /\ Forall (Forall (fun x => fgt x (fof_Z 50) = true)) bright_frame /\
  Segmentation_make computed_schema (Some "Segmentation") seg_key seg_db = Err PyIndexError.
Proof.
  assert (H1 : fetch1 seg_db "AverageFrame" seg_key "average_frame"
               = Ok (VBlob (BFrame bright_frame))) by decide_by_eval.
  assert (H2 : fetch1 seg_db "SegmentationParam" seg_key "threshold"
               = Ok (VFloat (fof_Z 50))) by decide_by_eval.
  assert (H3 : fetch1 seg_db "SegmentationParam" seg_key "size_cutoff"
               = Ok (VFloat (fof_Z 50))) by decide_by_eval.
  assert (H4 : mjoin bright_frame <> []) by decide_by_eval.
  assert (H5 : Forall (Forall (fun x => fgt x (fof_Z 50) = true)) bright_frame) by decide_by_eval.
  split_and!; try assumption.
  exact (Segmentation_make_no_background _ _ _ _ _ _ _ H1 H2 H3 H4 H5).
Defined.

(** A frame with two blobs above [threshold = 50]: one of two pixels and
    one of a single pixel, removed by [size_cutoff = 2]. *)
Definition two_blobs : list (list pyfloat) :=
  [[Fnum 100; Fnum 100; Fnum 0]; [Fnum 0; Fnum 0; Fnum 0]; [Fnum 0; Fnum 0; Fnum 80]]%Q.

Lemma segment_rois_witness :
  segment two_blobs (fof_Z 50) (fof_Z 2) = Ok [[1; 1; 0]; [0; 0; 0]; [0; 0; 0]]%Z /\
  (exists r c x, at2 two_blobs (r, c) = Some x /\ fgt x (fof_Z 50) = false) /\
  exists label_im, segment two_blobs (fof_Z 50) (fof_Z 2) = Ok label_im /\
    (forall v, v ∈ roi_labels label_im <-> v ∈ mjoin label_im /\ v <> 0%Z) /\
    (forall v, v ∈ roi_labels label_im ->
       flt (fof_Z (Z.of_nat (count_label (mjoin label_im) v))) (fof_Z 2) = false).
Proof.
  assert (H : exists r c x, at2 two_blobs (r, c) = Some x /\ fgt x (fof_Z 50) = false).
  { exists 1, 0, (Fnum 0). split; decide_by_eval. }
  split; [decide_by_eval|]. split; [exact H|]. exact (segment_rois _ _ _ H).
Defined.

(** Two frames of four pixels and an ROI made of the first and the last
    pixel. *)
Definition frames_reshaped : list (list Z) := [[1; 2; 3; 4]; [5; 6; 7; 8]]%Z.
Definition corner_mask : list bool := [true; false; false; true].
Definition corner_trace : list pyfloat :=
  match roi_trace frames_reshaped 4 corner_mask with Ok t => t | Err _ => [] end.

Lemma roi_trace_bounds_witness :
  corner_trace = [Fnum (5 # 2); Fnum (13 # 2)]%Q /\
  roi_trace frames_reshaped 4 corner_mask = Ok corner_trace /\
  Forall (fun frame => length frame = 4 /\ Forall (fun p => (0 <= p <= 255)%Z) frame)
    frames_reshaped /\ 0 < 4 /\ corner_mask !! 0 = Some true /\
  Forall (fun x => exists q, x = Fnum q /\ (inject_Z 0 <= q <= inject_Z 255)%Q) corner_trace.
Proof.
  assert (H1 : roi_trace frames_reshaped 4 corner_mask = Ok corner_trace) by decide_by_eval.
  assert (H2 : Forall (fun frame => length frame = 4 /\ Forall (fun p => (0 <= p <= 255)%Z) frame)
                 frames_reshaped) by decide_by_eval.
  assert (H3 : 0 < 4) by lia.
  assert (H4 : corner_mask !! 0 = Some true) by reflexivity.
  split; [decide_by_eval|]. split_and!; try assumption.
  exact (roi_trace_bounds _ _ _ _ _ _ _ H1 H2 H3 H4).
Defined.

(** The computed-tables notebook with its exercise cells filled in: two
    parameter sets for the frame [two_blobs], [Segmentation.populate()],
    then [(SegmentationParam() & 'seg_param_id = 0').delete()]. *)
Definition seg_setup : dbm unit :=
  insert computed_schema None "Mouse" [mouse_row 0] ;;;
  insert computed_schema None "Session" [session_row 0 "2017-05-15"] ;;;
  insert1 computed_schema None "Scan" (scan_row 0 "2017-05-15" 1 150 26 "example_scan_01.tif") ;;;
  insert1 computed_schema (Some "AverageFrame") "AverageFrame"
    (list_to_map [("mouse_id", VInt 0); ("session_date", VStr "2017-05-15");
                  ("scan_idx", VInt 1); ("average_frame", VBlob (BFrame two_blobs))]) ;;;
  insert1_tuple computed_schema None "SegmentationParam" [VInt 0; VInt 50; VInt 2] ;;;
  insert1_tuple computed_schema None "SegmentationParam" [VInt 1; VInt 90; VInt 1].

Definition seg_params_db : db := match seg_setup ∅ with Ok (_, d) => d | Err _ => ∅ end.

Definition segmented_db : db :=
  (populate computed_schema "Segmentation" (Some (Segmentation_make computed_schema))
     seg_params_db).1.

Definition deleted_db : db :=
  match Delete.delete_param0 segmented_db with Ok d => d | Err _ => ∅ end.

(** A ROI of the parameter set [0]: present before the delete, doomed
    through its segmentation, gone after. *)
Definition roi_entry0 : list keyval * row :=
  hd ([], ∅) (map_to_list (contents segmented_db "Segmentation.Roi")).

Lemma delete_refines_cascade_witness :
  roi_entry0.2 !! "seg_param_id" = Some (VInt 0) /\
  contents segmented_db "Segmentation.Roi" !! roi_entry0.1 = Some roi_entry0.2 /\
  contents deleted_db "Segmentation.Roi" !! roi_entry0.1 = None /\
  wf_schema computed_schema /\ db_wf computed_schema segmented_db /\
  Delete.delete computed_schema "SegmentationParam" {[ "seg_param_id" := VInt 0 ]} segmented_db = Ok deleted_db /\
  (contents deleted_db "Segmentation.Roi" !! roi_entry0.1 = Some roi_entry0.2 <->
   contents segmented_db "Segmentation.Roi" !! roi_entry0.1 = Some roi_entry0.2 /\
   ~ Delete.doomed computed_schema segmented_db "SegmentationParam" {[ "seg_param_id" := VInt 0 ]}
       "Segmentation.Roi" roi_entry0.2).
Proof.
  assert (H1 : db_wf computed_schema segmented_db) by decide_by_eval.
  assert (H2 : Delete.delete computed_schema "SegmentationParam" {[ "seg_param_id" := VInt 0 ]} segmented_db
               = Ok deleted_db) by decide_by_eval.
  split_and!; [decide_by_eval|decide_by_eval|decide_by_eval|exact computed_schema_wf|exact H1|exact H2|].
  exact (Delete.delete_refines_cascade _ _ _ _ _ _ _ _ computed_schema_wf H1 H2).
Defined.

(** The segmentation of parameter set [1], which the delete keeps. *)
Definition kept_segmentation : row := hd ∅ (rows deleted_db "Segmentation").

Lemma delete_param0_exact_witness :
  kept_segmentation !! "seg_param_id" = Some (VInt 1) /\
  kept_segmentation ∈ rows segmented_db "Segmentation" /\
  db_wf computed_schema segmented_db /\ Delete.delete_param0 segmented_db = Ok deleted_db /\
  (kept_segmentation ∈ rows deleted_db "Segmentation" <->
   kept_segmentation ∈ rows segmented_db "Segmentation" /\
   ("Segmentation" ∈ Delete.param_tables -> kept_segmentation !! "seg_param_id" <> Some (VInt 0))).
Proof.
  assert (H1 : db_wf computed_schema segmented_db) by decide_by_eval.
  assert (H2 : Delete.delete_param0 segmented_db = Ok deleted_db) by decide_by_eval.
  split; [decide_by_eval|]. split; [decide_by_eval|]. split_and!; [exact H1|exact H2|].
  exact (Delete.delete_param0_exact _ _ _ _ H1 H2).
Defined.

(** The two blobs of [two_blobs] are not connected: the pixels [(0, 0)]
    and [(2, 2)] get different labels. *)
Lemma segmentation_labels_components_witness :
  at2 (ndlabel (threshold_mask two_blobs (fof_Z 50))).1 (0, 0) = Some 1%Z /\
  at2 (ndlabel (threshold_mask two_blobs (fof_Z 50))).1 (2, 2) = Some 2%Z /\
  at2 two_blobs (0, 0) = Some (Fnum 100) /\ fgt (Fnum 100) (fof_Z 50) = true /\
  at2 two_blobs (2, 2) = Some (Fnum 80) /\ fgt (Fnum 80) (fof_Z 50) = true /\
  (at2 (ndlabel (threshold_mask two_blobs (fof_Z 50))).1 (0, 0) =
   at2 (ndlabel (threshold_mask two_blobs (fof_Z 50))).1 (2, 2) <->
   connected (threshold_mask two_blobs (fof_Z 50)) (0, 0) (2, 2)).
Proof.
  assert (H1 : at2 two_blobs (0, 0) = Some (Fnum 100)) by reflexivity.
  assert (H2 : fgt (Fnum 100) (fof_Z 50) = true) by reflexivity.
  assert (H3 : at2 two_blobs (2, 2) = Some (Fnum 80)) by reflexivity.
  assert (H4 : fgt (Fnum 80) (fof_Z 50) = true) by reflexivity.
  split; [decide_by_eval|]. split; [decide_by_eval|]. split_and!; try assumption.
  exact (segmentation_labels_components _ _ _ _ _ _ H1 H2 H3 H4).
Defined.

Lemma Segmentation_populate_complete_witness :
  jobs_to_do computed_schema "Segmentation" Segmentation_heading seg_params_db <> Ok [] /\
  populate computed_schema "Segmentation" (Some (Segmentation_make computed_schema)) seg_params_db
    = (segmented_db, None) /\
  jobs_to_do computed_schema "Segmentation" Segmentation_heading segmented_db = Ok [].
Proof.
  assert (H : populate computed_schema "Segmentation" (Some (Segmentation_make computed_schema))
                seg_params_db = (segmented_db, None)) by decide_by_eval.
  split; [decide_by_eval|]. split; [exact H|]. exact (Segmentation_populate_complete _ _ H).
Defined.

(** One run of [Segmentation.make] for the parameter set [0]. *)
Definition seg_one : db :=
  match Segmentation_make computed_schema (Some "Segmentation") seg_key seg_params_db with
  | Ok (_, d) => d | Err _ => ∅ end.

Lemma Segmentation_make_inserts_witness :
  rows seg_one "Segmentation.Roi" <> [] /\
  Segmentation_make computed_schema (Some "Segmentation") seg_key seg_params_db = Ok (tt, seg_one) /\
  exists img th cutoff label_im,
    (v <-? fetch1 seg_params_db "AverageFrame" seg_key "average_frame" ;; as_frame v) = Ok img /\
    (v <-? fetch1 seg_params_db "SegmentationParam" seg_key "threshold" ;; as_float v) = Ok th /\
    (v <-? fetch1 seg_params_db "SegmentationParam" seg_key "size_cutoff" ;; as_float v)
      = Ok cutoff /\
    segment img th cutoff = Ok label_im /\
    (exists r, r ∈ rows seg_one "Segmentation" /\
       <["segmented_masks" := VBlob (BLabels label_im)]> seg_key ⊆ r) /\
    forall i, i ∈ roi_labels label_im -> exists r, r ∈ rows seg_one "Segmentation.Roi" /\
      <["mask" := VBlob (BMask (label_mask label_im i))]> (<["roi_idx" := VInt i]> seg_key) ⊆ r.
Proof.
  assert (H : Segmentation_make computed_schema (Some "Segmentation") seg_key seg_params_db
              = Ok (tt, seg_one)) by decide_by_eval.
  split; [decide_by_eval|]. split; [exact H|]. exact (Segmentation_make_inserts _ _ _ H).
Defined.

(** A two-frame stack of the scan, of the shape of [two_blobs]. *)
Definition fluor_fs : fsys :=
  {[ "data/example_scan_01.tif" :=
       FTif (mk_tif 3 3 [[[100; 100; 0]; [0; 0; 0]; [0; 0; 80]];
                         [[120; 90; 10]; [0; 5; 0]; [0; 0; 60]]]%Z) ]}.

Definition fluor_db : db :=
  (populate computed_schema "Fluorescence" (Some (Fluorescence_make computed_schema fluor_fs))
     segmented_db).1.

Lemma Fluorescence_populate_complete_witness :
  length (rows fluor_db "Fluorescence.Trace") = 2 /\
  populate computed_schema "Fluorescence" (Some (Fluorescence_make computed_schema fluor_fs))
    segmented_db = (fluor_db, None) /\
  jobs_to_do computed_schema "Fluorescence" Fluorescence_heading fluor_db = Ok [].
Proof.
  assert (H : populate computed_schema "Fluorescence"
                (Some (Fluorescence_make computed_schema fluor_fs)) segmented_db = (fluor_db, None))
    by decide_by_eval.
  split; [decide_by_eval|]. split; [exact H|]. exact (Fluorescence_populate_complete _ _ _ H).
Defined.

Lemma mouse_session_inv : nb_inv mouse_session.
Proof.
  split; [|decide_by_eval].
  apply (declare_all_wf ∅ [Mouse; Session]); [apply wf_schema_empty|vm_compute; reflexivity].
Qed.

(** The electrophysiology notebook's exercises filled, after
    [pipeline.mouse] with its two sessions. *)
Lemma nb04_exercises_filled_witness :
  nb_schema mouse_session = schema_of [Mouse; Session] /\ nb_inv mouse_session /\
  length (rows (nb_db mouse_session) "Session") = 2 /\
  run_cells mouse_session (nb04_neuron_cells true) =
    (mk_nb ephys_schema (nb_db mouse_session) (<["Neuron" := print_make]> (delete "Neuron" (nb_make mouse_session))),
     [OutNone; OutExn (MakeNotImplemented "Neuron"); OutNone; OutNone;
      OutRows (rows (nb_db mouse_session) "Session")]).
Proof.
  assert (Hs : nb_schema mouse_session = schema_of [Mouse; Session]) by reflexivity.
  assert (HS : length (rows (nb_db mouse_session) "Session") = 2) by decide_by_eval.
  split_and!; [exact Hs|exact mouse_session_inv|exact HS|].
  assert (HS' : rows (nb_db mouse_session) "Session" <> []) by decide_by_eval.
  exact (nb04_exercises_filled mouse_session Hs mouse_session_inv HS').
Defined.

End Notebook.
