(* ===== verification/NotebookComputed.v ===== *)
(** * NotebookComputed: the database cells of the computed-tables notebook.

    [Module ComputedNotebook] gives the cells of [src/unnamed/part_001]
    from the definition of [SegmentationParam] to the plot of one ROI
    mask, and the cells of [Fluorescence], as a script of
    [Notebook.cell]s run from the state the imaging pipeline leaves. The
    notebook's [populate] calls are exercises ("ENTER YOUR CODE!") whose
    cells hold only a comment; [nb_computed_cells false] is the notebook as
    written, [nb_computed_cells true] the notebook with each exercise
    filled by the [populate] it asks for. The first delete is answered
    "No" (the cell says so), the second "Yes". The string restrictions
    ['seg_param_id = 0'] are the dict restriction [{seg_param_id: 0}].

    Its theorems: as written, the notebook never populates [Segmentation],
    so [masks[4]] raises [IndexError]; run as written or filled after the
    imaging notebook, it keeps the state well formed (filled, its
    [populate]s run [Segmentation.make] under [segmentation_schema], the
    schema its class definitions leave), and ends with no row of the
    parameter set [0] (the cascade reaches every segmentation and ROI
    computed with it); and, at the end, the witnesses of
    the claims on [Segmentation.populate()] with no parameter set and on
    the exploration cells. *)

From Stdlib Require Import ZArith QArith.
From S2P Require Import Prelude Values Schema Relation Populate Delete Files Imaging Segment Makes Computed Explore Notebooks.

Module ComputedNotebook.
Import Heading Pipeline Table AutoPopulate DataFiles Mean Label Segment Makes Computed Explore Notebook.
Local Open Scope string_scope.

(** ** Cells *)

Definition param0 : row := {[ "seg_param_id" := VInt 0 ]}.

(** Lines 441-643: the tables [SegmentationParam] and [Segmentation] with
    its part [Roi], and the cells showing them. *)
Definition nbc_define_cells : list cell :=
  [ DefineTable SegmentationParam None;
    DefineTable Segmentation (Some (Segmentation_make computed_schema));
    DefineTable Segmentation_Roi None;
    Show (QTable "Segmentation");
    Show (QTable "Segmentation.Roi") ].

(** Lines 668-805: [populate], the parameter sets [(0, 50, 50)] and
    [(1, 60, 50)], each followed by a [populate]. *)
Definition nbc_param_cells (filled : bool) : list cell :=
  exercise filled (Populate "Segmentation") ++
  [ Show (QTable "SegmentationParam");
    Insert1Tuple "SegmentationParam" [VInt 0; VInt 50; VInt 50];
    Show (QTable "SegmentationParam") ] ++
  exercise filled (Populate "Segmentation") ++
  [ Show (QTable "Segmentation");
    Insert1Tuple "SegmentationParam" [VInt 1; VInt 60; VInt 50];
    Show (QTable "SegmentationParam") ] ++
  exercise filled (Populate "Segmentation") ++
  [ Show (QTable "Segmentation") ].

(** Lines 837-909: the two deletes, and [masks = (Segmentation.Roi).fetch('mask')]
    with [plt.imshow(masks[4])]. *)
Definition nbc_delete_cells : list cell :=
  [ DeleteRows "Segmentation" param0 false;
    Show (QRestrict "SegmentationParam" param0);
    DeleteRows "SegmentationParam" param0 true;
    Show (QTable "Segmentation");
    FetchAt "Segmentation.Roi" "mask" 4 ].

Definition nb_computed_cells (filled : bool) : list cell :=
  nbc_define_cells ++ nbc_param_cells filled ++ nbc_delete_cells.

(** Lines 936-999: [Fluorescence] with its part [Trace], and its
    [populate]. *)
Definition nbc_fluorescence_cells (F : fsys) (filled : bool) : list cell :=
  [ DefineTable Fluorescence (Some (Fluorescence_make computed_schema F));
    DefineTable Fluorescence_Trace None ] ++
  exercise filled (Populate "Fluorescence").

(** The schema once the cells of lines 441-643 have run after the imaging
    notebook: the imaging tables and [SegmentationParam], [Segmentation],
    [Segmentation.Roi]. *)
Definition segmentation_schema : schema :=
  schema_of (imaging_decls ++ [SegmentationParam; Segmentation; Segmentation_Roi]).

(** The state the class definitions leave: well formed, with
    [segmentation_schema] and [Segmentation.make] bound. *)
Definition seg_state_ok (st : nb_state) : Prop :=
  nb_inv st /\ nb_schema st = segmentation_schema /\
  nb_make st !! "Segmentation" = Some (Segmentation_make computed_schema).

(** A cell that defines no class and populates only [Segmentation]. *)
Definition seg_cell (c : cell) : Prop :=
  (forall dcl mk, c <> DefineTable dcl mk) /\ (forall t, c = Populate t -> t = "Segmentation").

(** A cell that writes no row of [Segmentation.Roi]. *)
Definition keeps_roi (c : cell) : bool :=
  match c with
  | Populate _ => false
  | Insert t _ | Insert1 t _ | Insert1Tuple t _ => bool_decide (t <> "Segmentation.Roi")
  | _ => true
  end.

(** ** Lemmas *)

Lemma insert1_tuple_contents_other s allow t vs d u d' p :
  insert1_tuple s allow t vs d = Ok (u, d') -> p <> t -> contents d' p = contents d p.
Proof.
  unfold insert1_tuple. intros (h & d1 & (_ & ->)%slift_Ok_inv & H)%sbind_Ok_inv Hp.
  case_bool_decide; [|discriminate]. by eapply insert1_contents_other.
Qed.

Lemma run_stmt_contents_other (st : nb_state) (c : dbm unit) (t : string) (P : tbl -> Prop) :
  (forall d', c (nb_db st) = Ok (tt, d') -> contents d' t = contents (nb_db st) t) ->
  P (contents (nb_db st) t) -> P (contents (nb_db (run_stmt st c).1) t).
Proof.
  intros Hc HP. unfold run_stmt. destruct (c (nb_db st)) as [[[] d']|e] eqn:E; [|done].
  simpl. by rewrite (Hc d' eq_refl).
Qed.

(** A cell that writes no ROI leaves an empty [Segmentation.Roi] empty. *)
Lemma run_cell_keeps_roi st c :
  keeps_roi c = true -> contents (nb_db st) "Segmentation.Roi" = ∅ ->
  contents (nb_db (run_cell st c).1) "Segmentation.Roi" = ∅.
Proof.
  intros Hc He. destruct c as [dcl mk|t rs|t r|t vs|t|t key a|t a i|t cond []|q]; simpl in *;
    try done.
  - destruct (declare _ _); done.
  - apply bool_decide_eq_true_1 in Hc. apply run_stmt_contents_other; [|done].
    intros d' H. by eapply insert_contents_other.
  - apply bool_decide_eq_true_1 in Hc. apply run_stmt_contents_other; [|done].
    intros d' H. by eapply insert1_contents_other.
  - apply bool_decide_eq_true_1 in Hc. apply run_stmt_contents_other; [|done].
    intros d' H. by eapply insert1_tuple_contents_other.
  - destruct (Delete.delete _ _ _ _) as [d'|e] eqn:E; [|done]. simpl.
    unfold contents in *. destruct (d' !! "Segmentation.Roi") as [tb'|] eqn:Ed; [|done]. simpl.
    destruct (Delete.delete_contents_sub _ _ _ _ _ _ _ E Ed) as (tb & Ed0 & Hsub).
    rewrite Ed0 in He. simpl in He. subst tb. apply (anti_symm (⊆)); [done|apply map_empty_subseteq].
Qed.

Lemma run_cells_keeps_roi st cs :
  Forall (fun c => keeps_roi c = true) cs -> contents (nb_db st) "Segmentation.Roi" = ∅ ->
  contents (nb_db (run_cells st cs).1) "Segmentation.Roi" = ∅.
Proof.
  rewrite Forall_forall. intros Hcs.
  apply (run_cells_preserve (fun st => contents (nb_db st) "Segmentation.Roi" = ∅)).
  intros st' c Hin. by apply run_cell_keeps_roi, Hcs.
Qed.

Lemma run_cells_snoc st cs c :
  run_cells st (cs ++ [c])%list =
    let '(st1, os) := run_cells st cs in let '(st2, o) := run_cell st1 c in (st2, (os ++ [o])%list).
Proof.
  revert st. induction cs as [|c' cs IH]; intros st; simpl.
  - by destruct (run_cell st c).
  - destruct (run_cell st c') as [st1 o1]. rewrite IH.
    destruct (run_cells st1 cs) as [st2 os]. by destruct (run_cell st2 c).
Qed.

(** After the imaging notebook, the class definitions give the schema
    [segmentation_schema] and bind [Segmentation.make]. *)
Lemma nbc_define_state (st : nb_state) :
  nb_schema st = imaging_schema ->
  nb_schema (run_cells st nbc_define_cells).1 = segmentation_schema /\
  nb_db (run_cells st nbc_define_cells).1 = nb_db st /\
  nb_make (run_cells st nbc_define_cells).1 !! "Segmentation" = Some (Segmentation_make computed_schema).
Proof.
  destruct st as [s0 d m]. cbn [nb_schema]. intros ->. unfold nbc_define_cells.
  rewrite !nb_run_cells_cons_fst.
  rewrite (run_cell_define _ SegmentationParam _ (schema_of (imaging_decls ++ [SegmentationParam])))
    by (vm_compute; reflexivity).
  rewrite (run_cell_define _ Segmentation _ (schema_of (imaging_decls ++ [SegmentationParam; Segmentation])))
    by (vm_compute; reflexivity).
  rewrite (run_cell_define _ Segmentation_Roi _ segmentation_schema) by (vm_compute; reflexivity).
  simpl. split_and!; [done|done|]. by rewrite lookup_delete_ne, lookup_insert_eq.
Qed.

Lemma segmentation_schema_sub : segmentation_schema ⊆ computed_schema.
Proof. decide_by_eval. Qed.

Lemma segmentation_schema_Roi : is_Some (segmentation_schema !! "Segmentation.Roi").
Proof. decide_by_eval. Qed.

Lemma segmentation_schema_Segmentation : is_Some (segmentation_schema !! "Segmentation").
Proof. decide_by_eval. Qed.

(** Under [segmentation_schema], [Segmentation.make] keeps the database
    well formed: it is checked against the full schema, whose headings of
    the tables it writes are the same. *)
Lemma Segmentation_make_wf_partial allow key d d' :
  db_wf segmentation_schema d ->
  Segmentation_make computed_schema allow key d = Ok (tt, d') ->
  db_wf segmentation_schema d'.
Proof.
  intros Hwf H. eapply db_wf_schema_restrict.
  - exact segmentation_schema_sub.
  - apply (declare_all_wf ∅ (imaging_decls ++ [SegmentationParam; Segmentation; Segmentation_Roi])).
    + apply map_Forall_empty.
    + by vm_compute.
  - intros t tb Ht.
    destruct (decide (t = "Segmentation")) as [->|]; [exact segmentation_schema_Segmentation|].
    destruct (decide (t = "Segmentation.Roi")) as [->|]; [exact segmentation_schema_Roi|].
    rewrite (Segmentation_make_lookup_other _ _ _ _ _ _ _ H) in Ht by done.
    destruct (Hwf t tb Ht) as (h & Hh & _). eauto.
  - eapply Segmentation_make_wf; [|exact H]. eapply db_wf_schema_mono; [exact segmentation_schema_sub|exact Hwf].
Qed.

(** C19: As written, with its exercise cells empty, the computed-tables
    notebook never calls [Segmentation.populate()]; from a state with no
    ROI, none of its cells adds one, and its last cell,
    [plt.imshow(masks[4])] with [masks = (Segmentation.Roi).fetch('mask')],
    raises [IndexError]. *)
Theorem nb_computed_masks_IndexError st :
  contents (nb_db st) "Segmentation.Roi" = ∅ ->
  last (run_cells st (nb_computed_cells false)).2 = Some (OutExn PyIndexError).
Proof.
  intros He.
  change (nb_computed_cells false) with
    (removelast (nb_computed_cells false) ++ [FetchAt "Segmentation.Roi" "mask" 4])%list.
  rewrite run_cells_snoc.
  pose proof (run_cells_keeps_roi st (removelast (nb_computed_cells false))) as Hk.
  destruct (run_cells st _) as [st1 os]. simpl in Hk.
  specialize (Hk ltac:(decide_by_eval) He).
  simpl. unfold fetch_attr, rows. rewrite Hk. simpl. apply last_snoc.
Qed.

Lemma seg_state_ok_cell st c : seg_cell c -> seg_state_ok st -> seg_state_ok (run_cell st c).1.
Proof.
  intros [Hc Hpop] (Hinv & Hs & Hm). unfold seg_state_ok.
  destruct (run_cell_nodefine st c Hc) as [-> ->]. split_and!; [|done|done].
  apply run_cell_inv; [exact Hinv|]. destruct c; try exact I.
  specialize (Hpop t eq_refl). subst t. intros f Hf key d1 d2. rewrite Hs.
  pose proof (eq_trans (eq_sym Hf) Hm) as Ef. injection Ef as ->.
  apply Segmentation_make_wf_partial.
Qed.

Lemma seg_state_ok_run st cs : Forall seg_cell cs -> seg_state_ok st -> seg_state_ok (run_cells st cs).1.
Proof.
  rewrite Forall_forall. intros Hcs. apply run_cells_preserve.
  intros st' c Hin. by apply seg_state_ok_cell, Hcs.
Qed.

Lemma nbc_define_ok st :
  nb_schema st = imaging_schema -> nb_inv st -> seg_state_ok (run_cells st nbc_define_cells).1.
Proof.
  intros Hs Hinv. destruct (nbc_define_state st Hs) as (Hs1 & _ & Hm1).
  unfold seg_state_ok. split_and!; [|done|done].
  apply run_cells_inv_nopop; [repeat constructor; intros ? [=]|exact Hinv].
Qed.

Lemma nbc_cells_seg filled : Forall seg_cell (nbc_param_cells filled ++ nbc_delete_cells).
Proof. destruct filled; repeat constructor; intros; congruence. Qed.

(** The delete cells: the delete answered "No" changes nothing, the
    cascade from [SegmentationParam & 'seg_param_id = 0'] runs, and the
    cells showing or fetching leave the database alone. *)
Lemma nbc_delete_db st :
  seg_state_ok st ->
  exists d', Delete.delete segmentation_schema "SegmentationParam" param0 (nb_db st) = Ok d' /\
             nb_db (run_cells st nbc_delete_cells).1 = d'.
Proof.
  intros (_ & Hs & _).
  destruct (Delete.delete segmentation_schema "SegmentationParam" param0 (nb_db st)) as [d'|e] eqn:E.
  - exists d'. split; [done|]. unfold nbc_delete_cells. rewrite !nb_run_cells_cons_fst.
    cbn [run_cells run_cell fst]. rewrite Hs, E. done.
  - unfold Delete.delete, table_heading in E.
    destruct (segmentation_schema !! "SegmentationParam") eqn:Esp; [discriminate|].
    vm_compute in Esp. discriminate.
Qed.

(** Under [segmentation_schema], every row of [SegmentationParam],
    [Segmentation] or [Segmentation.Roi] with [seg_param_id = 0] is doomed
    by the delete of the parameter set [0]: a segmentation references its
    parameter set, a ROI its segmentation, on the same [seg_param_id]. *)
Lemma param0_doomed d t k r :
  db_wf segmentation_schema d -> t ∈ ["SegmentationParam"; "Segmentation"; "Segmentation.Roi"] ->
  contents d t !! k = Some r -> r !! "seg_param_id" = Some (VInt 0) ->
  Delete.doomed segmentation_schema d "SegmentationParam" param0 t r.
Proof.
  intros Hwf Ht.
  assert (HSP : forall k r, contents d "SegmentationParam" !! k = Some r ->
            r !! "seg_param_id" = Some (VInt 0) ->
            Delete.doomed segmentation_schema d "SegmentationParam" param0 "SegmentationParam" r)
    by (intros k' r' Hr' Hx; eapply Delete.doomed_root; [exact Hr'|by apply matches_singleton]).
  assert (Step : forall c p, parent_key_b segmentation_schema c p "seg_param_id" = true ->
            (forall k r, contents d p !! k = Some r -> r !! "seg_param_id" = Some (VInt 0) ->
               Delete.doomed segmentation_schema d "SegmentationParam" param0 p r) ->
            forall k r, contents d c !! k = Some r -> r !! "seg_param_id" = Some (VInt 0) ->
              Delete.doomed segmentation_schema d "SegmentationParam" param0 c r).
  { intros c p Hb Hp k' r' Hr' Hx. eapply Delete.doomed_by_parent; [exact Hwf|exact Hb|exact Hr'|].
    intros kp rp Hrp E. eapply Hp; [exact Hrp|congruence]. }
  assert (HSeg := Step "Segmentation" "SegmentationParam" ltac:(vm_compute; reflexivity) HSP).
  assert (HRoi := Step "Segmentation.Roi" "Segmentation" ltac:(vm_compute; reflexivity) HSeg).
  repeat (apply elem_of_cons in Ht as [->|Ht]); [apply HSP|apply HSeg|apply HRoi|by apply elem_of_nil in Ht].
Qed.

(** C23: Whether its exercises are left empty or filled, the
    computed-tables notebook run after the imaging notebook ends with no
    row of [SegmentationParam], [Segmentation] or [Segmentation.Roi]
    carrying [seg_param_id = 0]: the cascade of
    [(SegmentationParam() & 'seg_param_id = 0').delete()] reaches every
    segmentation and ROI computed with that parameter set, and the cells
    after it write nothing. *)
Theorem nb_computed_param0_gone filled st t r :
  nb_schema st = imaging_schema -> nb_inv st ->
  t ∈ ["SegmentationParam"; "Segmentation"; "Segmentation.Roi"] ->
  r ∈ rows (nb_db (run_cells st (nb_computed_cells filled)).1) t ->
  r !! "seg_param_id" <> Some (VInt 0).
Proof.
  intros Hs Hinv Ht Hr Hx.
  set (st2 := (run_cells (run_cells st nbc_define_cells).1 (nbc_param_cells filled)).1).
  assert (E : (run_cells st (nb_computed_cells filled)).1 = (run_cells st2 nbc_delete_cells).1).
  { unfold nb_computed_cells, st2. rewrite nb_run_cells_app_fst. apply nb_run_cells_app_fst. }
  assert (Hok : seg_state_ok st2).
  { apply seg_state_ok_run; [|exact (nbc_define_ok st Hs Hinv)].
    exact (proj1 (proj1 (Forall_app _ _ _) (nbc_cells_seg filled))). }
  destruct (nbc_delete_db _ Hok) as (d' & Hdel & Hd'). rewrite E, Hd' in Hr.
  destruct Hok as ([Hsw Hdw] & Hs2 & _). rewrite Hs2 in Hsw, Hdw.
  apply elem_of_rows in Hr as [k Hk].
  pose proof (Delete.delete_contents_lookup _ _ _ _ _ _ _ _ Hdel Hk) as Hk0.
  exact (Delete.doomed_removed _ _ _ _ _ _ _ Hsw Hdw Hdel (param0_doomed _ _ _ _ Hdw Ht Hk0 Hx) k Hk).
Qed.

(** ** Witnesses *)

(** The state the imaging notebook leaves, with small data files. *)
Definition imaging_state : nb_state := (run_cells mouse_session (nb02_cells demo_fs)).1.

Lemma nb_computed_masks_IndexError_witness :
  contents (nb_db imaging_state) "Segmentation.Roi" = ∅ /\
  last (run_cells imaging_state (nb_computed_cells false)).2 = Some (OutExn PyIndexError).
Proof.
  assert (H : contents (nb_db imaging_state) "Segmentation.Roi" = ∅) by decide_by_eval.
  split; [exact H|]. exact (nb_computed_masks_IndexError _ H).
Defined.

Lemma Segmentation_populate_no_params_witness :
  rows (nb_db imaging_state) "AverageFrame" <> [] /\
  rows (nb_db imaging_state) "SegmentationParam" = [] /\
  populate computed_schema "Segmentation" (Some (Segmentation_make computed_schema))
    (nb_db imaging_state) = (nb_db imaging_state, None).
Proof.
  assert (H : rows (nb_db imaging_state) "SegmentationParam" = []) by decide_by_eval.
  split; [decide_by_eval|]. split; [exact H|]. exact (Segmentation_populate_no_params _ H).
Defined.

(** An average frame of nine rows of eight pixels: a blob of 56 pixels
    above [60], a background row, and one bright pixel that [size_cutoff =
    50] removes; the parameter sets are the notebook's. *)
Definition explore_frame : list (list pyfloat) :=
  repeat (repeat (Fnum 100) 8) 7 ++ [repeat (Fnum 0) 8; Fnum 80 :: repeat (Fnum 0) 7].

Definition explore_setup : dbm unit :=
  insert computed_schema None "Mouse" [mouse_row 0] ;;;
  insert computed_schema None "Session" [session_row 0 "2017-05-15"] ;;;
  insert1 computed_schema None "Scan" (scan_row 0 "2017-05-15" 1 150 26 "example_scan_01.tif") ;;;
  insert1 computed_schema (Some "AverageFrame") "AverageFrame"
    (list_to_map [("mouse_id", VInt 0); ("session_date", VStr "2017-05-15");
                  ("scan_idx", VInt 1); ("average_frame", VBlob (BFrame explore_frame))]) ;;;
  insert1_tuple computed_schema None "SegmentationParam" [VInt 0; VInt 50; VInt 50] ;;;
  insert1_tuple computed_schema None "SegmentationParam" [VInt 1; VInt 60; VInt 50].

Definition explore_db : db := match explore_setup ∅ with Ok (_, d) => d | Err _ => ∅ end.

Definition explore_af_keys : list row := fetch_keys AverageFrame_heading explore_db "AverageFrame".

(** The key of [Segmentation.make] for the parameter set [1]. *)
Definition explore_key : row := <["seg_param_id" := VInt 1]> (hd ∅ explore_af_keys).

Definition explore_made : db :=
  match Segmentation_make computed_schema (Some "Segmentation") explore_key explore_db with
  | Ok (_, d) => d | Err _ => ∅ end.

Lemma explore_agrees_with_make_witness :
  length (rows explore_made "Segmentation.Roi") = 1 /\
  exists label_im,
    (Explore.run_cells explore_db (explore_cells computed_schema) ∅).1 !! "label_im" =
      Some (OVal (VBlob (BLabels label_im))) /\
    (exists r, r ∈ rows explore_made "Segmentation" /\
       <["segmented_masks" := VBlob (BLabels label_im)]> explore_key ⊆ r) /\
    (Explore.run_cells explore_db (explore_cells computed_schema) ∅).1 !! "rois" =
      Some (OMasks (map (label_mask label_im) (roi_labels label_im))) /\
    forall i, i ∈ roi_labels label_im -> exists r, r ∈ rows explore_made "Segmentation.Roi" /\
      <["mask" := VBlob (BMask (label_mask label_im i))]> (<["roi_idx" := VInt i]> explore_key) ⊆ r.
Proof.
  assert (H1 : table_heading computed_schema "AverageFrame" = Ok AverageFrame_heading) by decide_by_eval.
  assert (H2 : fetch_keys AverageFrame_heading explore_db "AverageFrame" =
                 hd ∅ explore_af_keys :: tail explore_af_keys) by decide_by_eval.
  assert (H3 : restrict (rows explore_db "AverageFrame") explore_key =
                 restrict (rows explore_db "AverageFrame") (hd ∅ explore_af_keys)) by decide_by_eval.
  assert (H4 : (v <-? fetch1 explore_db "SegmentationParam" explore_key "threshold" ;; as_float v)
                 = Ok (fof_Z 60)) by decide_by_eval.
  assert (H5 : (v <-? fetch1 explore_db "SegmentationParam" explore_key "size_cutoff" ;; as_float v)
                 = Ok (fof_Z 50)) by decide_by_eval.
  assert (H6 : Segmentation_make computed_schema (Some "Segmentation") explore_key explore_db
                 = Ok (tt, explore_made)) by decide_by_eval.
  split; [decide_by_eval|].
  exact (explore_agrees_with_make _ _ _ _ _ _ _ H1 H2 H3 H4 H5 H6).
Defined.

(** A stack of two 3x3 frames with a blob of two pixels, its average
    frame segmented with [threshold = 50], [size_cutoff = 1], and the ROI
    row of label [1]. *)
Definition stack2 : tif :=
  mk_tif 3 3 [[[100; 100; 0]; [0; 0; 0]; [0; 0; 0]]; [[100; 80; 0]; [0; 0; 0]; [0; 0; 0]]]%Z.

Definition stack2_labels : list (list Z) :=
  match segment (mean_frames stack2) (fof_Z 50) (fof_Z 1) with Ok l => l | Err _ => [] end.

Definition stack2_roi : row :=
  list_to_map [("mouse_id", VInt 0); ("session_date", VStr "2017-05-15"); ("scan_idx", VInt 1);
               ("seg_param_id", VInt 0); ("roi_idx", VInt 1);
               ("mask", VBlob (BMask (label_mask stack2_labels 1)))].

Lemma roi_mask_fits_stack_witness :
  stack2_labels = [[1; 1; 0]; [0; 0; 0]; [0; 0; 0]]%Z /\
  segment (mean_frames stack2) (fof_Z 50) (fof_Z 1) = Ok stack2_labels /\
  stack2_roi !! "mask" = Some (VBlob (BMask (label_mask stack2_labels 1))) /\
  proj_key Roi_heading stack2_roi !! "trace" = None /\
  trace_row Roi_heading stack2 stack2_roi =
    Ok (<["trace" := VBlob (BVec (map (fun frame => masked_mean frame (mjoin (label_mask stack2_labels 1)))
                                     (map mjoin (tif_frames stack2))))]> (proj_key Roi_heading stack2_roi)).
Proof.
  assert (H1 : segment (mean_frames stack2) (fof_Z 50) (fof_Z 1) = Ok stack2_labels) by decide_by_eval.
  assert (H2 : stack2_roi !! "mask" = Some (VBlob (BMask (label_mask stack2_labels 1)))) by decide_by_eval.
  assert (H3 : proj_key Roi_heading stack2_roi !! "trace" = None) by decide_by_eval.
  split; [decide_by_eval|]. split_and!; [exact H1|exact H2|exact H3|].
  exact (roi_mask_fits_stack _ _ _ _ _ _ _ H1 H2 H3).
Defined.

(** The filled notebook after the imaging notebook: a segmentation left
    at the end, of the parameter set [1]. *)
Definition final_segmentation : row :=
  hd ∅ (rows (nb_db (run_cells imaging_state (nb_computed_cells true)).1) "Segmentation").

Lemma nb_computed_param0_gone_witness :
  nb_schema imaging_state = imaging_schema /\ nb_inv imaging_state /\
  "Segmentation" ∈ ["SegmentationParam"; "Segmentation"; "Segmentation.Roi"] /\
  final_segmentation ∈ rows (nb_db (run_cells imaging_state (nb_computed_cells true)).1) "Segmentation" /\
  final_segmentation !! "seg_param_id" = Some (VInt 1) /\
  final_segmentation !! "seg_param_id" <> Some (VInt 0).
Proof.
  assert (Hs : nb_schema imaging_state = imaging_schema) by (vm_compute; reflexivity).
  assert (H : nb_inv imaging_state).
  { split; [rewrite Hs; exact imaging_schema_wf|decide_by_eval]. }
  assert (Hin : final_segmentation ∈ rows (nb_db (run_cells imaging_state (nb_computed_cells true)).1) "Segmentation")
    by decide_by_eval.
  assert (Ht : "Segmentation" ∈ ["SegmentationParam"; "Segmentation"; "Segmentation.Roi"])
    by (apply elem_of_cons; right; apply elem_of_cons; by left).
  split_and!; [exact Hs|exact H|exact Ht|exact Hin|decide_by_eval|].
  exact (nb_computed_param0_gone true _ _ _ Hs H Ht Hin).
Defined.

End ComputedNotebook.
