(* ===== verification/Docker.v ===== *)
(** * Docker: the image of the dev container.

    [src/unnamed/part_000] is the Dockerfile of the tutorials' dev
    container: on [python:3.7-slim] it adds the user [vscode], installs
    Docker from Docker's apt repository, [sudo] and the tools of the
    tutorials, lets the group [sudo] use [sudo] without a password, installs
    the Python requirements, sets the DataJoint credentials and starts the
    Docker daemon as [vscode].

    [Module Docker] models the part of the image these instructions change
    (accounts, directories, files as lists of lines, installed packages,
    downloaded apt lists, environment, the [USER] and the [CMD]) and each
    instruction as a step on it: a [RUN] runs its commands joined by [&&],
    the first failing command failing the build; the [CMD] runs at the
    start of a container, its commands joined by [;]. What the Debian and
    Docker packages install, and the base image, are taken from their
    documentation ([base_image], [pkg_groups], [pkg_files]); the network is
    taken to be up. The comment lines inside a [RUN] are dropped by Docker
    before the shell sees them, so they are not commands.

    Its theorem: in any image whose [USER] exists and may use [sudo]
    without a password, with [sudo] and Docker installed, the [CMD] starts
    the Docker daemon whether or not a stale pid file is left, because its
    commands are joined by [;]; the witness shows that the image the
    Dockerfile builds from the tutorials' requirements is such an image. *)

From Stdlib Require Import Ascii.
From S2P Require Import Prelude Values Files.

Module Docker.
Import PyStr.
Local Open Scope string_scope.

(** ** Shell words and paths *)

(** A double quote, which the shell line of [PS1] contains. *)
Definition dq : string := String "034"%char EmptyString.

(** The text before and after the last [c] of [s]. *)
Fixpoint split_last (c : ascii) (s : string) : option (string * string) :=
  match s with
  | EmptyString => None
  | String x s' =>
      match split_last c s' with
      | Some (a, b) => Some (String x a, b)
      | None => if bool_decide (x = c) then Some (EmptyString, s') else None
      end
  end.

Definition dirname (p : string) : string :=
  match split_last "/" p with Some (a, _) => a | None => "." end.

Definition basename (p : string) : string :=
  match split_last "/" p with Some (_, b) => b | None => p end.

(** The words of a line, split at spaces. *)
Fixpoint words_from (s cur : string) : list string :=
  match s with
  | EmptyString => match cur with EmptyString => [] | _ => [cur] end
  | String c s' =>
      if bool_decide (c = " "%char)
      then match cur with EmptyString => words_from s' EmptyString | _ => cur :: words_from s' EmptyString end
      else words_from s' (cur ++ String c EmptyString)
  end.

Definition words (s : string) : list string := words_from s EmptyString.

(** ** Commands and instructions *)

(** A piece of a double-quoted shell word: text, or a command
    substitution [$(prog)]. *)
Inductive part : Type :=
| Lit (s : string)
| Subst (prog : string).

Inductive cmd : Type :=
| AddUser (shell name : string)        (** [adduser --system --disabled-password --shell SHELL NAME] *)
| AptUpdate                            (** [apt-get update], [apt update] *)
| AptInstall (pkgs : list string)      (** [apt-get install PKGS -y] *)
| MkdirP (path : string)               (** [mkdir -m 0755 -p PATH] *)
| FetchKey (url out : string)          (** [curl -fsSL URL | gpg --dearmor -o OUT] *)
| TeeLine (line : list part) (path : string)  (** [echo "LINE" | tee PATH > /dev/null] *)
| AddToGroup (group user : string)     (** [usermod -aG GROUP USER] *)
| AptClean                             (** [apt-get clean] *)
| PipInstall (pkgs : list string)      (** [pip install --no-cache-dir PKGS] *)
| PipInstallReq (path : string)        (** [pip install --no-cache-dir -r PATH] *)
| AppendLine (line path : string)      (** [echo 'LINE' >> PATH] *)
| Rm (path : string)                   (** [rm PATH] *)
| Sudo (c : cmd)                       (** [sudo C] *)
| Dockerd.                             (** [dockerd] *)

Inductive instr : Type :=
| IFrom (image : string)
| IRun (cs : list cmd)                 (** [RUN c1 && c2 && ...] *)
| ICopy (src dst : string)
| IEnv (k v : string)
| IUser (u : string)
| ICmd (cs : list cmd).                (** [CMD bash -c "c1; c2"] *)

Inductive derr : Type :=
| CmdFailed (c : cmd)
| CopyFailed (src : string)
| NoSuchUser (u : string).

(** ** The image *)

Record image : Type := mk_image {
  im_users : gmap string (list string);   (** a user and its supplementary groups *)
  im_groups : gset string;
  im_dirs : gset string;
  im_files : gmap string (list string);   (** a file and its lines *)
  im_pkgs : gset string;
  im_lists : gset string;                 (** the apt repositories whose lists are downloaded *)
  im_env : gmap string string;
  im_user : string;
  im_cmd : list cmd;
  im_procs : list string                  (** the daemons a running container started *)
}.

Definition set_users (st : image) u : image :=
  mk_image u (im_groups st) (im_dirs st) (im_files st) (im_pkgs st) (im_lists st) (im_env st)
    (im_user st) (im_cmd st) (im_procs st).
Definition set_dirs (st : image) ds : image :=
  mk_image (im_users st) (im_groups st) ds (im_files st) (im_pkgs st) (im_lists st) (im_env st)
    (im_user st) (im_cmd st) (im_procs st).
Definition set_files (st : image) fs : image :=
  mk_image (im_users st) (im_groups st) (im_dirs st) fs (im_pkgs st) (im_lists st) (im_env st)
    (im_user st) (im_cmd st) (im_procs st).
Definition set_pkgs (st : image) gs fs ps : image :=
  mk_image (im_users st) gs (im_dirs st) fs ps (im_lists st) (im_env st)
    (im_user st) (im_cmd st) (im_procs st).
Definition set_lists (st : image) ls : image :=
  mk_image (im_users st) (im_groups st) (im_dirs st) (im_files st) (im_pkgs st) ls (im_env st)
    (im_user st) (im_cmd st) (im_procs st).
Definition set_env (st : image) e : image :=
  mk_image (im_users st) (im_groups st) (im_dirs st) (im_files st) (im_pkgs st) (im_lists st) e
    (im_user st) (im_cmd st) (im_procs st).
Definition set_user (st : image) u : image :=
  mk_image (im_users st) (im_groups st) (im_dirs st) (im_files st) (im_pkgs st) (im_lists st)
    (im_env st) u (im_cmd st) (im_procs st).
Definition set_cmd (st : image) cs : image :=
  mk_image (im_users st) (im_groups st) (im_dirs st) (im_files st) (im_pkgs st) (im_lists st)
    (im_env st) (im_user st) cs (im_procs st).
Definition set_procs (st : image) ps : image :=
  mk_image (im_users st) (im_groups st) (im_dirs st) (im_files st) (im_pkgs st) (im_lists st)
    (im_env st) (im_user st) (im_cmd st) ps.

(** ** The base image and the packages *)

(** [python:3.7-slim]: Debian with Python; only [root], the groups of
    [base-passwd], no apt lists. *)
Definition base_image : image :=
  mk_image {[ "root" := [] ]}
    (list_to_set ["root"; "sudo"; "staff"; "users"; "nogroup"])
    (list_to_set ["/"; "/etc"; "/etc/apt"; "/etc/apt/sources.list.d"; "/home"; "/root"; "/tmp";
                  "/var/run"])
    ∅ (list_to_set ["python3.7"; "pip"]) ∅ {[ "LANG" := "C.UTF-8" ]} "root" [] [].

Definition dpkg_arch : string := "amd64".
Definition codename : string := "bullseye".

Definition docker_list : string := "/etc/apt/sources.list.d/docker.list".
Definition docker_key : string := "/etc/apt/keyrings/docker.gpg".
Definition docker_pid : string := "/var/run/docker.pid".

Definition docker_pkgs : list string :=
  ["docker-ce"; "docker-ce-cli"; "containerd.io"; "docker-buildx-plugin"; "docker-compose-plugin"].

(** The repository a package comes from. *)
Definition pkg_repo (p : string) : string :=
  if bool_decide (p ∈ docker_pkgs) then "docker" else "debian".

(** The groups a package's install script adds. *)
Definition pkg_groups (p : string) : list string :=
  if bool_decide (p = "docker-ce") then ["docker"] else [].

(** The configuration files a package installs. *)
Definition pkg_files (p : string) : list (string * list string) :=
  if bool_decide (p = "sudo") then [("/etc/sudoers", ["root ALL=(ALL:ALL) ALL"; "%sudo ALL=(ALL:ALL) ALL"])]
  else if bool_decide (p = "bash-completion") then [("/etc/bash_completion", [". /usr/share/bash-completion/bash_completion"])]
  else [].

(** [$(prog)]: the output of [prog], empty when it is not installed. *)
Definition subst (st : image) (prog : string) : string :=
  if bool_decide (prog = "dpkg --print-architecture") then dpkg_arch
  else if bool_decide (prog = "lsb_release -cs") then
    (if bool_decide ("lsb-release" ∈ im_pkgs st) then codename else EmptyString)
  else EmptyString.

Definition expand (st : image) (ps : list part) : string :=
  foldr (fun p acc => match p with Lit s => s ++ acc | Subst prog => subst st prog ++ acc end)
    EmptyString ps.

(** An apt source line [deb [options] uri suite component...]: after the
    options it needs a uri, a suite and a component. *)
Definition source_ok (line : string) : bool :=
  match split_last "]" line with
  | Some (_, rest) => bool_decide (3 <= length (words rest))
  | None => bool_decide (4 <= length (words line))
  end.

(** What [apt-get update] downloads: Debian's lists, and Docker's when its
    source line is well formed and its key is present. *)
Definition apt_update (st : image) : option (gset string) :=
  match im_files st !! docker_list with
  | None => Some {[ "debian" ]}
  | Some lines =>
      if forallb source_ok lines && bool_decide (is_Some (im_files st !! docker_key))
      then Some (list_to_set ["debian"; "docker"]) else None
  end.

(** [sudo] lets [u] run a command without a password: [root], or a member
    of a group with a [NOPASSWD] rule. *)
Definition sudo_nopasswd (st : image) (u : string) : bool :=
  bool_decide (u = "root") ||
  existsb (fun g => bool_decide (("%" ++ g ++ " ALL=(ALL) NOPASSWD:ALL") ∈
                                 default [] (im_files st !! "/etc/sudoers")))
    (default [] (im_users st !! u)).

(** ** Running commands *)

Definition as_root (u : string) (c : cmd) (k : result derr image) : result derr image :=
  if bool_decide (u = "root") then k else Err (CmdFailed c).

Definition check (b : bool) (c : cmd) (k : result derr image) : result derr image :=
  if b then k else Err (CmdFailed c).

(** One command run by the user [u]. [adduser --system] without [--home]
    is taken to create [/home/NAME], as Debian's [adduser] does for a
    system user up to bullseye (the later [RUN] appends to
    [/home/vscode/.bashrc], which needs that directory); newer versions
    give a system user the home [/nonexistent] instead. *)
Fixpoint exec_cmd (u : string) (c : cmd) (st : image) : result derr image :=
  match c with
  | AddUser _ name =>
      as_root u c (check (bool_decide (im_users st !! name = None)) c
        (Ok (set_dirs (set_users st (<[name := []]> (im_users st)))
               ({[ "/home/" ++ name ]} ∪ im_dirs st))))
  | AptUpdate =>
      as_root u c (match apt_update st with Some ls => Ok (set_lists st ls) | None => Err (CmdFailed c) end)
  | AptInstall ps =>
      as_root u c (check (forallb (fun p => bool_decide (pkg_repo p ∈ im_lists st)) ps) c
        (Ok (set_pkgs st (list_to_set (ps ≫= pkg_groups) ∪ im_groups st)
               (list_to_map (ps ≫= pkg_files) ∪ im_files st)
               (list_to_set ps ∪ im_pkgs st))))
  | MkdirP path => as_root u c (Ok (set_dirs st ({[ path ]} ∪ im_dirs st)))
  | FetchKey url out =>
      as_root u c (check (bool_decide (dirname out ∈ im_dirs st)) c
        (Ok (set_files st (<[out := ["key of " ++ url]]> (im_files st)))))
  | TeeLine line path =>
      as_root u c (check (bool_decide (dirname path ∈ im_dirs st)) c
        (Ok (set_files st (<[path := [expand st line]]> (im_files st)))))
  | AddToGroup g name =>
      as_root u c (match im_users st !! name with
                   | Some gs => check (bool_decide (g ∈ im_groups st)) c
                                  (Ok (set_users st (<[name := (gs ++ [g])%list]> (im_users st))))
                   | None => Err (CmdFailed c)
                   end)
  | AptClean => as_root u c (Ok st)
  | PipInstall ps => Ok (set_pkgs st (im_groups st) (im_files st) (list_to_set (map (fun p => "pip:" ++ p) ps) ∪ im_pkgs st))
  | PipInstallReq path =>
      check (bool_decide (is_Some (im_files st !! path))) c
        (Ok (set_pkgs st (im_groups st) (im_files st) ({[ "pip:-r " ++ path ]} ∪ im_pkgs st)))
  | AppendLine line path =>
      check (bool_decide (dirname path ∈ im_dirs st)) c
        (Ok (set_files st (<[path := (default [] (im_files st !! path) ++ [line])%list]> (im_files st))))
  | Rm path =>
      as_root u c (check (bool_decide (is_Some (im_files st !! path))) c
        (Ok (set_files st (delete path (im_files st)))))
  | Sudo c' =>
      check (bool_decide ("sudo" ∈ im_pkgs st) && sudo_nopasswd st u) c (exec_cmd "root" c' st)
  | Dockerd =>
      as_root u c (check (bool_decide ("docker-ce" ∈ im_pkgs st)) c
        (Ok (set_procs st (im_procs st ++ ["dockerd"])%list)))
  end.

(** [c1 && c2 && ...]: the first failing command fails the whole. *)
Fixpoint and_chain (u : string) (cs : list cmd) (st : image) : result derr image :=
  match cs with
  | [] => Ok st
  | c :: cs' => st' <-? exec_cmd u c st ;; and_chain u cs' st'
  end.

(** [c1; c2; ...]: every command runs; the exit status of each. *)
Fixpoint seq_chain (u : string) (cs : list cmd) (st : image) : list bool * image :=
  match cs with
  | [] => ([], st)
  | c :: cs' =>
      let '(ok, st1) := match exec_cmd u c st with Ok st' => (true, st') | Err _ => (false, st) end in
      let '(oks, st2) := seq_chain u cs' st1 in
      (ok :: oks, st2)
  end.

(** ** Building and starting *)

(** A path of the build context, without its leading [./]. *)
Definition ctx_path (src : string) : string := default src (strip_prefix "./" src).

(** [COPY src dst]: into the directory [dst] when it ends with [/]. *)
Definition copy_dest (src dst : string) : string :=
  if bool_decide (strip_suffix "/" dst = None) then dst else dst ++ basename src.

Definition exec_instr (ctx : gmap string (list string)) (i : instr) (st : image)
    : result derr image :=
  match i with
  | IFrom _ => Ok st
  | IRun cs => and_chain (im_user st) cs st
  | ICopy src dst =>
      match ctx !! ctx_path src with
      | Some lines => Ok (set_files st (<[copy_dest src dst := lines]> (im_files st)))
      | None => Err (CopyFailed src)
      end
  | IEnv k v => Ok (set_env st (<[k := v]> (im_env st)))
  | IUser u => Ok (set_user st u)
  | ICmd cs => Ok (set_cmd st cs)
  end.

(** [docker build]: the instructions in order, stopping at the first
    failure. *)
Fixpoint build (ctx : gmap string (list string)) (ins : list instr) (st : image)
    : result derr image :=
  match ins with
  | [] => Ok st
  | i :: ins' => st' <-? exec_instr ctx i st ;; build ctx ins' st'
  end.

(** [docker run]: the [CMD] as the image's [USER], which must exist, with
    a pid file left by an earlier daemon or not. *)
Definition start (img : image) (stale_pid : bool) : result derr (list bool * image) :=
  let st := if stale_pid then set_files img (<[docker_pid := ["1"]]> (im_files img)) else img in
  match im_users img !! im_user img with
  | Some _ => Ok (seq_chain (im_user img) (im_cmd img) st)
  | None => Err (NoSuchUser (im_user img))
  end.

(** ** The Dockerfile *)

Definition sudoers_rule : string := "%sudo ALL=(ALL) NOPASSWD:ALL".

Definition ps1_line : string :=
  "export PS1=" ++ dq ++ "\[\e[32;1m\]\u\[\e[m\]@\[\e[34;1m\]\H\[\e[m\]:\[\e[33;1m\]\w\[\e[m\]$ " ++ dq.

(** [CMD bash -c "sudo rm /var/run/docker.pid; sudo dockerd"] *)
Definition docker_cmd : list cmd := [Sudo (Rm docker_pid); Sudo Dockerd].

Definition dockerfile : list instr :=
  [ IFrom "python:3.7-slim@sha256:85ddc7b500c5e33a6eec44adbde8347a8a07714f03fc638f2cf4b13837bac601";
    IRun [ AddUser "/bin/bash" "vscode";
           AptUpdate;
           AptInstall ["ca-certificates"; "curl"; "gnupg"; "lsb-release"];
           MkdirP "/etc/apt/keyrings";
           FetchKey "https://download.docker.com/linux/debian/gpg" docker_key;
           TeeLine [Lit "deb [arch="; Subst "dpkg --print-architecture";
                    Lit " signed-by=/etc/apt/keyrings/docker.gpg] https://download.docker.com/linux/debian ";
                    Subst "lsb_release -cs"; Lit " stable"] docker_list;
           AptUpdate;
           AptInstall docker_pkgs;
           AddToGroup "docker" "vscode";
           AptClean ];
    IRun [ AptUpdate;
           AptInstall ["sudo"; "git"; "bash-completion"; "graphviz"; "default-mysql-client"];
           AddToGroup "sudo" "vscode";
           AppendLine sudoers_rule "/etc/sudoers";
           PipInstall ["black"; "pip"];
           AppendLine ". /etc/bash_completion" "/home/vscode/.bashrc";
           AppendLine ps1_line "/home/vscode/.bashrc";
           AptClean ];
    ICopy "./requirements.txt" "/tmp/";
    IRun [ PipInstall ["black"; "faker"; "ipykernel"];
           PipInstallReq "/tmp/requirements.txt";
           Rm "/tmp/requirements.txt" ];
    IEnv "DJ_HOST" "fakeservices.datajoint.io";
    IEnv "DJ_USER" "root";
    IEnv "DJ_PASS" "simple";
    IUser "vscode";
    ICmd docker_cmd ].

(** The image built from a context with [requirements.txt]. *)
Definition docker_image : image :=
  match build {[ "requirements.txt" := [] ]} dockerfile base_image with
  | Ok img => img
  | Err _ => base_image
  end.

(** ** Lemmas *)

Lemma set_files_same (st : image) : set_files st (im_files st) = st.
Proof. by destruct st. Qed.

Lemma set_files_files (st : image) fs : im_files (set_files st fs) = fs.
Proof. done. Qed.

Lemma set_files_twice (st : image) fs fs' : set_files (set_files st fs) fs' = set_files st fs'.
Proof. done. Qed.

(** [sudo]'s rules are read from [/etc/sudoers] alone. *)
Lemma sudo_nopasswd_files (st : image) fs u :
  fs !! "/etc/sudoers" = im_files st !! "/etc/sudoers" ->
  sudo_nopasswd (set_files st fs) u = sudo_nopasswd st u.
Proof. intros H. unfold sudo_nopasswd. by destruct st; cbn in *; rewrite H. Qed.

(** [sudo dockerd] starts the daemon when [u] may use [sudo] and Docker is
    installed. *)
Lemma exec_sudo_dockerd u st :
  "sudo" ∈ im_pkgs st -> "docker-ce" ∈ im_pkgs st -> sudo_nopasswd st u = true ->
  exec_cmd u (Sudo Dockerd) st = Ok (set_procs st (im_procs st ++ ["dockerd"])%list).
Proof.
  intros Hs Hd Hn. cbn [exec_cmd]. unfold check, as_root.
  rewrite Hn, !bool_decide_eq_true_2 by done. reflexivity.
Qed.

(** ** The container's command *)

(** C20: The [CMD] of the image starts the Docker daemon whether or not a
    daemon left its pid file: in any image whose [USER] exists and may run
    [sudo] without a password, with [sudo] and Docker installed and no pid
    file, [sudo rm /var/run/docker.pid] succeeds exactly when the pid file
    was left stale, and since the commands are joined by [;], not [&&],
    [sudo dockerd] runs in both cases; the container is then the image
    with [dockerd] started and no pid file. *)
Theorem docker_cmd_starts_dockerd img stale :
  im_cmd img = docker_cmd -> is_Some (im_users img !! im_user img) ->
  "sudo" ∈ im_pkgs img -> "docker-ce" ∈ im_pkgs img ->
  sudo_nopasswd img (im_user img) = true -> im_files img !! docker_pid = None ->
  start img stale = Ok ([stale; true], set_procs img (im_procs img ++ ["dockerd"])%list).
Proof.
  intros Hc [gs Hu] Hs Hd Hn Hp. unfold start. rewrite Hu, Hc.
  unfold docker_cmd. destruct stale; cbn [seq_chain].
  - set (st := set_files img (<[docker_pid := ["1"]]> (im_files img))).
    assert (Hn' : sudo_nopasswd st (im_user img) = true)
      by (unfold st; rewrite sudo_nopasswd_files; [done|by rewrite lookup_insert_ne]).
    assert (E : exec_cmd (im_user img) (Sudo (Rm docker_pid)) st = Ok img).
    { cbn [exec_cmd]. unfold check, as_root.
      rewrite Hn', !bool_decide_eq_true_2 by (unfold st; cbn; rewrite ?lookup_insert_eq; done).
      unfold st. rewrite set_files_files, set_files_twice, delete_insert_id by done.
      by rewrite set_files_same. }
    rewrite E, exec_sudo_dockerd by done. reflexivity.
  - assert (E : exec_cmd (im_user img) (Sudo (Rm docker_pid)) img = Err (CmdFailed (Rm docker_pid))).
    { cbn [exec_cmd]. unfold check, as_root.
      rewrite Hn, !bool_decide_eq_true_2, bool_decide_eq_false_2 by (rewrite ?Hp; done).
      reflexivity. }
    rewrite E, exec_sudo_dockerd by done. reflexivity.
Qed.

(** ** Witnesses *)

(** The image the Dockerfile builds from the tutorials' requirements meets
    the conditions, and its container starts [dockerd] with no stale pid
    file. *)
Definition tutorial_ctx : gmap string (list string) :=
  {[ "requirements.txt" := ["datajoint"; "scikit-image"; "matplotlib"] ]}.

Lemma docker_cmd_starts_dockerd_witness :
  build tutorial_ctx dockerfile base_image = Ok docker_image /\
  start docker_image false
    = Ok ([false; true], set_procs docker_image (im_procs docker_image ++ ["dockerd"])%list).
Proof.
  split; [vm_compute; reflexivity|].
  exact (docker_cmd_starts_dockerd docker_image false
           ltac:(vm_compute; reflexivity) ltac:(vm_compute; eexists; reflexivity)
           ltac:(decide_by_eval) ltac:(decide_by_eval)
           ltac:(vm_compute; reflexivity) ltac:(vm_compute; reflexivity)).
Defined.

End Docker.
